(** * The temporal policy engine of JUNE ([june/policy.py])

    A shallow embedding of the policy classes, the two policy collections
    and the registry [Policies] with its two daily appliers, followed by
    the properties of the engine.

    Conventions.  Python floats are the kernel's binary64 floats.  A
    naive [datetime.datetime] is the number of microseconds since the
    start of the calendar, a [datetime.date] the number of days.  A
    dictionary that the code iterates over is an insertion-ordered
    association list ([dict]); a dictionary that is only read and written
    by key is a [gmap].  Code that raises, or that mutates objects shared
    with its caller, lives in the monad [M]: a state transformer in which
    an exception leaves the state reached so far in place. *)

From Stdlib Require Import ZArith PrimFloat Ascii.
From stdpp Require Import gmap strings list.

Local Open Scope string_scope.
Local Open Scope list_scope.
Local Open Scope Z_scope.

(** ** Exceptions and the monad of effects *)

(** The exception classes that the engine can raise: Python's built-in
    ones, [PolicyError] (policy.py:23), and [OtherError] for a class
    defined elsewhere (a collaborator's exception), named by its class
    name. *)
Inductive exception : Type :=
| TypeError
| ValueError
| KeyError
| AttributeError
| IndexError
| PolicyError
| OtherError (name : string).

Inductive outcome (A : Type) : Type :=
| Return (a : A)
| Raise (e : exception).
Arguments Return {A} a.
Arguments Raise {A} e.

Definition M (S A : Type) : Type := S -> outcome A * S.

Definition ret {S A} (a : A) : M S A := fun s => (Return a, s).

Definition bind {S A B} (c : M S A) (k : A -> M S B) : M S B :=
  fun s =>
    match c s with
    | (Return a, s') => k a s'
    | (Raise e, s') => (Raise e, s')
    end.

Definition raise {S A} (e : exception) : M S A := fun s => (Raise e, s).

Definition get {S} : M S S := fun s => (Return s, s).

Definition modify {S} (f : S -> S) : M S unit := fun s => (Return tt, f s).

(** Lifting of a computation that has no state of its own. *)
Definition lift {S A} (o : outcome A) : M S A := fun s => (o, s).

(** [try: c except: h]: a bare [except] clause catches every exception;
    what [c] had already written stays written. *)
Definition try_except {S A} (c : M S A) (h : M S A) : M S A :=
  fun s =>
    match c s with
    | (Return a, s') => (Return a, s')
    | (Raise _, s') => h s'
    end.

Declare Scope py_scope.
Delimit Scope py_scope with py.
Notation "x <- c ;; k" := (bind c (fun x => k))
  (at level 100, c at next level, right associativity) : py_scope.
Notation "c ;; k" := (bind c (fun _ => k))
  (at level 100, right associativity) : py_scope.
Local Open Scope py_scope.

(** [for x in xs: body x] *)
Fixpoint for_each {S X} (xs : list X) (body : X -> M S unit) : M S unit :=
  match xs with
  | [] => ret tt
  | x :: xs' => body x ;; for_each xs' body
  end.

(** ** Dictionaries that are iterated over *)

(** A Python [dict] keyed by strings, in insertion order.  Its keys are
    pairwise distinct ([dict_wf]); [dict_set] keeps them so. *)
Definition dict (V : Type) : Type := list (string * V).

Definition dict_keys {V} (d : dict V) : list string := d.*1.

Definition dict_wf {V} (d : dict V) : Prop := NoDup (dict_keys d).

Fixpoint dict_get {V} (k : string) (d : dict V) : option V :=
  match d with
  | [] => None
  | (k', v) :: d' => if decide (k' = k) then Some v else dict_get k d'
  end.

(** [d[k] = v]: overwrite in place, or append a new key at the end. *)
Fixpoint dict_set {V} (k : string) (v : V) (d : dict V) : dict V :=
  match d with
  | [] => [(k, v)]
  | (k', v') :: d' =>
      if decide (k' = k) then (k', v) :: d' else (k', v') :: dict_set k v d'
  end.

(** [d[k]] read: [KeyError] when the key is missing. *)
Definition dict_item {V} (k : string) (d : dict V) : outcome V :=
  match dict_get k d with
  | Some v => Return v
  | None => Raise KeyError
  end.

(** ** Dates *)

Definition datetime : Type := Z.
Definition date : Type := Z.

Definition us_per_day : Z := 86400000000.

(** [datetime.datetime.combine(d, datetime.datetime.min.time())]: midnight
    of day [d]. *)
Definition combine_min (d : date) : datetime := d * us_per_day.

(** The [date] part of a [datetime]. *)
Definition date_of (t : datetime) : date := t `div` us_per_day.

(** The values that reach [read_date]. *)
Inductive pyobj : Type :=
| PyNone
| PyStr (s : string)
| PyInt (n : Z)
| PyFloat (x : float)
| PyDate (d : date)
| PyDateTime (t : datetime).

(** [isinstance(v, datetime.date)]; [datetime.datetime] is a subclass of
    [datetime.date]. *)
Definition as_date (v : pyobj) : option date :=
  match v with
  | PyDate d => Some d
  | PyDateTime t => Some (date_of t)
  | _ => None
  end.

Section ReadDate.

(** [datetime.datetime.strptime(s, "%Y-%m-%d")], Python's own parser:
    [None] stands for its [ValueError]. *)
Variable strptime : string -> option datetime.

(** policy.py:47-67 *)
Definition read_date (v : pyobj) : outcome datetime :=
  match v with
  | PyStr s =>
      match strptime s with
      | Some t => Return t
      | None => Raise ValueError
      end
  | _ =>
      match as_date v with
      | Some d => Return (combine_min d)
      | None => Raise TypeError
      end
  end.

(** policy.py:28-45, the window that [Policy.__init__] stores. *)
Definition Policy_init (start_time end_time : pyobj)
  : outcome (datetime * datetime) :=
  match read_date start_time with
  | Raise e => Raise e
  | Return s =>
      match read_date end_time with
      | Raise e => Raise e
      | Return e => Return (s, e)
      end
  end.

End ReadDate.

(** ** The collaborators a policy reads *)

(** [june.infection.symptom_tag.SymptomTag]: the engine tells [mild] and
    [severe] apart from every other member of the enumeration. *)
Inductive SymptomTag : Type :=
| mild
| severe
| other_tag (n : Z).

Definition SymptomTag_eqb (a b : SymptomTag) : bool :=
  match a, b with
  | mild, mild | severe, severe => true
  | other_tag n, other_tag m => n =? m
  | _, _ => false
  end.

Record Symptoms : Type := { tag : SymptomTag }.

Record HealthInformation : Type := {
  hi_tag : SymptomTag;
  time_of_symptoms_onset : option float;
}.

(** A co-resident, as far as the engine looks at one. *)
Record Resident : Type := { resident_lockdown_status : option string }.

(** A group (household, school, company, hospital, ...) and the subgroup
    of it that a person occupies. *)
Record Group : Type := {
  group_id : Z;
  spec : string;
  residents : list Resident;
}.

Record Subgroup : Type := { group : Group }.

Record Person : Type := {
  age : Z;
  symptoms : option Symptoms;
  health_information : option HealthInformation;
  lockdown_status : option string;
  primary_activity : option Subgroup;
  residence : option Subgroup;
  hospital : option Subgroup;
}.

(** One entry of [leisure.leisure_distributors]: the two age-banded
    probability curves of a social venue distributor. *)
Definition curve : Type := list float.

Record distributor : Type := {
  male_probabilities : curve;
  female_probabilities : curve;
}.

Record Interaction : Type := { beta : gmap string (option float) }.

Record Leisure : Type := { leisure_distributors : gmap string distributor }.

(** ** Policies *)

(** [leisure_probabilities[activity]]: always built with both keys. *)
Record by_sex : Type := { men : curve; women : curve }.

(** The concrete policy classes with what each adds to the window. *)
Inductive policy_body : Type :=
| SocialDistancing
    (beta_factors : dict float) (original_betas : dict (option float))
| CloseLeisureVenue (venues_to_close : list string)
| PermanentPolicy
| Quarantine (n_days n_days_household household_complacency : float)
| Shielding (min_age : Z) (complacency : option float)
| CloseSchools (years_to_close : option (list Z)) (full_closure : option bool)
| CloseUniversities
| CloseCompanies (full_closure : option bool)
    (random_work_probability : option float)
| ChangeLeisureProbability
    (leisure_probabilities : dict by_sex)
    (original_leisure_probabilities : dict (dict curve)).

Record Policy : Type := {
  start_time : datetime;
  end_time : datetime;
  body : policy_body;
}.

(** policy.py:75-84 and its override policy.py:387-391 *)
Definition is_active (policy : Policy) (date : datetime) : bool :=
  match body policy with
  | ChangeLeisureProbability _ _ =>
      (start_time policy <=? date) && (date <=? end_time policy)
  | _ => (start_time policy <=? date) && (date <? end_time policy)
  end.

(** A class, seen through [isinstance]. *)
Definition policy_type : Type := Policy -> bool.

Definition is_SocialDistancing : policy_type :=
  fun p => match body p with SocialDistancing _ _ => true | _ => false end.

Definition is_CloseLeisureVenue : policy_type :=
  fun p => match body p with CloseLeisureVenue _ => true | _ => false end.

Definition is_ChangeLeisureProbability : policy_type :=
  fun p =>
    match body p with ChangeLeisureProbability _ _ => true | _ => false end.

Definition is_StayHome : policy_type :=
  fun p =>
    match body p with
    | PermanentPolicy | Quarantine _ _ _ | Shielding _ _ => true
    | _ => false
    end.

Definition is_SkipActivity : policy_type :=
  fun p =>
    match body p with
    | CloseSchools _ _ | CloseUniversities | CloseCompanies _ _ => true
    | _ => false
    end.

(** *** Constructors *)

(** policy.py:87-98: every configured key starts with the snapshot
    [None]. *)
Definition new_SocialDistancing
  (start_time end_time : datetime) (beta_factors : dict float) : Policy :=
  {| start_time := start_time; end_time := end_time;
     body := SocialDistancing beta_factors
               (foldl (fun ob key => dict_set key None ob) []
                  (dict_keys beta_factors)) |}.

(** policy.py:354-385, after [parse_age_probabilites] has turned the
    configured tables into curves: every configured activity starts with
    the empty snapshot. *)
Definition new_ChangeLeisureProbability
  (start_time end_time : datetime)
  (leisure_activities_probabilities : dict by_sex) : Policy :=
  {| start_time := start_time; end_time := end_time;
     body :=
       ChangeLeisureProbability
         (foldl (fun lp '(activity, c) => dict_set activity c lp) []
            leisure_activities_probabilities)
         (foldl (fun ol activity => dict_set activity [] ol) []
            (dict_keys leisure_activities_probabilities)) |}.

(** policy.py:266-274 *)
Inductive years_arg : Type :=
| years_none
| years_all
| years_list (years : list Z).

Definition new_CloseSchools
  (start_time end_time : datetime)
  (years_to_close : years_arg) (full_closure : option bool) : Policy :=
  {| start_time := start_time; end_time := end_time;
     body :=
       CloseSchools
         match years_to_close with
         | years_none => None
         | years_all => Some (seqZ 0 20)
         | years_list years => Some years
         end
         full_closure |}.

(** ** The registry and the objects it shares with the appliers *)

(** What a daily applier works on: the policy objects of the registry
    [self.policies], addressed by their position, and the collaborator
    passed as argument.  A policy selected for the day is a reference to
    an object of the registry, that is, a position. *)
Record store (C : Type) : Type := {
  policies : list Policy;
  collab : C;
}.
Arguments policies {C} s.
Arguments collab {C} s.

Section Registry.

Context {C : Type}.

Definition get_policy (i : nat) : M (store C) Policy :=
  fun s =>
    match policies s !! i with
    | Some policy => (Return policy, s)
    | None => (Raise IndexError, s)
    end.

(** The object [policy] with a new value for what its class adds. *)
Definition with_body (policy : Policy) (b : policy_body) : Policy :=
  {| start_time := start_time policy;
     end_time := end_time policy;
     body := b |}.

Definition set_body (i : nat) (b : policy_body) : M (store C) unit :=
  policy <- get_policy i ;;
  modify (fun s =>
    {| policies := <[i := with_body policy b]> (policies s);
       collab := collab s |}).

Definition update_collab (f : C -> C) : M (store C) unit :=
  modify (fun s => {| policies := policies s; collab := f (collab s) |}).

(** The positions, from [n] on, of the policies of [ps] that pass
    [keep]. *)
Fixpoint select_from (n : nat) (keep : Policy -> bool) (ps : list Policy)
  : list nat :=
  match ps with
  | [] => []
  | policy :: ps' =>
      if keep policy then n :: select_from (S n) keep ps'
      else select_from (S n) keep ps'
  end.

(** policy.py:478-483 *)
Definition get_active_policies_for_type
  (type : policy_type) (date : datetime) : M (store C) (list nat) :=
  s <- get ;;
  ret (select_from 0 (fun policy => type policy && is_active policy date)
         (policies s)).

End Registry.

(** policy.py:451-453, given the baseline [PermanentPolicy()] that the
    constructor builds. *)
Definition Policies_init (baseline : Policy) (policies : list Policy)
  : list Policy :=
  baseline :: policies.

(** ** Social distancing (policy.py:518-546) *)

Definition load_beta (key : string) : M (store Interaction) (option float) :=
  fun s =>
    match beta (collab s) !! key with
    | Some b => (Return b, s)
    | None => (Raise KeyError, s)
    end.

Definition store_beta (key : string) (value : option float)
  : M (store Interaction) unit :=
  update_collab (fun interaction =>
    {| beta := <[key := value]> (beta interaction) |}).

(** [b * value]; the coefficient [None] cannot be multiplied. *)
Definition scale (b : option float) (value : float) : outcome (option float) :=
  match b with
  | Some x => Return (Some (x * value)%float)
  | None => Raise TypeError
  end.

(** [policy.original_betas[key] = b] *)
Definition set_original_beta (i : nat) (key : string) (b : option float)
  : M (store Interaction) unit :=
  policy <- get_policy i ;;
  match body policy with
  | SocialDistancing beta_factors original_betas =>
      set_body i (SocialDistancing beta_factors (dict_set key b original_betas))
  | _ => raise AttributeError
  end.

(** policy.py:538-539 *)
Definition restore_betas (i : nat) : M (store Interaction) unit :=
  policy <- get_policy i ;;
  match body policy with
  | SocialDistancing _ original_betas =>
      for_each original_betas (fun '(key, value) => store_beta key value)
  | _ => raise AttributeError
  end.

(** policy.py:545-546, one turn of the loop. *)
Definition save_and_scale_beta (i : nat) (key : string) (value : float)
  : M (store Interaction) unit :=
  b <- load_beta key ;;
  set_original_beta i key b ;;
  b' <- load_beta key ;;
  scaled <- lift (scale b' value) ;;
  store_beta key scaled.

(** policy.py:544-546 *)
Definition save_and_scale_betas (i : nat) : M (store Interaction) unit :=
  policy <- get_policy i ;;
  match body policy with
  | SocialDistancing beta_factors _ =>
      for_each beta_factors (fun '(key, value) =>
        save_and_scale_beta i key value)
  | _ => raise AttributeError
  end.

Definition get_social_distancing_policies (date : datetime)
  : M (store Interaction) (list nat) :=
  get_active_policies_for_type is_SocialDistancing date.

Definition deactivate_expiring (date : datetime) (i : nat)
  : M (store Interaction) unit :=
  policy <- get_policy i ;;
  if end_time policy =? date then restore_betas i else ret tt.

Definition activate_starting (date : datetime) (i : nat)
  : M (store Interaction) unit :=
  policy <- get_policy i ;;
  if start_time policy =? date then save_and_scale_betas i else ret tt.

Definition apply_social_distancing_policy (date : datetime)
  : M (store Interaction) unit :=
  social_distancing_policies <- get_social_distancing_policies date ;;
  for_each social_distancing_policies (deactivate_expiring date) ;;
  for_each social_distancing_policies (activate_starting date).

(** ** Leisure probabilities (policy.py:557-606) *)

(** Assignment to an attribute of [leisure.leisure_distributors[activity]],
    an object that the table holds. *)
Definition update_distributor (activity : string)
  (f : distributor -> distributor) : M (store Leisure) unit :=
  update_collab (fun leisure =>
    {| leisure_distributors :=
         alter f activity (leisure_distributors leisure) |}).

Definition set_male_probabilities (c : curve) (d : distributor) : distributor :=
  {| male_probabilities := c;
     female_probabilities := female_probabilities d |}.

Definition set_female_probabilities (c : curve) (d : distributor)
  : distributor :=
  {| male_probabilities := male_probabilities d;
     female_probabilities := c |}.

(** [policy.original_leisure_probabilities[activity][sex] = c] *)
Definition set_original_leisure_probability
  (i : nat) (activity sex : string) (c : curve) : M (store Leisure) unit :=
  policy <- get_policy i ;;
  match body policy with
  | ChangeLeisureProbability leisure_probabilities original =>
      snapshot <- lift (dict_item activity original) ;;
      set_body i
        (ChangeLeisureProbability leisure_probabilities
           (dict_set activity (dict_set sex c snapshot) original))
  | _ => raise AttributeError
  end.

(** [policy.original_leisure_probabilities[activity][sex]] *)
Definition get_original_leisure_probability
  (i : nat) (activity sex : string) : M (store Leisure) curve :=
  policy <- get_policy i ;;
  match body policy with
  | ChangeLeisureProbability _ original =>
      snapshot <- lift (dict_item activity original) ;;
      lift (dict_item sex snapshot)
  | _ => raise AttributeError
  end.

(** policy.py:568-588, one turn of the loop. *)
Definition activate_leisure_activity
  (i : nat) (activity : string) (configured : by_sex)
  : M (store Leisure) unit :=
  s <- get ;;
  match leisure_distributors (collab s) !! activity with
  | None => raise PolicyError
  | Some activity_distributor =>
      set_original_leisure_probability i activity "men"
        (male_probabilities activity_distributor) ;;
      set_original_leisure_probability i activity "women"
        (female_probabilities activity_distributor) ;;
      update_distributor activity (set_male_probabilities (men configured)) ;;
      update_distributor activity
        (set_female_probabilities (women configured))
  end.

(** policy.py:567-588 *)
Definition activate_leisure (i : nat) : M (store Leisure) unit :=
  policy <- get_policy i ;;
  match body policy with
  | ChangeLeisureProbability leisure_probabilities _ =>
      for_each leisure_probabilities (fun '(activity, configured) =>
        activate_leisure_activity i activity configured)
  | _ => raise AttributeError
  end.

(** policy.py:592-606, one turn of the loop. *)
Definition restore_leisure_activity (i : nat) (activity : string)
  : M (store Leisure) unit :=
  s <- get ;;
  match leisure_distributors (collab s) !! activity with
  | None => raise PolicyError
  | Some _ =>
      c <- get_original_leisure_probability i activity "men" ;;
      update_distributor activity (set_male_probabilities c) ;;
      c <- get_original_leisure_probability i activity "women" ;;
      update_distributor activity (set_female_probabilities c)
  end.

(** policy.py:591-606 *)
Definition restore_leisure (i : nat) : M (store Leisure) unit :=
  policy <- get_policy i ;;
  match body policy with
  | ChangeLeisureProbability leisure_probabilities _ =>
      for_each leisure_probabilities (fun '(activity, _) =>
        restore_leisure_activity i activity)
  | _ => raise AttributeError
  end.

Definition get_change_leisure_probabilities_policies (date : datetime)
  : M (store Leisure) (list nat) :=
  get_active_policies_for_type is_ChangeLeisureProbability date.

(** The body of the loop, policy.py:565-606. *)
Definition change_leisure (date : datetime) (i : nat)
  : M (store Leisure) unit :=
  policy <- get_policy i ;;
  if start_time policy =? date then activate_leisure i
  else if end_time policy =? date then restore_leisure i
  else ret tt.

Definition apply_change_probabilities_leisure (date : datetime)
  : M (store Leisure) unit :=
  active_policies <- get_change_leisure_probabilities_policies date ;;
  for_each active_policies (change_leisure date).

(** ** Policies that are predicates over a person *)

(** policy.py:113-128 *)
Definition remove_activities (activities activities_to_remove : list string)
  : list string :=
  filter (fun activity => activity ∉ activities_to_remove) activities.

(** Python's truth value of an optional flag. *)
Definition truthy (flag : option bool) : bool :=
  match flag with
  | Some b => b
  | None => false
  end.

(** The loop of policy.py:283-288: true as soon as a second key worker
    is met among the residents. *)
Fixpoint second_keyworker (rs : list Resident) (keyworkers_parents : Z)
  : bool :=
  match rs with
  | [] => false
  | person :: rs' =>
      if bool_decide (resident_lockdown_status person = Some "key_worker")
      then
        let keyworkers_parents := keyworkers_parents + 1 in
        if keyworkers_parents >? 1 then true
        else second_keyworker rs' keyworkers_parents
      else second_keyworker rs' keyworkers_parents
  end.

(** [person.primary_activity is not None and
     person.primary_activity.group.spec == name] *)
Definition primary_activity_is (person : Person) (name : string) : bool :=
  match primary_activity person with
  | Some subgroup => bool_decide (spec (group subgroup) = name)
  | None => false
  end.

Section Predicates.

(** The state of what lies outside the engine: the random number
    generator and the households. *)
Context {Env : Type}.

(** [np.random.rand()] *)
Variable rand : Env -> float * Env.

(** [group.quarantine(days_from_start, n_days_household,
    household_complacency=...)], the household's own check. *)
Variable quarantine : Group -> float -> float -> float -> M Env bool.

Definition np_random_rand : M Env float :=
  fun env => let (x, env') := rand env in (Return x, env').

(** Reading an attribute of an object that may be [None]. *)
Definition attr {A} (o : option A) : M Env A :=
  match o with
  | Some a => ret a
  | None => raise AttributeError
  end.

(** policy.py:177-192 *)
Definition PermanentPolicy_must_stay_at_home (person : Person) : bool :=
  match health_information person with
  | Some info => SymptomTag_eqb (hi_tag info) severe
  | None => false
  end.

(** policy.py:228-236, the statements under [try]; the value is the
    [self_quarantine] they leave. *)
Definition self_quarantine_check
  (n_days : float) (person : Person) (days_from_start : float)
  : M Env bool :=
  s <- attr (symptoms person) ;;
  if SymptomTag_eqb (tag s) mild || SymptomTag_eqb (tag s) severe then
    info <- attr (health_information person) ;;
    match time_of_symptoms_onset info with
    | None => raise TypeError
    | Some time_of_symptoms_onset =>
        let release_day := (time_of_symptoms_onset + n_days)%float in
        ret ((days_from_start <? release_day)%float
             && (time_of_symptoms_onset <? days_from_start)%float)
    end
  else ret false.

(** policy.py:225-244 *)
Definition Quarantine_must_stay_at_home
  (n_days n_days_household household_complacency : float)
  (person : Person) (days_from_start : float) : M Env bool :=
  self_quarantine <-
    try_except (self_quarantine_check n_days person days_from_start)
      (ret false) ;;
  home <- attr (residence person) ;;
  housemates_quarantine <-
    quarantine (group home) days_from_start n_days_household
      household_complacency ;;
  ret (self_quarantine || housemates_quarantine).

(** policy.py:259-263 *)
Definition Shielding_must_stay_at_home
  (min_age : Z) (complacency : option float) (person : Person)
  : M Env bool :=
  if age person >=? min_age then
    match complacency with
    | None => ret true
    | Some c =>
        x <- np_random_rand ;;
        if (x <? c)%float then ret true else ret false
    end
  else ret false.

Definition must_stay_at_home
  (policy : Policy) (person : Person) (days_from_start : float)
  : M Env bool :=
  match body policy with
  | PermanentPolicy => ret (PermanentPolicy_must_stay_at_home person)
  | Quarantine n_days n_days_household household_complacency =>
      Quarantine_must_stay_at_home n_days n_days_household
        household_complacency person days_from_start
  | Shielding min_age complacency =>
      Shielding_must_stay_at_home min_age complacency person
  | _ => raise AttributeError
  end.

(** policy.py:276-289 *)
Definition _check_kid_goes_to_school (person : Person) : M Env bool :=
  if age person <? 14 then
    home <- attr (residence person) ;;
    ret (second_keyworker (residents (group home)) 0)
  else ret false.

(** policy.py:291-302 *)
Definition CloseSchools_skip_activity
  (years_to_close : option (list Z)) (full_closure : option bool)
  (person : Person) (activities : list string) : M Env (list string) :=
  if primary_activity_is person "school" then
    closed <-
      (if truthy full_closure then ret true
       else match years_to_close with
            | Some years => ret (bool_decide (age person ∈ years))
            | None => raise TypeError
            end) ;;
    if closed then
      goes <- _check_kid_goes_to_school person ;;
      if negb goes then
        ret (remove_activities activities ["primary_activity"])
      else ret activities
    else ret activities
  else ret activities.

(** policy.py:311-319 *)
Definition CloseUniversities_skip_activity
  (person : Person) (activities : list string) : list string :=
  if primary_activity_is person "university" then
    remove_activities activities ["primary_activity"]
  else activities.

(** policy.py:334-351 *)
Definition CloseCompanies_skip_activity
  (full_closure : option bool) (random_work_probability : option float)
  (person : Person) (activities : list string) : M Env (list string) :=
  if primary_activity_is person "company" then
    if truthy full_closure
       || bool_decide (lockdown_status person = Some "furlough")
    then ret (remove_activities activities ["primary_activity"; "commute"])
    else if bool_decide (lockdown_status person = Some "random") then
      match random_work_probability with
      | Some p =>
          x <- np_random_rand ;;
          if (p <? x)%float then
            ret (remove_activities activities
                   ["primary_activity"; "commute"])
          else ret activities
      | None => ret activities
      end
    else ret activities
  else ret activities.

Definition skip_activity
  (policy : Policy) (person : Person) (activities : list string)
  : M Env (list string) :=
  match body policy with
  | CloseSchools years_to_close full_closure =>
      CloseSchools_skip_activity years_to_close full_closure person
        activities
  | CloseUniversities =>
      ret (CloseUniversities_skip_activity person activities)
  | CloseCompanies full_closure random_work_probability =>
      CloseCompanies_skip_activity full_closure random_work_probability
        person activities
  | _ => raise AttributeError
  end.

(** ** Collections *)

(** policy.py:404-423 *)
Fixpoint SkipActivityCollection_call
  (policies : list Policy) (person : Person) (activities : list string)
  : M Env (list string) :=
  match policies with
  | [] => ret activities
  | policy :: policies' =>
      activities <- skip_activity policy person activities ;;
      SkipActivityCollection_call policies' person activities
  end.

(** The loop of policy.py:445-448, with what follows it. *)
Fixpoint first_must_stay_at_home
  (policies : list Policy) (person : Person) (days_from_start : float)
  : M Env bool :=
  match policies with
  | [] => ret false
  | policy :: policies' =>
      stay <- must_stay_at_home policy person days_from_start ;;
      if stay then ret true
      else first_must_stay_at_home policies' person days_from_start
  end.

(** policy.py:429-448 *)
Definition StayHomeCollection_call
  (policies : list Policy) (person : Person) (days_from_start : float)
  : M Env bool :=
  match hospital person with
  | None => first_must_stay_at_home policies person days_from_start
  | Some _ => ret false
  end.

End Predicates.

(** policy.py:485-501: the objects of the registry in force on [date],
    in registration order. *)
Definition in_force (type : policy_type) (date : datetime)
  (policies : list Policy) : list Policy :=
  omap (fun i => policies !! i)
    (select_from 0 (fun policy => type policy && is_active policy date)
       policies).

Definition stay_home_collection (date : datetime) (policies : list Policy)
  : list Policy :=
  in_force is_StayHome date policies.

Definition skip_activity_collection (date : datetime)
  (policies : list Policy) : list Policy :=
  in_force is_SkipActivity date policies.

(** ** Venue closures (policy.py:508-511 and 551-555) *)

Section ClosedVenues.

Context {C : Type}.

Definition close_venues_policies (date : datetime) : M (store C) (list nat) :=
  get_active_policies_for_type is_CloseLeisureVenue date.

(** The loop of policy.py:553-554, [closed_venues] being the set built so
    far. *)
Fixpoint update_closed_venues (selected : list nat)
  (closed_venues : gset string) : M (store C) (gset string) :=
  match selected with
  | [] => ret closed_venues
  | i :: selected' =>
      policy <- get_policy i ;;
      match body policy with
      | CloseLeisureVenue venues_to_close =>
          update_closed_venues selected'
            (closed_venues ∪ list_to_set venues_to_close)
      | _ => raise AttributeError
      end
  end.

Definition find_closed_venues (date : datetime) : M (store C) (gset string) :=
  selected <- close_venues_policies date ;;
  update_closed_venues selected ∅.

End ClosedVenues.

(** ** Names of classes and keys of the configuration *)

(** Class names and configuration keys are ASCII identifiers; on them
    [str.lower] and [str.upper] move the letters and nothing else. *)
Definition is_upper (c : Ascii.ascii) : bool :=
  (65 <=? Z.of_nat (Ascii.nat_of_ascii c)) && (Z.of_nat (Ascii.nat_of_ascii c) <=? 90).

Definition is_lower (c : Ascii.ascii) : bool :=
  (97 <=? Z.of_nat (Ascii.nat_of_ascii c)) && (Z.of_nat (Ascii.nat_of_ascii c) <=? 122).

Definition lower (c : Ascii.ascii) : Ascii.ascii :=
  if is_upper c then Ascii.ascii_of_nat (Ascii.nat_of_ascii c + 32) else c.

Definition upper (c : Ascii.ascii) : Ascii.ascii :=
  if is_lower c then Ascii.ascii_of_nat (Ascii.nat_of_ascii c - 32) else c.

Fixpoint str_lower (s : string) : string :=
  match s with
  | EmptyString => EmptyString
  | String c s' => String (lower c) (str_lower s')
  end.

(** [re.sub(r"(?=[A-Z])", "_", s)]: an underscore in front of every
    capital letter. *)
Fixpoint underscore_capitals (s : string) : string :=
  match s with
  | EmptyString => EmptyString
  | String c s' =>
      if is_upper c then String "_"%char (String c (underscore_capitals s'))
      else String c (underscore_capitals s')
  end.

(** policy.py:69-73: [(?<!^)] exempts the start of the name. *)
Definition get_spec (class_name : string) : string :=
  match class_name with
  | EmptyString => EmptyString
  | String c s' => str_lower (String c (underscore_capitals s'))
  end.

(** [s.split("_")] *)
Fixpoint split_underscore (s : string) : list string :=
  match s with
  | EmptyString => [EmptyString]
  | String c s' =>
      if Ascii.eqb c "_"%char then EmptyString :: split_underscore s'
      else match split_underscore s' with
           | x :: xs => String c x :: xs
           | [] => [String c EmptyString]
           end
  end.

(** [x.capitalize()] *)
Definition capitalize (x : string) : string :=
  match x with
  | EmptyString => EmptyString
  | String c x' => String (upper c) (str_lower x')
  end.

(** policy.py:463-465 *)
Definition camel_case_key (policy : string) : string :=
  String.concat ""
    ((fun x => match capitalize x with
               | EmptyString => "_"
               | y => y
               end) <$> split_underscore policy).

(** [policy.__class__.__name__] *)
Definition class_name (policy : Policy) : string :=
  match body policy with
  | SocialDistancing _ _ => "SocialDistancing"
  | CloseLeisureVenue _ => "CloseLeisureVenue"
  | PermanentPolicy => "PermanentPolicy"
  | Quarantine _ _ _ => "Quarantine"
  | Shielding _ _ => "Shielding"
  | CloseSchools _ _ => "CloseSchools"
  | CloseUniversities => "CloseUniversities"
  | CloseCompanies _ _ => "CloseCompanies"
  | ChangeLeisureProbability _ _ => "ChangeLeisureProbability"
  end.

(** ** Names that only the specification uses *)

(** The specification calls the failure of a construction
    [ConfigurationError]; policy.py defines no class of that name. *)
Definition ConfigurationError : exception := OtherError "ConfigurationError".

(** A value that is neither a string nor date-like. *)
Definition unrecognized (v : pyobj) : Prop :=
  (forall s, v <> PyStr s) /\ as_date v = None.

(** ** Vocabulary of the statements about computations *)

(** The state in which a computation ends. *)
Definition exec {S A} (c : M S A) (s : S) : S := (c s).2.

(** [preserves P c]: from a state in [P], [c] ends in a state in [P],
    whether it returns or raises. *)
Definition preserves {S A} (P : S -> Prop) (c : M S A) : Prop :=
  forall s, P s -> P (c s).2.

(** ** Vocabulary of the statements about collections *)

Section Members.

Context {Env : Type}.
Variable rand : Env -> float * Env.
Variable quarantine : Group -> float -> float -> float -> M Env bool.

(** [all_decline person d policies env env']: asked one after the other,
    starting in [env], every member of [policies] answers that [person]
    need not stay at home, and the last answer leaves [env']. *)
Inductive all_decline (person : Person) (days_from_start : float)
  : list Policy -> Env -> Env -> Prop :=
| all_decline_nil env : all_decline person days_from_start [] env env
| all_decline_cons policy policies env env1 env2 :
    must_stay_at_home rand quarantine policy person days_from_start env
    = (Return false, env1) ->
    all_decline person days_from_start policies env1 env2 ->
    all_decline person days_from_start (policy :: policies) env env2.

End Members.

(** What [skip_activity] needs in order not to raise: the policy is one
    of the [SkipActivity] classes, and a [CloseSchools] policy has
    [full_closure] set or a list of years to test the age against, and a
    person with a residence to look for key workers in. *)
Definition can_skip (person : Person) (policy : Policy) : Prop :=
  match body policy with
  | CloseSchools years_to_close full_closure =>
      (truthy full_closure = true \/ is_Some years_to_close)
      /\ is_Some (residence person)
  | CloseUniversities | CloseCompanies _ _ => True
  | _ => False
  end.

(** What a coefficient becomes when a policy scales it. *)
Definition scaled (b : option float) (value : float) : option float :=
  match b with
  | Some x => Some (x * value)%float
  | None => None
  end.

(** ** Vocabulary of the statements about leisure probabilities *)

(** The snapshot of an activity once the curves of its distributor [d]
    have been saved in it. *)
Definition captured (d : distributor) (snapshot : dict curve) : dict curve :=
  dict_set "women" (female_probabilities d)
    (dict_set "men" (male_probabilities d) snapshot).

(** The distributor that a policy configures for an activity. *)
Definition configured_distributor (configured : by_sex) : distributor :=
  {| male_probabilities := men configured;
     female_probabilities := women configured |}.

(** The distributor that the snapshots [original] hold for [activity],
    when both curves are there. *)
Definition saved_distributor (original : dict (dict curve)) (activity : string)
  : option distributor :=
  snapshot ← dict_get activity original;
  m ← dict_get "men" snapshot;
  w ← dict_get "women" snapshot;
  Some {| male_probabilities := m; female_probabilities := w |}.

(** The two-phase protocol of the specification, for any family of
    stateful policies: first every selected policy whose [end_time] is
    the date is restored, then every selected policy whose [start_time]
    is the date is activated. *)
Definition restore_if_expiring {C} (restore : nat -> M (store C) unit)
  (date : datetime) (i : nat) : M (store C) unit :=
  policy <- get_policy i ;;
  if end_time policy =? date then restore i else ret tt.

Definition activate_if_starting {C} (activate : nat -> M (store C) unit)
  (date : datetime) (i : nat) : M (store C) unit :=
  policy <- get_policy i ;;
  if start_time policy =? date then activate i else ret tt.

Definition two_phase {C} (selected : M (store C) (list nat))
  (restore activate : nat -> M (store C) unit) (date : datetime)
  : M (store C) unit :=
  active <- selected ;;
  for_each active (restore_if_expiring restore date) ;;
  for_each active (activate_if_starting activate date).

(** The windows of the registered policies, in registration order. *)
Definition windows {C} (s : store C) : list (datetime * datetime) :=
  (fun policy => (start_time policy, end_time policy)) <$> policies s.

(** [same_windows s s']: the policies of [s'] have the windows of those
    of [s]. *)
Definition same_windows {C} (s s' : store C) : Prop := windows s' = windows s.

(** ** Vocabulary of the further statements *)

(** The number of key workers among the residents of a household. *)
Definition key_workers (rs : list Resident) : nat :=
  length (List.filter
            (fun r =>
               bool_decide (resident_lockdown_status r = Some "key_worker"))
            rs).

(** A policy object without the snapshot that the social distancing
    applier, respectively the leisure applier, writes to it. *)
Definition without_original_betas (policy : Policy) : Policy :=
  match body policy with
  | SocialDistancing beta_factors _ =>
      with_body policy (SocialDistancing beta_factors [])
  | _ => policy
  end.

Definition without_original_leisure_probabilities (policy : Policy) : Policy :=
  match body policy with
  | ChangeLeisureProbability leisure_probabilities _ =>
      with_body policy (ChangeLeisureProbability leisure_probabilities [])
  | _ => policy
  end.

(** The names of classes: a capital letter followed by ASCII letters and
    digits. *)
Definition is_digit (c : Ascii.ascii) : bool :=
  (48 <=? Z.of_nat (Ascii.nat_of_ascii c)) && (Z.of_nat (Ascii.nat_of_ascii c) <=? 57).

Definition identifier_char (c : Ascii.ascii) : bool :=
  is_upper c || is_lower c || is_digit c.

Fixpoint identifier_chars (s : string) : bool :=
  match s with
  | EmptyString => true
  | String c s' => identifier_char c && identifier_chars s'
  end.

Definition camel_case (name : string) : bool :=
  match name with
  | EmptyString => false
  | String c s' => is_upper c && identifier_chars s'
  end.

(** ** People, policies and worlds of the scenarios *)

Definition a_household : Subgroup :=
  {| group := {| group_id := 1; spec := "household"; residents := [] |} |}.

Definition symptomatic_person : Person :=
  {| age := 40;
     symptoms := Some {| tag := mild |};
     health_information :=
       Some {| hi_tag := mild; time_of_symptoms_onset := Some 5%float |};
     lockdown_status := None;
     primary_activity := None;
     residence := Some a_household;
     hospital := None |}.

(** The same person, in hospital. *)
Definition patient : Person :=
  {| age := age symptomatic_person;
     symptoms := symptoms symptomatic_person;
     health_information := health_information symptomatic_person;
     lockdown_status := lockdown_status symptomatic_person;
     primary_activity := primary_activity symptomatic_person;
     residence := residence symptomatic_person;
     hospital :=
       Some {| group := {| group_id := 2; spec := "hospital";
                           residents := [] |} |} |}.

Definition student : Person :=
  {| age := 20;
     symptoms := None;
     health_information := None;
     lockdown_status := Some "furlough";
     primary_activity :=
       Some {| group := {| group_id := 3; spec := "university";
                           residents := [] |} |};
     residence := Some a_household;
     hospital := None |}.

Definition a_Quarantine : Policy :=
  {| start_time := 0; end_time := 100; body := Quarantine 7 14 1 |}.

(** A world without state: the generator always draws 0, and the
    household check is the given one. *)
Definition draw_zero (env : unit) : float * unit := (0%float, env).

Definition household_declines : Group -> float -> float -> float -> M unit bool :=
  fun _ _ _ _ => ret false.

Definition household_fails : Group -> float -> float -> float -> M unit bool :=
  fun _ _ _ _ => raise (OtherError "HouseholdError").

(** Midnight of the [n]-th day. *)
Definition day (n : Z) : datetime := combine_min n.

(** The baseline policy that the registry starts with. *)
Definition baseline_policy (start_time end_time : datetime) : Policy :=
  {| start_time := start_time; end_time := end_time; body := PermanentPolicy |}.

(** [SocialDistancing(day 10, day 20, {"household": 0.5})] *)
Definition household_distancing : Policy :=
  new_SocialDistancing (day 10) (day 20) [("household", 0.5%float)].

(** The registry with that one policy, and an interaction whose
    "household" coefficient is 2.0. *)
Definition distancing_store (t0 t1 : datetime) : store Interaction :=
  {| policies := Policies_init (baseline_policy t0 t1) [household_distancing];
     collab := {| beta := {["household" := Some 2%float]} |} |}.

(** Curves, cut to one age band. *)
Definition pubs_distributor : distributor :=
  {| male_probabilities := [0.5%float]; female_probabilities := [0.75%float] |}.

Definition quiet_pubs : by_sex :=
  {| men := [0.125%float]; women := [0.25%float] |}.

Definition busy_pubs : by_sex :=
  {| men := [0.375%float]; women := [0.625%float] |}.

Definition leisure_with_pubs : Leisure :=
  {| leisure_distributors := {["pubs" := pubs_distributor]} |}.

(** A policy for two activities, the second of which no distributor
    knows, from day 10 to day 20. *)
Definition pubs_and_unknown : Policy :=
  new_ChangeLeisureProbability (day 10) (day 20)
    [("pubs", quiet_pubs); ("casinos", busy_pubs)].

Definition unknown_activity_store : store Leisure :=
  {| policies := Policies_init (baseline_policy (day 0) (day 100))
                   [pubs_and_unknown];
     collab := leisure_with_pubs |}.

(** [ChangeLeisureProbability] for the pubs, from day 10 to day 20, in a
    registry of its own. *)
Definition quiet_pubs_policy : Policy :=
  new_ChangeLeisureProbability (day 10) (day 20) [("pubs", quiet_pubs)].

Definition pubs_store : store Leisure :=
  {| policies := Policies_init (baseline_policy (day 0) (day 100))
                   [quiet_pubs_policy];
     collab := leisure_with_pubs |}.

(** Two policies on the pubs, the one that starts on day 10 registered
    before the one that ends on day 10. *)
Definition busy_pubs_policy : Policy :=
  new_ChangeLeisureProbability (day 5) (day 10) [("pubs", busy_pubs)].

Definition stacked_store : store Leisure :=
  {| policies := Policies_init (baseline_policy (day 0) (day 100))
                   [quiet_pubs_policy; busy_pubs_policy];
     collab := leisure_with_pubs |}.

(** The same two policies, the one that ends on day 10 registered
    first. *)
Definition ordered_store : store Leisure :=
  {| policies := Policies_init (baseline_policy (day 0) (day 100))
                   [busy_pubs_policy; quiet_pubs_policy];
     collab := leisure_with_pubs |}.

(** A policy whose window is the single day 10. *)
Definition one_day_policy : Policy :=
  new_ChangeLeisureProbability (day 10) (day 10) [("pubs", quiet_pubs)].

Definition one_day_store : store Leisure :=
  {| policies := Policies_init (baseline_policy (day 0) (day 100))
                   [one_day_policy];
     collab := leisure_with_pubs |}.

(** A household with two key workers, and a pupil of 10 who lives
    there. *)
Definition key_worker_household : Subgroup :=
  {| group :=
       {| group_id := 4; spec := "household";
          residents :=
            [ {| resident_lockdown_status := Some "key_worker" |};
              {| resident_lockdown_status := None |};
              {| resident_lockdown_status := Some "key_worker" |} ] |} |}.

Definition pupil : Person :=
  {| age := 10;
     symptoms := None;
     health_information := None;
     lockdown_status := None;
     primary_activity :=
       Some {| group := {| group_id := 5; spec := "school";
                           residents := [] |} |};
     residence := Some key_worker_household;
     hospital := None |}.

(** A company worker whose status is "random". *)
Definition random_worker : Person :=
  {| age := 35;
     symptoms := None;
     health_information := None;
     lockdown_status := Some "random";
     primary_activity :=
       Some {| group := {| group_id := 6; spec := "company";
                           residents := [] |} |};
     residence := Some a_household;
     hospital := None |}.

Definition during (b : policy_body) : Policy :=
  {| start_time := day 0; end_time := day 100; body := b |}.

(** Two [SocialDistancing] policies on the same coefficient. *)
Definition stacked_distancing_store : store Interaction :=
  {| policies :=
       Policies_init (baseline_policy (day 0) (day 100))
         [ household_distancing;
           new_SocialDistancing (day 10) (day 30)
             [("household", 0.25%float)] ];
     collab := {| beta := {["household" := Some 2%float]} |} |}.

(** * Properties *)

(** ** Running the monad *)

Section MonadFacts.

Context {S A B : Type}.

Lemma bind_Return (c : M S A) (k : A -> M S B) s a s' :
  c s = (Return a, s') -> bind c k s = k a s'.
Proof. unfold bind. by intros ->. Qed.

Lemma bind_Raise (c : M S A) (k : A -> M S B) s e s' :
  c s = (Raise e, s') -> bind c k s = (Raise e, s').
Proof. unfold bind. by intros ->. Qed.

Lemma bind_inv_Return (c : M S A) (k : A -> M S B) s b s2 :
  bind c k s = (Return b, s2) ->
  exists a s1, c s = (Return a, s1) /\ k a s1 = (Return b, s2).
Proof.
  unfold bind. destruct (c s) as [[a|e] s1]; [eauto | discriminate].
Qed.

End MonadFacts.

Lemma for_each_app {S X} (xs ys : list X) (body : X -> M S unit) s :
  for_each (xs ++ ys) body s
  = bind (for_each xs body) (fun _ => for_each ys body) s.
Proof.
  revert s. induction xs as [|x xs IH]; intros s; simpl.
  - reflexivity.
  - unfold bind. destruct (body x s) as [[[]|e] s1]; [|done].
    rewrite IH. reflexivity.
Qed.

(** ** Dictionaries *)

Section DictFacts.

Context {V : Type}.
Implicit Types (d : dict V) (k : string) (v : V).

Lemma dict_get_set_eq k v d : dict_get k (dict_set k v d) = Some v.
Proof.
  induction d as [|[k' v'] d IH]; simpl.
  - by rewrite decide_True.
  - destruct (decide (k' = k)) as [->|Hne]; simpl.
    + by rewrite decide_True.
    + by rewrite decide_False.
Qed.

Lemma dict_get_set_ne k k' v d :
  k <> k' -> dict_get k' (dict_set k v d) = dict_get k' d.
Proof.
  intros Hne. induction d as [|[k0 v0] d IH]; simpl.
  - by rewrite decide_False.
  - destruct (decide (k0 = k)) as [->|Hk0]; simpl.
    + by rewrite !decide_False.
    + by rewrite IH.
Qed.

Lemma dict_get_None k d : dict_get k d = None <-> k ∉ dict_keys d.
Proof.
  unfold dict_keys. induction d as [|[k' v'] d IH]; csimpl.
  - split; [intros _; apply not_elem_of_nil | done].
  - rewrite not_elem_of_cons.
    destruct (decide (k' = k)) as [->|Hne].
    + split; [discriminate | by intros [? _]].
    + rewrite IH. split; [by split | by intros [_ ?]].
Qed.

Lemma dict_get_is_Some k d : is_Some (dict_get k d) <-> k ∈ dict_keys d.
Proof.
  rewrite <- not_eq_None_Some, dict_get_None.
  destruct (decide (k ∈ dict_keys d)) as [Hin|Hout].
  - split; [done | by intros _ ?].
  - split; [by intros [] | done].
Qed.

Lemma dict_keys_set k v d :
  dict_keys (dict_set k v d)
  = if decide (k ∈ dict_keys d) then dict_keys d else dict_keys d ++ [k].
Proof.
  unfold dict_keys. induction d as [|[k' v'] d IH]; csimpl.
  - done.
  - destruct (decide (k' = k)) as [->|Hne]; csimpl.
    + destruct (decide (k ∈ k :: d.*1)) as [|Hout]; [done|].
      destruct Hout. apply elem_of_cons. by left.
    + rewrite IH.
      destruct (decide (k ∈ d.*1)) as [Hin|Hout];
        destruct (decide (k ∈ k' :: d.*1)) as [Hin'|Hout']; try done.
      * destruct Hout'. apply elem_of_cons. by right.
      * apply elem_of_cons in Hin' as [->|?]; done.
Qed.

Lemma dict_wf_set k v d : dict_wf d -> dict_wf (dict_set k v d).
Proof.
  unfold dict_wf. rewrite dict_keys_set. intros Hwf.
  destruct (decide _) as [|Hout]; [done|].
  apply NoDup_app. repeat split; [done | | apply NoDup_singleton].
  intros x Hx ->%list_elem_of_singleton. done.
Qed.

Lemma dict_get_elem_of k v d : dict_wf d -> (k, v) ∈ d -> dict_get k d = Some v.
Proof.
  unfold dict_wf, dict_keys. induction d as [|[k' v'] d IH]; csimpl.
  - by intros _ ?%elem_of_nil.
  - intros [Hout Hwf]%NoDup_cons [Heq|Hin]%elem_of_cons.
    + injection Heq as -> ->. by rewrite decide_True.
    + rewrite decide_False; [by apply IH|].
      intros ->. apply Hout. by apply (list_elem_of_fmap_2 fst) in Hin.
Qed.

(** On a key that is not there yet, [dict_set] appends. *)
Lemma dict_set_fresh k v d : k ∉ dict_keys d -> dict_set k v d = d ++ [(k, v)].
Proof.
  unfold dict_keys. induction d as [|[k' v'] d IH]; csimpl; [done|].
  intros [Hne Hout]%not_elem_of_cons.
  rewrite decide_False by done. by rewrite IH.
Qed.

End DictFacts.

(** ** Invariants of a computation *)

Section Preserves.

Context {S : Type} (P : S -> Prop).

Lemma preserves_ret {A} (a : A) : preserves P (ret a).
Proof. by intros s. Qed.

Lemma preserves_raise {A} e : preserves P (raise (A := A) e).
Proof. by intros s. Qed.

Lemma preserves_lift {A} (o : outcome A) : preserves P (lift o).
Proof. by intros s. Qed.

Lemma preserves_get : preserves P get.
Proof. by intros s. Qed.

Lemma preserves_modify f : (forall s, P s -> P (f s)) -> preserves P (modify f).
Proof. intros Hf s. apply Hf. Qed.

Lemma preserves_bind {A B} (c : M S A) (k : A -> M S B) :
  preserves P c -> (forall a, preserves P (k a)) -> preserves P (bind c k).
Proof.
  intros Hc Hk s Hs. unfold bind. specialize (Hc s Hs).
  destruct (c s) as [[a|e] s1]; simpl in *; [by apply Hk | done].
Qed.

Lemma preserves_for_each {X} (xs : list X) (body : X -> M S unit) :
  (forall x, preserves P (body x)) -> preserves P (for_each xs body).
Proof.
  intros Hbody. induction xs as [|x xs IH]; simpl.
  - apply preserves_ret.
  - apply preserves_bind; [apply Hbody | intros _; apply IH].
Qed.

End Preserves.

(** Two loop bodies that agree on the states of an invariant make the
    same loop; a body that does nothing there makes a loop that does
    nothing. *)
Lemma for_each_agree {S X} (P : S -> Prop) (xs : list X)
  (f g : X -> M S unit) s :
  P s ->
  (forall x, x ∈ xs -> preserves P (f x)) ->
  (forall x s', x ∈ xs -> P s' -> f x s' = g x s') ->
  for_each xs f s = for_each xs g s.
Proof.
  revert s. induction xs as [|x xs IH]; intros s Hs Hf Hfg; simpl; [done|].
  unfold bind. rewrite <- (Hfg x s) by (done || left).
  pose proof (Hf x ltac:(left) s Hs) as Hs1.
  destruct (f x s) as [[[]|e] s1]; [|done]. simpl in Hs1.
  apply IH; [done | |].
  - intros y Hy. apply Hf. by right.
  - intros y s' Hy. apply Hfg. by right.
Qed.

Lemma for_each_skip {S X} (P : S -> Prop) (xs : list X)
  (f : X -> M S unit) s :
  P s ->
  (forall x s', x ∈ xs -> P s' -> f x s' = (Return tt, s')) ->
  for_each xs f s = (Return tt, s).
Proof.
  intros Hs Hf. induction xs as [|x xs IH]; simpl; [done|].
  rewrite (bind_Return _ _ _ tt s) by (apply Hf; [left | done]).
  apply IH. intros y s' Hy. apply Hf. by right.
Qed.

(** ** The activity window *)

(** C4: [is_active policy date] holds exactly when
    [start_time <= date < end_time], for every policy class but
    [ChangeLeisureProbability], for which it holds exactly when
    [start_time <= date <= end_time]. *)
Theorem is_active_window (policy : Policy) (date : datetime) :
  is_active policy date = true <->
  if is_ChangeLeisureProbability policy
  then start_time policy <= date <= end_time policy
  else start_time policy <= date < end_time policy.
Proof.
  unfold is_active, is_ChangeLeisureProbability.
  destruct (body policy); rewrite andb_true_iff; lia.
Qed.

(** ** Construction *)

(** C5, as the code has it: a window bound that is neither a string nor
    date-like makes the construction fail at once with [TypeError]; a
    string that [strptime] parses and a date-like value are accepted, and
    the window stores the parsed datetime, respectively midnight of the
    date. *)
Theorem read_date_validates (strptime : string -> option datetime) :
  (forall v, unrecognized v ->
     read_date strptime v = Raise TypeError
     /\ (forall end_time, Policy_init strptime v end_time = Raise TypeError)
     /\ (forall start_time t,
           read_date strptime start_time = Return t ->
           Policy_init strptime start_time v = Raise TypeError))
  /\ (forall s t, strptime s = Some t -> read_date strptime (PyStr s) = Return t)
  /\ (forall v d, as_date v = Some d ->
        read_date strptime v = Return (combine_min d))
  /\ (forall start_time end_time t1 t2,
        read_date strptime start_time = Return t1 ->
        read_date strptime end_time = Return t2 ->
        Policy_init strptime start_time end_time = Return (t1, t2)).
Proof.
  assert (Hbad : forall v, unrecognized v ->
            read_date strptime v = Raise TypeError).
  { intros v [Hs Hd]. destruct v; simpl in *; try congruence.
    by destruct (Hs s). }
  repeat split.
  - by apply Hbad.
  - intros e. unfold Policy_init. by rewrite Hbad.
  - intros st t Hst. unfold Policy_init. by rewrite Hst, Hbad.
  - intros s t Hs. simpl. by rewrite Hs.
  - intros v d Hd. destruct v; simpl in *; congruence.
  - intros st e t1 t2 H1 H2. unfold Policy_init. by rewrite H1, H2.
Qed.

Lemma read_date_validates_witness :
  read_date (fun _ => Some 0) (PyInt 5) = Raise TypeError
  /\ Policy_init (fun _ => Some 0) (PyDate 10) (PyStr "2100-01-01")
     = Return (combine_min 10, 0).
Proof.
  pose proof (read_date_validates (fun _ => Some 0)) as (H1 & H2 & H3 & H4).
  split.
  - apply (H1 (PyInt 5)). split; [discriminate | reflexivity].
  - apply H4; [apply H3; reflexivity | apply H2; reflexivity].
Defined.

(** C5 as stated fails: an integer as [start_time] raises [TypeError],
    not [ConfigurationError]. *)
Lemma read_date_not_ConfigurationError :
  unrecognized (PyInt 5)
  /\ read_date (fun _ => None) (PyInt 5) = Raise TypeError
  /\ Policy_init (fun _ => None) (PyInt 5) (PyDate 20)
     <> Raise ConfigurationError.
Proof.
  split; [split; [discriminate | reflexivity] |].
  split; [reflexivity | discriminate].
Qed.

(** ** Quarantine *)

Section QuarantineProperties.

Context {Env : Type}.
Variable rand : Env -> float * Env.
Variable quarantine : Group -> float -> float -> float -> M Env bool.

(** The statements under [try] only read the person: they leave the
    state of the world alone, whether they raise or not. *)
Lemma self_quarantine_check_reads n_days person days_from_start (env : Env) :
  (self_quarantine_check n_days person days_from_start env).2 = env.
Proof.
  unfold self_quarantine_check, bind, attr, ret, raise.
  destruct (symptoms person) as [s|]; [|done].
  destruct (_ || _); [|done].
  destruct (health_information person) as [info|]; [|done].
  by destruct (time_of_symptoms_onset info).
Qed.

(** Whatever happens under [try], the [except] clause turns it into a
    value of [self_quarantine]. *)
Lemma self_quarantine_swallowed n_days person days_from_start (env : Env) :
  exists self_quarantine,
    try_except (self_quarantine_check n_days person days_from_start)
      (ret false) env = (Return self_quarantine, env).
Proof.
  pose proof (self_quarantine_check_reads n_days person days_from_start env)
    as Henv.
  unfold try_except.
  destruct (self_quarantine_check _ _ _ _) as [[b|e] env']; simpl in Henv;
    subst env'; eauto.
Qed.

Lemma self_quarantine_symptomatic n_days person s info onset d (env : Env) :
  symptoms person = Some s ->
  tag s = mild \/ tag s = severe ->
  health_information person = Some info ->
  time_of_symptoms_onset info = Some onset ->
  try_except (self_quarantine_check n_days person d) (ret false) env
  = (Return ((d <? onset + n_days)%float && (onset <? d)%float), env).
Proof.
  intros Hs Htag Hinfo Honset.
  unfold try_except, self_quarantine_check, bind, attr, ret.
  rewrite Hs, Hinfo, Honset.
  by destruct Htag as [-> | ->].
Qed.

(** C9: under [Quarantine(n_days=7)], a person with a mild or severe
    symptom tag whose symptoms set on at day 5, and whose household
    check answers false, must stay at home on day 8 and need not on day
    13; the release day is 5 + 7 = 12, and on any day the answer is
    true exactly when the day lies strictly between 5 and 12. *)
Theorem Quarantine_scenario
  (policy : Policy) (n_days_household household_complacency : float)
  (person : Person) (s : Symptoms) (info : HealthInformation)
  (home : Subgroup) :
  body policy = Quarantine 7 n_days_household household_complacency ->
  symptoms person = Some s ->
  tag s = mild \/ tag s = severe ->
  health_information person = Some info ->
  time_of_symptoms_onset info = Some 5%float ->
  residence person = Some home ->
  (5 + 7 = 12)%float
  /\ (forall days_from_start env env',
        quarantine (group home) days_from_start n_days_household
          household_complacency env = (Return false, env') ->
        must_stay_at_home rand quarantine policy person days_from_start env
        = (Return ((days_from_start <? 12)%float
                   && (5 <? days_from_start)%float), env'))
  /\ (forall env env',
        quarantine (group home) 8 n_days_household household_complacency
          env = (Return false, env') ->
        must_stay_at_home rand quarantine policy person 8 env
        = (Return true, env'))
  /\ (forall env env',
        quarantine (group home) 13 n_days_household household_complacency
          env = (Return false, env') ->
        must_stay_at_home rand quarantine policy person 13 env
        = (Return false, env')).
Proof.
  intros Hbody Hs Htag Hinfo Honset Hhome.
  assert (Hall : forall d env env',
    quarantine (group home) d n_days_household household_complacency env
    = (Return false, env') ->
    must_stay_at_home rand quarantine policy person d env
    = (Return ((d <? 12)%float && (5 <? d)%float), env')).
  { intros d env env' Hq.
    unfold must_stay_at_home. rewrite Hbody.
    unfold Quarantine_must_stay_at_home.
    rewrite (bind_Return _ _ _ _ _
               (self_quarantine_symptomatic 7 person s info 5 d env
                  Hs Htag Hinfo Honset)).
    rewrite Hhome. simpl attr.
    rewrite (bind_Return _ _ _ home env eq_refl).
    rewrite (bind_Return _ _ _ _ _ Hq).
    unfold ret. by rewrite orb_false_r. }
  split; [reflexivity|].
  split; [exact Hall|].
  split; intros env env' Hq; by rewrite (Hall _ _ _ Hq).
Qed.

(** C10: in [Quarantine.must_stay_at_home] only the reading of the
    person's own symptoms is under [try]: it always ends in a value of
    [self_quarantine] and leaves the world as it was.  The household
    check comes after it, outside the [try], and is evaluated whatever
    [self_quarantine] is: an exception it raises is the outcome of
    [must_stay_at_home], and so is the failure to reach the household
    of a person without residence. *)
Theorem Quarantine_household_check_unprotected
  (policy : Policy) (n_days n_days_household household_complacency : float)
  (person : Person) (days_from_start : float) (env : Env) :
  body policy = Quarantine n_days n_days_household household_complacency ->
  exists self_quarantine,
    try_except (self_quarantine_check n_days person days_from_start)
      (ret false) env = (Return self_quarantine, env)
    /\ (residence person = None ->
        must_stay_at_home rand quarantine policy person days_from_start env
        = (Raise AttributeError, env))
    /\ (forall home, residence person = Some home ->
        (forall e env',
           quarantine (group home) days_from_start n_days_household
             household_complacency env = (Raise e, env') ->
           must_stay_at_home rand quarantine policy person days_from_start
             env = (Raise e, env'))
        /\ (forall housemates_quarantine env',
              quarantine (group home) days_from_start n_days_household
                household_complacency env
              = (Return housemates_quarantine, env') ->
              must_stay_at_home rand quarantine policy person
                days_from_start env
              = (Return (self_quarantine || housemates_quarantine), env'))).
Proof.
  intros Hbody.
  destruct (self_quarantine_swallowed n_days person days_from_start env)
    as [b Hb].
  exists b. split; [exact Hb|].
  unfold must_stay_at_home. rewrite Hbody.
  unfold Quarantine_must_stay_at_home.
  rewrite (bind_Return _ _ _ _ _ Hb).
  split.
  - by intros ->.
  - intros home ->. simpl attr. split.
    + intros e env' Hq.
      rewrite (bind_Return _ _ _ home env eq_refl).
      by rewrite (bind_Raise _ _ _ _ _ Hq).
    + intros h env' Hq.
      rewrite (bind_Return _ _ _ home env eq_refl).
      by rewrite (bind_Return _ _ _ _ _ Hq).
Qed.

End QuarantineProperties.

Lemma Quarantine_scenario_witness :
  must_stay_at_home draw_zero household_declines a_Quarantine
    symptomatic_person 8 tt = (Return true, tt)
  /\ must_stay_at_home draw_zero household_declines a_Quarantine
       symptomatic_person 13 tt = (Return false, tt).
Proof.
  destruct (Quarantine_scenario draw_zero household_declines a_Quarantine
              14 1 symptomatic_person {| tag := mild |}
              {| hi_tag := mild; time_of_symptoms_onset := Some 5%float |}
              a_household
              eq_refl eq_refl (or_introl eq_refl) eq_refl eq_refl eq_refl)
    as (_ & _ & H8 & H13).
  split; [apply H8 | apply H13]; reflexivity.
Defined.

(** A household whose check fails with an exception of its own. *)
Lemma Quarantine_household_check_unprotected_witness :
  must_stay_at_home draw_zero household_fails a_Quarantine
    symptomatic_person 8 tt = (Raise (OtherError "HouseholdError"), tt).
Proof.
  destruct (Quarantine_household_check_unprotected draw_zero household_fails
              a_Quarantine 7 14 1 symptomatic_person 8 tt eq_refl)
    as (b & _ & _ & H).
  destruct (H _ eq_refl) as [Hraise _].
  apply Hraise. reflexivity.
Defined.

(** ** Collections *)

Section CollectionProperties.

Context {Env : Type}.
Variable rand : Env -> float * Env.
Variable quarantine : Group -> float -> float -> float -> M Env bool.

Lemma first_must_stay_at_home_false policies person d (env env' : Env) :
  first_must_stay_at_home rand quarantine policies person d env
  = (Return false, env')
  <-> all_decline rand quarantine person d policies env env'.
Proof.
  revert env. induction policies as [|policy policies IH]; intros env; simpl.
  - split.
    + intros [= <-]. constructor.
    + inversion 1. reflexivity.
  - split.
    + intros H. apply bind_inv_Return in H as (stay & env1 & Hp & H).
      destruct stay; [discriminate|].
      econstructor; [exact Hp | by apply IH].
    + inversion 1 as [|? ? ? env1 ? Hp Hrest]; subst.
      rewrite (bind_Return _ _ _ _ _ Hp). by apply IH.
Qed.

Lemma first_must_stay_at_home_true policies person d (env env' : Env) :
  first_must_stay_at_home rand quarantine policies person d env
  = (Return true, env')
  <-> exists before policy after env1,
        policies = before ++ policy :: after
        /\ all_decline rand quarantine person d before env env1
        /\ must_stay_at_home rand quarantine policy person d env1
           = (Return true, env').
Proof.
  revert env. induction policies as [|policy policies IH]; intros env; simpl.
  - split; [discriminate|].
    intros (before & ? & ? & ? & Heq & _). by destruct before.
  - split.
    + intros H. apply bind_inv_Return in H as (stay & env1 & Hp & H).
      destruct stay.
      * injection H as <-.
        exists [], policy, policies, env. repeat split; [constructor | done].
      * apply IH in H as (before & p & after & env2 & -> & Hdecl & Htrue).
        exists (policy :: before), p, after, env2.
        repeat split; [|done]. econstructor; eauto.
    + intros (before & p & after & env1 & Heq & Hdecl & Htrue).
      destruct before as [|q before]; simpl in Heq; injection Heq as <- ->.
      * inversion Hdecl; subst. by rewrite (bind_Return _ _ _ _ _ Htrue).
      * inversion Hdecl as [|? ? ? env2 ? Hq Hrest]; subst.
        rewrite (bind_Return _ _ _ _ _ Hq). apply IH. eauto 8.
Qed.

(** C7: for a person in hospital the collection answers false and leaves
    the world untouched, whatever its members are and whatever they would
    do (answer, draw random numbers, raise): none of them is asked.  For a
    person not in hospital it answers true exactly when, asked in order,
    some member answers true after all members before it answered false,
    and it stops there: the world is the one that member left, and no
    later member is asked.  It answers false exactly when every member
    does. *)
Theorem StayHomeCollection_short_circuit
  (policies : list Policy) (person : Person) (days_from_start : float)
  (env : Env) :
  (hospital person <> None ->
   StayHomeCollection_call rand quarantine policies person days_from_start env
   = (Return false, env))
  /\ (hospital person = None ->
      (forall env',
         StayHomeCollection_call rand quarantine policies person
           days_from_start env = (Return true, env')
         <-> exists before policy after env1,
               policies = before ++ policy :: after
               /\ all_decline rand quarantine person days_from_start before
                    env env1
               /\ must_stay_at_home rand quarantine policy person
                    days_from_start env1 = (Return true, env'))
      /\ (forall env',
            StayHomeCollection_call rand quarantine policies person
              days_from_start env = (Return false, env')
            <-> all_decline rand quarantine person days_from_start policies
                  env env')).
Proof.
  unfold StayHomeCollection_call. split.
  - by destruct (hospital person).
  - intros ->. split; intros env'.
    + apply first_must_stay_at_home_true.
    + apply first_must_stay_at_home_false.
Qed.

Lemma remove_activities_sublist activities activities_to_remove :
  remove_activities activities activities_to_remove `sublist_of` activities.
Proof. apply sublist_filter. Qed.

Lemma np_random_rand_returns (env : Env) :
  exists x env', np_random_rand rand env = (Return x, env').
Proof. unfold np_random_rand. destruct (rand env); eauto. Qed.

(** A member returns its argument or a filtered copy of it. *)
Lemma skip_activity_sublist policy person activities (env : Env) out env' :
  skip_activity rand policy person activities env = (Return out, env') ->
  out `sublist_of` activities.
Proof.
  pose proof (remove_activities_sublist activities) as Hrm.
  unfold skip_activity.
  destruct (body policy) as [| | | | |years full| |full p|]; try discriminate.
  - unfold CloseSchools_skip_activity.
    destruct (primary_activity_is _ _); [|by intros [= <- <-]].
    intros H. apply bind_inv_Return in H as (closed & env1 & _ & H).
    destruct closed; [|by injection H as <- <-].
    apply bind_inv_Return in H as (goes & env2 & _ & H).
    destruct goes; simpl in H; injection H as <- <-; done.
  - unfold CloseUniversities_skip_activity.
    intros [= <- <-]. by destruct (primary_activity_is _ _).
  - unfold CloseCompanies_skip_activity.
    destruct (primary_activity_is _ _); [|by intros [= <- <-]].
    destruct (_ || _); [by intros [= <- <-]|].
    destruct (bool_decide _); [|by intros [= <- <-]].
    destruct p as [p|]; [|by intros [= <- <-]].
    intros H. apply bind_inv_Return in H as (x & env1 & _ & H).
    destruct (PrimFloat.ltb p x); by injection H as <- <-.
Qed.

Lemma _check_kid_goes_to_school_returns person (env : Env) :
  is_Some (residence person) ->
  exists goes, _check_kid_goes_to_school person env = (Return goes, env).
Proof.
  intros [home Hhome]. unfold _check_kid_goes_to_school. rewrite Hhome.
  destruct (age person <? 14); by eexists.
Qed.

Lemma skip_activity_returns policy person activities (env : Env) :
  can_skip person policy ->
  exists out env',
    skip_activity rand policy person activities env = (Return out, env').
Proof.
  unfold can_skip, skip_activity.
  destruct (body policy) as [| | | | |years full| |full p|]; try done; intros Hok.
  - destruct Hok as [Hclosed Hhome].
    destruct (_check_kid_goes_to_school_returns person env Hhome)
      as [goes Hgoes].
    unfold CloseSchools_skip_activity.
    destruct (primary_activity_is _ _); [|by eexists _, _].
    assert (exists closed,
      (if truthy full then ret true
       else match years with
            | Some ys => ret (bool_decide (age person ∈ ys))
            | None => raise TypeError
            end) env = (Return closed, env)) as [closed Hc].
    { destruct (truthy full); [by eexists|].
      destruct Hclosed as [|[ys ->]]; [done | by eexists]. }
    rewrite (bind_Return _ _ _ _ _ Hc).
    destruct closed; [|by eexists _, _].
    rewrite (bind_Return _ _ _ _ _ Hgoes).
    destruct goes; by eexists _, _.
  - by eexists _, _.
  - unfold CloseCompanies_skip_activity.
    destruct (primary_activity_is _ _); [|by eexists _, _].
    destruct (_ || _); [by eexists _, _|].
    destruct (bool_decide _); [|by eexists _, _].
    destruct p as [p|]; [|by eexists _, _].
    destruct (np_random_rand_returns env) as (x & env1 & Hx).
    rewrite (bind_Return _ _ _ _ _ Hx).
    destruct (PrimFloat.ltb p x); by eexists _, _.
Qed.

Lemma SkipActivityCollection_call_sublist policies person activities
  (env : Env) out env' :
  SkipActivityCollection_call rand policies person activities env
  = (Return out, env') ->
  out `sublist_of` activities.
Proof.
  revert activities env.
  induction policies as [|policy policies IH]; intros activities env; simpl.
  - by intros [= <- <-].
  - intros H. apply bind_inv_Return in H as (mid & env1 & Hp & H).
    transitivity mid; [by eapply IH | by eapply skip_activity_sublist].
Qed.

Lemma SkipActivityCollection_call_app earlier later person activities
  (env : Env) :
  SkipActivityCollection_call rand (earlier ++ later) person activities env
  = bind (SkipActivityCollection_call rand earlier person activities)
      (fun mid => SkipActivityCollection_call rand later person mid) env.
Proof.
  revert activities env.
  induction earlier as [|policy earlier IH]; intros activities env; simpl.
  - reflexivity.
  - unfold bind.
    destruct (skip_activity rand policy person activities env)
      as [[mid|e] env1]; [|done].
    rewrite IH. reflexivity.
Qed.

(** C8: with no member the collection returns the activities it was
    given; with any members, what it returns is a subsequence of what it
    was given, and it does return as soon as no member raises
    ([can_skip]); the members are applied in order, each to what the
    members before it left, so that an activity that is gone after the
    earlier members is not in the final list. *)
Theorem SkipActivityCollection_only_removes (person : Person) :
  (forall activities env,
     SkipActivityCollection_call rand [] person activities env
     = (Return activities, env))
  /\ (forall policies activities env out env',
        SkipActivityCollection_call rand policies person activities env
        = (Return out, env') ->
        out `sublist_of` activities)
  /\ (forall policies activities env,
        Forall (can_skip person) policies ->
        exists out env',
          SkipActivityCollection_call rand policies person activities env
          = (Return out, env')
          /\ out `sublist_of` activities)
  /\ (forall earlier later activities env mid env1 out env2,
        SkipActivityCollection_call rand earlier person activities env
        = (Return mid, env1) ->
        SkipActivityCollection_call rand later person mid env1
        = (Return out, env2) ->
        SkipActivityCollection_call rand (earlier ++ later) person activities
          env = (Return out, env2)
        /\ forall activity, activity ∉ mid -> activity ∉ out).
Proof.
  split; [done|].
  split; [intros; by eapply SkipActivityCollection_call_sublist|].
  split.
  - intros policies activities env Hok.
    assert (exists out env',
      SkipActivityCollection_call rand policies person activities env
      = (Return out, env')) as (out & env' & Hrun).
    { revert activities env.
      induction Hok as [|policy policies Hp _ IH]; intros activities env.
      - by eexists _, _.
      - destruct (skip_activity_returns policy person activities env Hp)
          as (mid & env1 & Hmid).
        simpl. rewrite (bind_Return _ _ _ _ _ Hmid). apply IH. }
    exists out, env'. split; [done|].
    by eapply SkipActivityCollection_call_sublist.
  - intros earlier later activities env mid env1 out env2 Hearlier Hlater.
    split.
    + rewrite SkipActivityCollection_call_app.
      by rewrite (bind_Return _ _ _ _ _ Hearlier).
    + intros activity Hgone Hback. apply Hgone.
      eapply elem_of_sublist; [exact Hback|].
      by eapply SkipActivityCollection_call_sublist.
Qed.

End CollectionProperties.

(** In hospital, not even a member whose household check would raise is
    asked. *)
Lemma StayHomeCollection_short_circuit_witness :
  StayHomeCollection_call draw_zero household_fails [a_Quarantine] patient 8 tt
  = (Return false, tt).
Proof.
  destruct (StayHomeCollection_short_circuit draw_zero household_fails
              [a_Quarantine] patient 8 tt) as [Hhospital _].
  apply Hhospital. discriminate.
Defined.

Lemma SkipActivityCollection_only_removes_witness :
  exists out env',
    SkipActivityCollection_call draw_zero
      [ {| start_time := 0; end_time := 100; body := CloseUniversities |};
        {| start_time := 0; end_time := 100;
           body := CloseCompanies (Some true) None |} ]
      student ["primary_activity"; "commute"; "leisure"] tt
    = (Return out, env')
    /\ out `sublist_of` ["primary_activity"; "commute"; "leisure"].
Proof.
  destruct (SkipActivityCollection_only_removes draw_zero student)
    as (_ & _ & Hreturns & _).
  apply Hreturns. repeat constructor.
Defined.

(** ** The registry as a store of objects *)

Section StoreFacts.

Context {C : Type}.
Implicit Types (s : store C) (i j : nat) (p : Policy).

Lemma get_policy_Some i s p :
  policies s !! i = Some p -> get_policy i s = (Return p, s).
Proof. unfold get_policy. by intros ->. Qed.

Lemma set_body_Some i b s p :
  policies s !! i = Some p ->
  set_body i b s
  = (Return tt, {| policies := <[i := with_body p b]> (policies s);
                   collab := collab s |}).
Proof.
  intros Hp. unfold set_body. by rewrite (bind_Return _ _ _ _ _ (get_policy_Some _ _ _ Hp)).
Qed.

Lemma preserves_get_policy (P : store C -> Prop) i : preserves P (get_policy i).
Proof. intros s Hs. unfold get_policy. by destruct (policies s !! i). Qed.

(** A property of the registry alone survives the writes to the
    collaborator. *)
Lemma preserves_update_collab (Q : list Policy -> Prop) (f : C -> C) :
  preserves (fun s => Q (policies s)) (update_collab f).
Proof. by intros s Hs. Qed.

(** Writing to the object at [j] leaves the object at [i] alone. *)
Lemma preserves_set_body_other i j p b :
  i <> j -> preserves (fun s => policies s !! i = Some p) (set_body j b).
Proof.
  intros Hne s Hs. unfold set_body, bind, get_policy.
  destruct (policies s !! j); [|done].
  simpl. by rewrite list_lookup_insert_ne.
Qed.

(** The positions that [select_from] returns are positions of policies
    that pass the test. *)
Lemma elem_of_select_from n keep ps i :
  i ∈ select_from n keep ps ->
  exists p, ps !! (i - n)%nat = Some p /\ keep p = true /\ (n <= i)%nat.
Proof.
  revert n. induction ps as [|q ps IH]; intros n; simpl.
  - by intros ?%elem_of_nil.
  - intros Hin.
    assert (i = n /\ keep q = true \/ i ∈ select_from (S n) keep ps)
      as [[-> Hq]|Hrest].
    { destruct (keep q); [|by right].
      apply elem_of_cons in Hin as [->|?]; [by left | by right]. }
    + exists q. by rewrite Nat.sub_diag.
    + destruct (IH _ Hrest) as (p & Hp & Hkeep & Hle).
      exists p. split; [|split; [done | lia]].
      replace (i - n)%nat with (S (i - S n)) by lia. done.
Qed.

End StoreFacts.

(** ** Social distancing *)


Lemma set_original_beta_run i p bf ob key b (s : store Interaction) :
  policies s !! i = Some p ->
  body p = SocialDistancing bf ob ->
  set_original_beta i key b s
  = (Return tt,
     {| policies :=
          <[i := with_body p (SocialDistancing bf (dict_set key b ob))]>
            (policies s);
        collab := collab s |}).
Proof.
  intros Hp Hbody. unfold set_original_beta.
  rewrite (bind_Return _ _ _ _ _ (get_policy_Some _ _ _ Hp)), Hbody.
  by apply set_body_Some.
Qed.

Lemma load_beta_run key b (s : store Interaction) :
  beta (collab s) !! key = Some b -> load_beta key s = (Return b, s).
Proof. unfold load_beta. by intros ->. Qed.

Lemma save_and_scale_beta_run i p bf ob key value x (s : store Interaction) :
  policies s !! i = Some p ->
  body p = SocialDistancing bf ob ->
  beta (collab s) !! key = Some (Some x) ->
  save_and_scale_beta i key value s
  = (Return tt,
     {| policies :=
          <[i := with_body p (SocialDistancing bf (dict_set key (Some x) ob))]>
            (policies s);
        collab := {| beta := <[key := Some (x * value)%float]>
                               (beta (collab s)) |} |}).
Proof.
  intros Hp Hbody Hkey. unfold save_and_scale_beta.
  rewrite (bind_Return _ _ _ _ _ (load_beta_run _ _ _ Hkey)).
  rewrite (bind_Return _ _ _ _ _
             (set_original_beta_run _ _ _ _ key (Some x) _ Hp Hbody)).
  erewrite bind_Return by (apply load_beta_run; exact Hkey).
  reflexivity.
Qed.

(** The restoration loop writes every entry of the snapshot into the
    table and touches nothing else. *)
Lemma restore_loop_run (ob : dict (option float)) (s : store Interaction) :
  exists s',
    for_each ob (fun '(key, value) => store_beta key value) s = (Return tt, s')
    /\ policies s' = policies s
    /\ (dict_wf ob ->
        forall k,
          beta (collab s') !! k
          = match dict_get k ob with
            | Some v => Some v
            | None => beta (collab s) !! k
            end).
Proof.
  revert s. induction ob as [|[k0 v0] ob IH]; intros s.
  - exists s. by repeat split.
  - destruct (IH {| policies := policies s;
                    collab := {| beta := <[k0 := v0]> (beta (collab s)) |} |})
      as (s' & Hrun & Hpol & Hbeta).
    exists s'. split; [exact Hrun|]. split; [exact Hpol|].
    intros [Hk0 Hwf]%NoDup_cons k. rewrite (Hbeta Hwf). simpl in *.
    destruct (decide (k0 = k)) as [<-|Hne].
    + apply dict_get_None in Hk0. rewrite Hk0. simpl.
      apply lookup_insert_eq.
    + destruct (dict_get k ob); [done|]. simpl. by apply lookup_insert_ne.
Qed.

(** The activation loop, on keys that all have a coefficient: it saves
    every coefficient in the snapshot, then scales it. *)
Lemma save_and_scale_loop_run i p bf (rest : dict float) :
  forall (s : store Interaction) ob,
    dict_wf rest ->
    policies s !! i = Some (with_body p (SocialDistancing bf ob)) ->
    (forall k, k ∈ dict_keys rest ->
       exists x, beta (collab s) !! k = Some (Some x)) ->
    exists s' ob',
      for_each rest (fun '(key, value) => save_and_scale_beta i key value) s
      = (Return tt, s')
      /\ policies s'
         = <[i := with_body p (SocialDistancing bf ob')]> (policies s)
      /\ (forall k,
            dict_get k ob'
            = if decide (k ∈ dict_keys rest) then beta (collab s) !! k
              else dict_get k ob)
      /\ (forall k,
            beta (collab s') !! k
            = match dict_get k rest with
              | Some value => (fun b => scaled b value) <$> beta (collab s) !! k
              | None => beta (collab s) !! k
              end)
      /\ (dict_wf ob -> dict_wf ob').
Proof.
  induction rest as [|[k0 v0] rest IH]; intros s ob Hwf Hp Hkeys.
  - exists s, ob. split; [done|]. split.
    { symmetry. by apply list_insert_id. }
    repeat split; done.
  - apply NoDup_cons in Hwf as [Hk0 Hwf]. simpl in Hk0.
    destruct (Hkeys k0) as [x Hx]; [left|].
    pose proof (save_and_scale_beta_run i _ bf ob k0 v0 x s Hp eq_refl Hx)
      as Hstep.
    set (s1 := {| policies := _; collab := _ |}) in Hstep.
    assert (Hlen : (i < length (policies s))%nat) by by eapply lookup_lt_Some.
    destruct (IH s1 (dict_set k0 (Some x) ob) Hwf) as (s' & ob' & Hrun & Hpol & Hob & Hbeta & Hwf').
    { simpl. by rewrite list_lookup_insert_eq. }
    { intros k Hk. destruct (Hkeys k) as [y Hy]; [by right|].
      exists y. simpl. rewrite lookup_insert_ne; [done|].
      intros <-. done. }
    exists s', ob'. split.
    { simpl. by rewrite (bind_Return _ _ _ _ _ Hstep). }
    split.
    { rewrite Hpol. simpl. by rewrite list_insert_insert_eq. }
    split; [|split].
    + intros k. rewrite Hob. simpl.
      destruct (decide (k ∈ dict_keys rest)) as [Hin|Hout].
      * rewrite decide_True by (by right).
        rewrite lookup_insert_ne; [done|]. intros <-. done.
      * destruct (decide (k0 = k)) as [<-|Hne].
        -- rewrite decide_True by left. by rewrite dict_get_set_eq.
        -- rewrite decide_False.
           ++ by rewrite dict_get_set_ne.
           ++ intros [->|?]%elem_of_cons; done.
    + intros k. rewrite Hbeta. simpl.
      destruct (decide (k0 = k)) as [<-|Hne].
      * apply dict_get_None in Hk0. rewrite Hk0.
        rewrite lookup_insert_eq, Hx. done.
      * destruct (dict_get k rest); by rewrite lookup_insert_ne.
    + intros Hwfob. apply Hwf'. by apply dict_wf_set.
Qed.

Lemma save_and_scale_betas_run i p bf ob (s : store Interaction) :
  policies s !! i = Some p ->
  body p = SocialDistancing bf ob ->
  dict_wf bf ->
  (forall k, k ∈ dict_keys bf ->
     exists x, beta (collab s) !! k = Some (Some x)) ->
  exists s1 ob1,
    save_and_scale_betas i s = (Return tt, s1)
    /\ policies s1 = <[i := with_body p (SocialDistancing bf ob1)]> (policies s)
    /\ (forall k,
          dict_get k ob1
          = if decide (k ∈ dict_keys bf) then beta (collab s) !! k
            else dict_get k ob)
    /\ (forall k,
          beta (collab s1) !! k
          = match dict_get k bf with
            | Some value => (fun b => scaled b value) <$> beta (collab s) !! k
            | None => beta (collab s) !! k
            end)
    /\ (dict_wf ob -> dict_wf ob1).
Proof.
  intros Hp Hbody Hwf Hkeys.
  assert (Hp' : policies s !! i = Some (with_body p (SocialDistancing bf ob))).
  { rewrite Hp, <- Hbody. by destruct p. }
  destruct (save_and_scale_loop_run i p bf bf s ob Hwf Hp' Hkeys)
    as (s1 & ob1 & Hrun & Hrest).
  exists s1, ob1. split; [|exact Hrest].
  unfold save_and_scale_betas.
  by rewrite (bind_Return _ _ _ _ _ (get_policy_Some _ _ _ Hp)), Hbody.
Qed.

Lemma restore_betas_run i p bf ob (s : store Interaction) :
  policies s !! i = Some p ->
  body p = SocialDistancing bf ob ->
  exists s',
    restore_betas i s = (Return tt, s')
    /\ policies s' = policies s
    /\ (dict_wf ob ->
        forall k,
          beta (collab s') !! k
          = match dict_get k ob with
            | Some v => Some v
            | None => beta (collab s) !! k
            end).
Proof.
  intros Hp Hbody. unfold restore_betas.
  rewrite (bind_Return _ _ _ _ _ (get_policy_Some _ _ _ Hp)), Hbody.
  apply restore_loop_run.
Qed.

(** *** What the appliers leave alone *)

Section SocialDistancingFrame.

(** [J]: a property of the state that the writes to the table keep, and
    that the writes to every policy object but the one at [i] keep. *)
Variable J : store Interaction -> Prop.
Variable i : nat.
Hypothesis J_table : forall f, preserves J (update_collab f).
Hypothesis J_other : forall j b, i <> j -> preserves J (set_body j b).

Lemma preserves_load_beta key : preserves J (load_beta key).
Proof.
  intros s Hs. unfold load_beta. by destruct (beta (collab s) !! key).
Qed.

Lemma preserves_restore_betas j : preserves J (restore_betas j).
Proof.
  apply preserves_bind; [apply preserves_get_policy|].
  intros q. destruct (body q); try apply preserves_raise.
  apply preserves_for_each. intros [key value]. apply J_table.
Qed.

Lemma preserves_save_and_scale_betas j :
  i <> j -> preserves J (save_and_scale_betas j).
Proof.
  intros Hne. apply preserves_bind; [apply preserves_get_policy|].
  intros q. destruct (body q); try apply preserves_raise.
  apply preserves_for_each. intros [key value].
  apply preserves_bind; [apply preserves_load_beta|]. intros b.
  apply preserves_bind.
  { apply preserves_bind; [apply preserves_get_policy|].
    intros q'. destruct (body q'); try apply preserves_raise.
    by apply J_other. }
  intros _. apply preserves_bind; [apply preserves_load_beta|]. intros b'.
  apply preserves_bind; [apply preserves_lift|]. intros c. apply J_table.
Qed.

Lemma preserves_deactivate_expiring date j :
  preserves J (deactivate_expiring date j).
Proof.
  apply preserves_bind; [apply preserves_get_policy|].
  intros q. destruct (_ =? _); [apply preserves_restore_betas|].
  apply preserves_ret.
Qed.

Lemma preserves_activate_starting_other date j :
  i <> j -> preserves J (activate_starting date j).
Proof.
  intros Hne. apply preserves_bind; [apply preserves_get_policy|].
  intros q. destruct (_ =? _); [by apply preserves_save_and_scale_betas|].
  apply preserves_ret.
Qed.

End SocialDistancingFrame.

Lemma preserves_for_each_elem {S X} (P : S -> Prop) (xs : list X)
  (body : X -> M S unit) :
  (forall x, x ∈ xs -> preserves P (body x)) -> preserves P (for_each xs body).
Proof.
  induction xs as [|x xs IH]; intros Hbody; simpl.
  - apply preserves_ret.
  - apply preserves_bind; [apply Hbody; left|].
    intros _. apply IH. intros y Hy. apply Hbody. by right.
Qed.

Lemma select_from_keeps keep ps i p :
  i ∈ select_from 0 keep ps -> ps !! i = Some p -> keep p = true.
Proof.
  intros (q & Hq & Hkeep & _)%elem_of_select_from Hp.
  rewrite Nat.sub_0_r in Hq. congruence.
Qed.

(** On a day that is not the first of its window, the applier leaves a
    policy object exactly as it was. *)
Lemma apply_social_distancing_policy_other_day date i p
  (s : store Interaction) :
  policies s !! i = Some p ->
  start_time p <> date ->
  policies (exec (apply_social_distancing_policy date) s) !! i = Some p.
Proof.
  intros Hp Hstart.
  set (J := fun s : store Interaction => policies s !! i = Some p).
  assert (Htable : forall f, preserves J (update_collab f)).
  { intros f. apply (preserves_update_collab (fun ps => ps !! i = Some p)). }
  assert (Hother : forall j b, i <> j -> preserves J (set_body j b)).
  { intros j b Hne. by apply preserves_set_body_other. }
  assert (Hact : forall j, preserves J (activate_starting date j)).
  { intros j. destruct (decide (i = j)) as [<-|Hne].
    - intros s' Hs'. unfold activate_starting.
      rewrite (bind_Return _ _ _ _ _ (get_policy_Some _ _ _ Hs')).
      apply Z.eqb_neq in Hstart. by rewrite Hstart.
    - by apply (preserves_activate_starting_other J i). }
  assert (Hall : preserves J (apply_social_distancing_policy date)).
  { apply preserves_bind.
    { apply preserves_bind; [apply preserves_get | intros; apply preserves_ret]. }
    intros sel. apply preserves_bind.
    - apply preserves_for_each. intros j.
      by apply (preserves_deactivate_expiring J).
    - intros _. apply preserves_for_each. apply Hact. }
  by apply Hall.
Qed.

Lemma apply_social_distancing_policy_unfold date (s : store Interaction) :
  apply_social_distancing_policy date s
  = bind
      (for_each
         (select_from 0
            (fun policy => is_SocialDistancing policy && is_active policy date)
            (policies s))
         (deactivate_expiring date))
      (fun _ =>
         for_each
           (select_from 0
              (fun policy =>
                 is_SocialDistancing policy && is_active policy date)
              (policies s))
           (activate_starting date)) s.
Proof. reflexivity. Qed.

(** The policies of the day are those with [date < end_time]: none of
    them has [end_time = date], and the restoration loop of the applier
    finds nothing to restore. *)
Lemma deactivation_pass_idle date (s : store Interaction) :
  for_each
    (select_from 0
       (fun policy => is_SocialDistancing policy && is_active policy date)
       (policies s))
    (deactivate_expiring date) s
  = (Return tt, s).
Proof.
  apply (for_each_skip (fun s' => s' = s)); [done|].
  intros i s' Hi ->.
  destruct (elem_of_select_from _ _ _ _ Hi) as (p & Hp & Hkeep & _).
  rewrite Nat.sub_0_r in Hp.
  unfold deactivate_expiring.
  rewrite (bind_Return _ _ _ _ _ (get_policy_Some _ _ _ Hp)).
  apply andb_true_iff in Hkeep as [Hsd Hact].
  unfold is_active, is_SocialDistancing in *.
  destruct (body p); try discriminate.
  apply andb_true_iff in Hact as [_ Hlt%Z.ltb_lt].
  destruct (Z.eqb_spec (end_time p) date); [lia | done].
Qed.

(** A policy whose window is empty is never selected, hence never
    touched, on whatever day. *)
Lemma apply_social_distancing_policy_empty_window date i p
  (s : store Interaction) :
  policies s !! i = Some p ->
  is_SocialDistancing p = true ->
  end_time p <= start_time p ->
  policies (exec (apply_social_distancing_policy date) s) !! i = Some p.
Proof.
  intros Hp Hsd Hempty.
  set (J := fun s : store Interaction => policies s !! i = Some p).
  assert (Htable : forall f, preserves J (update_collab f)).
  { intros f. apply (preserves_update_collab (fun ps => ps !! i = Some p)). }
  assert (Hother : forall j b, i <> j -> preserves J (set_body j b)).
  { intros j b Hne. by apply preserves_set_body_other. }
  unfold exec. rewrite apply_social_distancing_policy_unfold.
  set (sel := select_from _ _ _).
  assert (Hsel : forall j, j ∈ sel -> i <> j).
  { intros j Hj <-. pose proof (select_from_keeps _ _ _ _ Hj Hp) as Hkeep.
    apply andb_true_iff in Hkeep as [_ Hact].
    unfold is_active, is_SocialDistancing in *.
    destruct (body p); try discriminate.
    apply andb_true_iff in Hact as [?%Z.leb_le ?%Z.ltb_lt]. lia. }
  apply (preserves_bind J); [|intros _|exact Hp].
  - apply preserves_for_each. intros j.
    by apply (preserves_deactivate_expiring J).
  - apply preserves_for_each_elem. intros j Hj.
    apply (preserves_activate_starting_other J i); auto.
Qed.

(** C1, as the code has it.  In the scenario (a registry holding the
    baseline policy and [SocialDistancing] with factor 0.5 on "household"
    from day 10 to day 20, the coefficient being 2.0): the call for day 9
    changes nothing; the call for day 10 sets the coefficient to 1.0 and
    stores 2.0 in [original_betas]; the call for day 20 leaves the policy
    objects as they are, the stored 2.0 included.  In general, for a
    policy whose keys all have a coefficient, the activation loop followed
    by the restoration loop of the same policy returns every configured
    key to its value from before the activation; in between, the
    coefficient is the product; afterwards the snapshot still holds the
    restored values. *)
Theorem social_distancing_round_trip :
  (forall t0 t1,
     let s9 := distancing_store t0 t1 in
     let s10 := exec (apply_social_distancing_policy (day 10)) s9 in
     let s20 := exec (apply_social_distancing_policy (day 20)) s10 in
     apply_social_distancing_policy (day 9) s9 = (Return tt, s9)
     /\ apply_social_distancing_policy (day 10) s9 = (Return tt, s10)
     /\ beta (collab s10) !! "household" = Some (Some 1%float)
     /\ policies s10 !! 1%nat
        = Some (with_body household_distancing
                  (SocialDistancing [("household", 0.5%float)]
                     [("household", Some 2%float)]))
     /\ apply_social_distancing_policy (day 20) s10 = (Return tt, s20)
     /\ policies s20 = policies s10)
  /\ (forall (s : store Interaction) i p bf ob,
        policies s !! i = Some p ->
        body p = SocialDistancing bf ob ->
        dict_wf bf ->
        dict_wf ob ->
        (forall k, k ∈ dict_keys bf ->
           exists x, beta (collab s) !! k = Some (Some x)) ->
        exists s1 s2 ob1,
          save_and_scale_betas i s = (Return tt, s1)
          /\ restore_betas i s1 = (Return tt, s2)
          /\ (forall k value x,
                dict_get k bf = Some value ->
                beta (collab s) !! k = Some (Some x) ->
                beta (collab s1) !! k = Some (Some (x * value)%float))
          /\ (forall k, k ∈ dict_keys bf ->
                beta (collab s2) !! k = beta (collab s) !! k)
          /\ policies s2 !! i = Some (with_body p (SocialDistancing bf ob1))
          /\ (forall k, k ∈ dict_keys bf ->
                dict_get k ob1 = beta (collab s) !! k)).
Proof.
  split.
  - intros t0 t1. repeat split; vm_compute; reflexivity.
  - intros s i p bf ob Hp Hbody Hwf Hwfob Hkeys.
    destruct (save_and_scale_betas_run i p bf ob s Hp Hbody Hwf Hkeys)
      as (s1 & ob1 & Hrun1 & Hpol1 & Hob1 & Hbeta1 & Hwf1).
    assert (Hlen : (i < length (policies s))%nat) by by eapply lookup_lt_Some.
    assert (Hp1 : policies s1 !! i
                  = Some (with_body p (SocialDistancing bf ob1))).
    { rewrite Hpol1. by apply list_lookup_insert_eq. }
    destruct (restore_betas_run i _ bf ob1 s1 Hp1 eq_refl)
      as (s2 & Hrun2 & Hpol2 & Hbeta2).
    exists s1, s2, ob1. repeat split; try done.
    + intros k value x Hvalue Hx. by rewrite Hbeta1, Hvalue, Hx.
    + intros k Hk. rewrite (Hbeta2 (Hwf1 Hwfob)), Hob1.
      rewrite decide_True by done.
      destruct (Hkeys k Hk) as [x ->]. done.
    + by rewrite Hpol2.
    + intros k Hk. rewrite Hob1. by rewrite decide_True.
Qed.

Lemma social_distancing_round_trip_witness :
  exists s1 s2,
    save_and_scale_betas 1 (distancing_store 0 1) = (Return tt, s1)
    /\ restore_betas 1 s1 = (Return tt, s2)
    /\ beta (collab s2) !! "household" = Some (Some 2%float).
Proof.
  destruct social_distancing_round_trip as [_ Hloops].
  destruct (Hloops (distancing_store 0 1) 1%nat household_distancing
              [("household", 0.5%float)] [("household", None)])
    as (s1 & s2 & ob1 & H1 & H2 & _ & Hback & _).
  - reflexivity.
  - reflexivity.
  - apply NoDup_singleton.
  - apply NoDup_singleton.
  - intros k ->%list_elem_of_singleton. by exists 2%float.
  - exists s1, s2. split; [done|]. split; [done|].
    rewrite (Hback "household"); [reflexivity|]. by apply list_elem_of_singleton.
Defined.

(** C1 as stated fails on the call for day 20: the policy is not selected
    on its [end_time], so that the coefficient stays at 1.0, and the
    snapshot still holds 2.0. *)
Lemma social_distancing_day_20_not_restored :
  let s9 := distancing_store (day 0) (day 100) in
  let s10 := exec (apply_social_distancing_policy (day 10)) s9 in
  let s20 := exec (apply_social_distancing_policy (day 20)) s10 in
  beta (collab s20) !! "household" = Some (Some 1%float)
  /\ beta (collab s20) !! "household" <> Some (Some 2%float)
  /\ body <$> policies s20 !! 1%nat
     = Some (SocialDistancing [("household", 0.5%float)]
               [("household", Some 2%float)]).
Proof.
  repeat split; try (vm_compute; reflexivity).
  vm_compute. discriminate.
Qed.

(** ** Leisure probabilities *)

Lemma dict_set_set {V} k (v1 v2 : V) d :
  dict_set k v2 (dict_set k v1 d) = dict_set k v2 d.
Proof.
  induction d as [|[k' v'] d IH]; simpl.
  - by rewrite decide_True.
  - destruct (decide (k' = k)) as [->|Hne]; simpl.
    + by rewrite decide_True.
    + rewrite decide_False by done. by rewrite IH.
Qed.

Lemma alter_twice_insert (table : gmap string distributor) activity d f g :
  table !! activity = Some d ->
  alter g activity (alter f activity table) = <[activity := g (f d)]> table.
Proof.
  intros Hd. apply map_eq. intros k.
  destruct (decide (activity = k)) as [<-|Hne].
  - by rewrite lookup_alter_eq, lookup_alter_eq, Hd, lookup_insert_eq.
  - by rewrite !lookup_alter_ne, lookup_insert_ne.
Qed.

Lemma set_original_leisure_probability_run i p lp ol activity sex c snapshot
  (s : store Leisure) :
  policies s !! i = Some p ->
  body p = ChangeLeisureProbability lp ol ->
  dict_get activity ol = Some snapshot ->
  set_original_leisure_probability i activity sex c s
  = (Return tt,
     {| policies :=
          <[i := with_body p
                   (ChangeLeisureProbability lp
                      (dict_set activity (dict_set sex c snapshot) ol))]>
            (policies s);
        collab := collab s |}).
Proof.
  intros Hp Hbody Hsnap. unfold set_original_leisure_probability.
  rewrite (bind_Return _ _ _ _ _ (get_policy_Some _ _ _ Hp)), Hbody.
  unfold dict_item. rewrite Hsnap.
  rewrite (bind_Return _ _ _ snapshot s eq_refl).
  by apply set_body_Some.
Qed.

Lemma get_original_leisure_probability_run i p lp ol activity sex c snapshot
  (s : store Leisure) :
  policies s !! i = Some p ->
  body p = ChangeLeisureProbability lp ol ->
  dict_get activity ol = Some snapshot ->
  dict_get sex snapshot = Some c ->
  get_original_leisure_probability i activity sex s = (Return c, s).
Proof.
  intros Hp Hbody Hsnap Hc. unfold get_original_leisure_probability.
  rewrite (bind_Return _ _ _ _ _ (get_policy_Some _ _ _ Hp)), Hbody.
  unfold dict_item. rewrite Hsnap.
  rewrite (bind_Return _ _ _ snapshot s eq_refl).
  by rewrite Hc.
Qed.

Lemma activate_leisure_activity_absent i activity configured
  (s : store Leisure) :
  leisure_distributors (collab s) !! activity = None ->
  activate_leisure_activity i activity configured s = (Raise PolicyError, s).
Proof.
  intros Hnone. unfold activate_leisure_activity.
  rewrite (bind_Return get _ s s s eq_refl). by rewrite Hnone.
Qed.

Lemma restore_leisure_activity_absent i activity (s : store Leisure) :
  leisure_distributors (collab s) !! activity = None ->
  restore_leisure_activity i activity s = (Raise PolicyError, s).
Proof.
  intros Hnone. unfold restore_leisure_activity.
  rewrite (bind_Return get _ s s s eq_refl). by rewrite Hnone.
Qed.

Lemma activate_leisure_activity_run i p lp ol activity configured d snapshot
  (s : store Leisure) :
  policies s !! i = Some p ->
  body p = ChangeLeisureProbability lp ol ->
  leisure_distributors (collab s) !! activity = Some d ->
  dict_get activity ol = Some snapshot ->
  activate_leisure_activity i activity configured s
  = (Return tt,
     {| policies :=
          <[i := with_body p
                   (ChangeLeisureProbability lp
                      (dict_set activity (captured d snapshot) ol))]>
            (policies s);
        collab :=
          {| leisure_distributors :=
               <[activity := configured_distributor configured]>
                 (leisure_distributors (collab s)) |} |}).
Proof.
  intros Hp Hbody Hd Hsnap.
  assert (Hlen : (i < length (policies s))%nat) by by eapply lookup_lt_Some.
  unfold activate_leisure_activity.
  rewrite (bind_Return get _ s s s eq_refl), Hd.
  rewrite (bind_Return _ _ _ _ _
             (set_original_leisure_probability_run i p lp ol activity "men"
                (male_probabilities d) snapshot s Hp Hbody Hsnap)).
  erewrite bind_Return.
  2:{ eapply set_original_leisure_probability_run.
      - simpl. by apply list_lookup_insert_eq.
      - reflexivity.
      - apply dict_get_set_eq. }
  unfold update_distributor, update_collab, bind, modify. simpl.
  rewrite list_insert_insert_eq, dict_set_set.
  by rewrite (alter_twice_insert _ _ d).
Qed.

Lemma saved_distributor_Some ol activity sd :
  saved_distributor ol activity = Some sd ->
  exists snapshot,
    dict_get activity ol = Some snapshot
    /\ dict_get "men" snapshot = Some (male_probabilities sd)
    /\ dict_get "women" snapshot = Some (female_probabilities sd).
Proof.
  unfold saved_distributor. intros H.
  destruct (dict_get activity ol) as [snapshot|]; [|done]. simpl in H.
  destruct (dict_get "men" snapshot) as [m|] eqn:Hm; [|done]. simpl in H.
  destruct (dict_get "women" snapshot) as [w|] eqn:Hw; [|done]. simpl in H.
  injection H as <-. exists snapshot. by rewrite Hm, Hw.
Qed.

Lemma saved_distributor_captured ol activity d snapshot :
  saved_distributor (dict_set activity (captured d snapshot) ol) activity
  = Some d.
Proof.
  assert (Hne : "women" <> "men") by discriminate.
  unfold saved_distributor, captured. rewrite dict_get_set_eq. simpl.
  rewrite (dict_get_set_ne _ _ _ _ Hne), dict_get_set_eq. simpl.
  rewrite dict_get_set_eq. simpl. by destruct d.
Qed.

Lemma restore_leisure_activity_run i p lp ol activity d sd
  (s : store Leisure) :
  policies s !! i = Some p ->
  body p = ChangeLeisureProbability lp ol ->
  leisure_distributors (collab s) !! activity = Some d ->
  saved_distributor ol activity = Some sd ->
  restore_leisure_activity i activity s
  = (Return tt,
     {| policies := policies s;
        collab :=
          {| leisure_distributors :=
               <[activity := sd]> (leisure_distributors (collab s)) |} |}).
Proof.
  intros Hp Hbody Hd (snapshot & Hsnap & Hm & Hw)%saved_distributor_Some.
  unfold restore_leisure_activity.
  rewrite (bind_Return get _ s s s eq_refl), Hd.
  rewrite (bind_Return _ _ _ _ _
             (get_original_leisure_probability_run i p lp ol activity "men"
                _ snapshot s Hp Hbody Hsnap Hm)).
  unfold update_distributor at 1, update_collab, bind at 1, modify.
  erewrite bind_Return.
  2:{ eapply get_original_leisure_probability_run; [exact Hp|exact Hbody|..];
        eassumption. }
  unfold update_distributor, update_collab, modify. simpl.
  rewrite (alter_twice_insert _ _ d) by done. by destruct sd.
Qed.

(** The activation loop, on activities that all have a distributor and a
    snapshot to fill. *)
Lemma activate_leisure_loop_run i p lp (rest : dict by_sex) :
  forall (s : store Leisure) ol,
    dict_wf rest ->
    policies s !! i = Some (with_body p (ChangeLeisureProbability lp ol)) ->
    (forall k, k ∈ dict_keys rest ->
       is_Some (leisure_distributors (collab s) !! k)
       /\ is_Some (dict_get k ol)) ->
    exists s' ol',
      for_each rest (fun '(activity, configured) =>
        activate_leisure_activity i activity configured) s = (Return tt, s')
      /\ policies s'
         = <[i := with_body p (ChangeLeisureProbability lp ol')]> (policies s)
      /\ (forall k,
            dict_get k ol'
            = if decide (k ∈ dict_keys rest) then
                d ← leisure_distributors (collab s) !! k;
                snapshot ← dict_get k ol;
                Some (captured d snapshot)
              else dict_get k ol)
      /\ (forall k,
            leisure_distributors (collab s') !! k
            = match dict_get k rest with
              | Some configured => Some (configured_distributor configured)
              | None => leisure_distributors (collab s) !! k
              end).
Proof.
  induction rest as [|[k0 c0] rest IH]; intros s ol Hwf Hp Hkeys.
  - exists s, ol. split; [done|]. split.
    { symmetry. by apply list_insert_id. }
    by split.
  - apply NoDup_cons in Hwf as [Hk0 Hwf]. simpl in Hk0.
    destruct (Hkeys k0) as [[d Hd] [snapshot Hsnap]]; [left|].
    pose proof (activate_leisure_activity_run i _ lp ol k0 c0 d snapshot s
                  Hp eq_refl Hd Hsnap) as Hstep.
    set (s1 := {| policies := _; collab := _ |}) in Hstep.
    assert (Hlen : (i < length (policies s))%nat) by by eapply lookup_lt_Some.
    destruct (IH s1 (dict_set k0 (captured d snapshot) ol) Hwf)
      as (s' & ol' & Hrun & Hpol & Hol & Htable).
    { simpl. by rewrite list_lookup_insert_eq. }
    { intros k Hk. destruct (Hkeys k) as [Hdk Hsk]; [by right|].
      assert (k0 <> k) by (intros <-; done).
      simpl. by rewrite lookup_insert_ne, dict_get_set_ne. }
    exists s', ol'. split.
    { simpl. by rewrite (bind_Return _ _ _ _ _ Hstep). }
    split.
    { rewrite Hpol. simpl. by rewrite list_insert_insert_eq. }
    split.
    + intros k. rewrite Hol. simpl.
      destruct (decide (k ∈ dict_keys rest)) as [Hin|Hout].
      * assert (k0 <> k) by (intros <-; done).
        rewrite decide_True by (by right).
        by rewrite lookup_insert_ne, dict_get_set_ne.
      * destruct (decide (k0 = k)) as [<-|Hne].
        -- rewrite decide_True by left.
           by rewrite dict_get_set_eq, Hd, Hsnap.
        -- rewrite decide_False.
           ++ by rewrite dict_get_set_ne.
           ++ intros [->|?]%elem_of_cons; done.
    + intros k. rewrite Htable. simpl.
      destruct (decide (k0 = k)) as [<-|Hne].
      * apply dict_get_None in Hk0. rewrite Hk0. apply lookup_insert_eq.
      * destruct (dict_get k rest); [done|]. by apply lookup_insert_ne.
Qed.

(** The restoration loop, on activities that all have a distributor and
    a complete snapshot. *)
Lemma restore_leisure_loop_run i p lp ol (rest : dict by_sex) :
  forall (s : store Leisure),
    policies s !! i = Some p ->
    body p = ChangeLeisureProbability lp ol ->
    (forall k, k ∈ dict_keys rest ->
       is_Some (leisure_distributors (collab s) !! k)
       /\ is_Some (saved_distributor ol k)) ->
    exists s',
      for_each rest (fun '(activity, _) => restore_leisure_activity i activity)
        s = (Return tt, s')
      /\ policies s' = policies s
      /\ (forall k,
            leisure_distributors (collab s') !! k
            = if decide (k ∈ dict_keys rest) then saved_distributor ol k
              else leisure_distributors (collab s) !! k).
Proof.
  induction rest as [|[k0 c0] rest IH]; intros s Hp Hbody Hkeys.
  - exists s. by repeat split.
  - destruct (Hkeys k0) as [[d Hd] [sd Hsd]]; [left|].
    pose proof (restore_leisure_activity_run i p lp ol k0 d sd s
                  Hp Hbody Hd Hsd) as Hstep.
    set (s1 := {| policies := _; collab := _ |}) in Hstep.
    destruct (IH s1 Hp Hbody) as (s' & Hrun & Hpol & Htable).
    { intros k Hk. destruct (Hkeys k) as [Hdk Hsk]; [by right|].
      split; [|done]. simpl.
      destruct (decide (k0 = k)) as [<-|Hne].
      - rewrite lookup_insert_eq. by eexists.
      - by rewrite lookup_insert_ne. }
    exists s'. split.
    { simpl. by rewrite (bind_Return _ _ _ _ _ Hstep). }
    split; [done|].
    intros k. rewrite Htable. simpl.
    destruct (decide (k ∈ dict_keys rest)) as [Hin|Hout].
    + rewrite decide_True; [done | by right].
    + destruct (decide (k0 = k)) as [<-|Hne].
      * rewrite decide_True by left. by rewrite lookup_insert_eq.
      * rewrite decide_False.
        -- by rewrite lookup_insert_ne.
        -- intros [->|?]%elem_of_cons; done.
Qed.

Lemma with_body_same p b : body p = b -> with_body p b = p.
Proof. intros <-. by destruct p. Qed.

Lemma apply_change_probabilities_leisure_unfold date (s : store Leisure) :
  apply_change_probabilities_leisure date s
  = for_each
      (select_from 0
         (fun policy =>
            is_ChangeLeisureProbability policy && is_active policy date)
         (policies s))
      (change_leisure date) s.
Proof. reflexivity. Qed.

(** The activation loop stops with [PolicyError] at the first activity
    without distributor; the activities before it have been switched. *)
Lemma activate_leisure_PolicyError i p lp ol done activity configured todo
  (s : store Leisure) :
  policies s !! i = Some p ->
  body p = ChangeLeisureProbability lp ol ->
  lp = done ++ (activity, configured) :: todo ->
  dict_wf lp ->
  leisure_distributors (collab s) !! activity = None ->
  (forall k, k ∈ dict_keys done ->
     is_Some (leisure_distributors (collab s) !! k)
     /\ is_Some (dict_get k ol)) ->
  exists s',
    activate_leisure i s = (Raise PolicyError, s')
    /\ (forall k c, (k, c) ∈ done ->
          leisure_distributors (collab s') !! k
          = Some (configured_distributor c))
    /\ (forall k, k ∉ dict_keys done ->
          leisure_distributors (collab s') !! k
          = leisure_distributors (collab s) !! k).
Proof.
  intros Hp Hbody -> Hwf Hnone Hdone.
  unfold dict_wf, dict_keys in Hwf. rewrite fmap_app in Hwf.
  apply NoDup_app in Hwf as (Hwfdone & Hdisj & Hwftodo).
  assert (Hfresh : activity ∉ dict_keys done).
  { intros Hin. apply (Hdisj _ Hin). csimpl. left. }
  destruct (activate_leisure_loop_run i p
              (done ++ (activity, configured) :: todo) done s ol Hwfdone) as
    (s' & ol' & Hrun & Hpol & Hol & Htable); [|done|].
  { by rewrite (with_body_same _ _ Hbody). }
  exists s'. split; [|split].
  - unfold activate_leisure.
    rewrite (bind_Return _ _ _ _ _ (get_policy_Some _ _ _ Hp)), Hbody.
    rewrite for_each_app, (bind_Return _ _ _ _ _ Hrun). simpl.
    apply bind_Raise, activate_leisure_activity_absent.
    rewrite Htable. apply dict_get_None in Hfresh. by rewrite Hfresh.
  - intros k c Hin. rewrite Htable.
    by rewrite (dict_get_elem_of _ _ _ Hwfdone Hin).
  - intros k Hout. rewrite Htable.
    apply dict_get_None in Hout. by rewrite Hout.
Qed.

(** So does the restoration loop; the activities before the unknown one
    have their saved curves back. *)
Lemma restore_leisure_PolicyError i p lp ol done activity configured todo
  (s : store Leisure) :
  policies s !! i = Some p ->
  body p = ChangeLeisureProbability lp ol ->
  lp = done ++ (activity, configured) :: todo ->
  dict_wf lp ->
  leisure_distributors (collab s) !! activity = None ->
  (forall k, k ∈ dict_keys done ->
     is_Some (leisure_distributors (collab s) !! k)
     /\ is_Some (saved_distributor ol k)) ->
  exists s',
    restore_leisure i s = (Raise PolicyError, s')
    /\ (forall k, k ∈ dict_keys done ->
          leisure_distributors (collab s') !! k = saved_distributor ol k)
    /\ (forall k, k ∉ dict_keys done ->
          leisure_distributors (collab s') !! k
          = leisure_distributors (collab s) !! k)
    /\ policies s' = policies s.
Proof.
  intros Hp Hbody -> Hwf Hnone Hdone.
  unfold dict_wf, dict_keys in Hwf. rewrite fmap_app in Hwf.
  apply NoDup_app in Hwf as (Hwfdone & Hdisj & Hwftodo).
  assert (Hfresh : activity ∉ dict_keys done).
  { intros Hin. apply (Hdisj _ Hin). csimpl. left. }
  destruct (restore_leisure_loop_run i p
              (done ++ (activity, configured) :: todo) ol done s Hp Hbody
              Hdone) as
    (s' & Hrun & Hpol & Htable).
  exists s'. split; [|split; [|split]].
  - unfold restore_leisure.
    rewrite (bind_Return _ _ _ _ _ (get_policy_Some _ _ _ Hp)), Hbody.
    rewrite for_each_app, (bind_Return _ _ _ _ _ Hrun). simpl.
    apply bind_Raise, restore_leisure_activity_absent.
    rewrite Htable. by rewrite decide_False.
  - intros k Hin. rewrite Htable. by rewrite decide_True.
  - intros k Hout. rewrite Htable. by rewrite decide_False.
  - done.
Qed.

(** C6, as the code has it: when the daily loop reaches, in state [s1], a
    policy one of whose configured activities has no distributor, the
    applier raises [PolicyError] at that activity provided the activities
    configured before it could be processed: in the activation branch,
    each of them has a distributor and an entry in the snapshot to write
    to; in the restoration branch, each of them has a distributor and its
    saved curves in the snapshot.  Those activities keep what was done to
    them: the configured curves after an activation, the saved curves
    after a restoration; every other entry of the table is as in [s1]. *)
Theorem leisure_unknown_activity_PolicyError
  (date : datetime) (s s1 : store Leisure) (before after : list nat)
  (i : nat) (p : Policy) (lp : dict by_sex) (ol : dict (dict curve))
  (done : dict by_sex) (activity : string) (configured : by_sex)
  (todo : dict by_sex) :
  select_from 0
    (fun policy => is_ChangeLeisureProbability policy && is_active policy date)
    (policies s) = before ++ i :: after ->
  for_each before (change_leisure date) s = (Return tt, s1) ->
  policies s1 !! i = Some p ->
  body p = ChangeLeisureProbability lp ol ->
  lp = done ++ (activity, configured) :: todo ->
  dict_wf lp ->
  leisure_distributors (collab s1) !! activity = None ->
  (forall k, k ∈ dict_keys done ->
     is_Some (leisure_distributors (collab s1) !! k)) ->
  (start_time p = date ->
   (forall k, k ∈ dict_keys done -> is_Some (dict_get k ol)) ->
   exists s2,
     apply_change_probabilities_leisure date s = (Raise PolicyError, s2)
     /\ (forall k c, (k, c) ∈ done ->
           leisure_distributors (collab s2) !! k
           = Some (configured_distributor c))
     /\ (forall k, k ∉ dict_keys done ->
           leisure_distributors (collab s2) !! k
           = leisure_distributors (collab s1) !! k))
  /\ (start_time p <> date ->
      end_time p = date ->
      (forall k, k ∈ dict_keys done -> is_Some (saved_distributor ol k)) ->
      exists s2,
        apply_change_probabilities_leisure date s = (Raise PolicyError, s2)
        /\ (forall k, k ∈ dict_keys done ->
              leisure_distributors (collab s2) !! k = saved_distributor ol k)
        /\ (forall k, k ∉ dict_keys done ->
              leisure_distributors (collab s2) !! k
              = leisure_distributors (collab s1) !! k)
        /\ policies s2 = policies s1).
Proof.
  intros Hsel Hbefore Hp Hbody Hlp Hwf Hnone Hdone.
  assert (Hreach : forall o s2,
    change_leisure date i s1 = (Raise o, s2) ->
    apply_change_probabilities_leisure date s = (Raise o, s2)).
  { intros o s2 Hi. rewrite apply_change_probabilities_leisure_unfold, Hsel.
    rewrite for_each_app, (bind_Return _ _ _ _ _ Hbefore). simpl.
    by apply bind_Raise. }
  split.
  - intros Hstart Hsnap.
    destruct (activate_leisure_PolicyError i p lp ol done activity configured
                todo s1 Hp Hbody Hlp Hwf Hnone) as (s2 & Hrun & Hrest).
    { intros k Hk. split; [by apply Hdone | by apply Hsnap]. }
    exists s2. split; [|exact Hrest]. apply Hreach.
    unfold change_leisure.
    rewrite (bind_Return _ _ _ _ _ (get_policy_Some _ _ _ Hp)).
    by rewrite Hstart, Z.eqb_refl.
  - intros Hstart Hend Hsnap.
    destruct (restore_leisure_PolicyError i p lp ol done activity configured
                todo s1 Hp Hbody Hlp Hwf Hnone) as (s2 & Hrun & Hrest).
    { intros k Hk. split; [by apply Hdone | by apply Hsnap]. }
    exists s2. split; [|exact Hrest]. apply Hreach.
    unfold change_leisure.
    rewrite (bind_Return _ _ _ _ _ (get_policy_Some _ _ _ Hp)).
    apply Z.eqb_neq in Hstart. by rewrite Hstart, Hend, Z.eqb_refl.
Qed.

(** The policy for the pubs and the casinos, on its first day, and,
    the pubs having been switched on that day, on its last day. *)
Lemma leisure_unknown_activity_PolicyError_witness :
  let s10 :=
    exec (apply_change_probabilities_leisure (day 10)) unknown_activity_store in
  (exists s2,
     apply_change_probabilities_leisure (day 10) unknown_activity_store
     = (Raise PolicyError, s2)
     /\ leisure_distributors (collab s2) !! "pubs"
        = Some (configured_distributor quiet_pubs))
  /\ (exists s2,
        apply_change_probabilities_leisure (day 20) s10
        = (Raise PolicyError, s2)
        /\ leisure_distributors (collab s2) !! "pubs" = Some pubs_distributor).
Proof.
  intros s10.
  assert (Hwf : dict_wf [("pubs", quiet_pubs); ("casinos", busy_pubs)]).
  { apply NoDup_cons. split.
    - intros ?%list_elem_of_singleton. discriminate.
    - apply NoDup_singleton. }
  split.
  - destruct (leisure_unknown_activity_PolicyError (day 10)
                unknown_activity_store unknown_activity_store [] [] 1
                pubs_and_unknown
                [("pubs", quiet_pubs); ("casinos", busy_pubs)]
                [("pubs", []); ("casinos", [])]
                [("pubs", quiet_pubs)] "casinos" busy_pubs [])
      as [Hactivation _]; try reflexivity; [exact Hwf | |].
    + intros k ->%list_elem_of_singleton. by eexists.
    + destruct Hactivation as (s2 & Hrun & Hdone & _).
      * reflexivity.
      * intros k ->%list_elem_of_singleton. by eexists.
      * exists s2. split; [exact Hrun|].
        apply Hdone. by apply list_elem_of_singleton.
  - destruct (leisure_unknown_activity_PolicyError (day 20) s10 s10 [] [] 1
                (with_body pubs_and_unknown
                   (ChangeLeisureProbability
                      [("pubs", quiet_pubs); ("casinos", busy_pubs)]
                      [("pubs", [("men", [0.5%float]); ("women", [0.75%float])]);
                       ("casinos", [])]))
                [("pubs", quiet_pubs); ("casinos", busy_pubs)]
                [("pubs", [("men", [0.5%float]); ("women", [0.75%float])]);
                 ("casinos", [])]
                [("pubs", quiet_pubs)] "casinos" busy_pubs [])
      as [_ Hrestoration]; try (vm_compute; reflexivity); [exact Hwf | |].
    + intros k ->%list_elem_of_singleton. by eexists.
    + destruct Hrestoration as (s2 & Hrun & Hdone & _).
      * vm_compute. discriminate.
      * vm_compute. reflexivity.
      * intros k ->%list_elem_of_singleton. by eexists.
      * exists s2. split; [exact Hrun|].
        rewrite Hdone by (by apply list_elem_of_singleton). reflexivity.
Defined.

(** C6 as stated fails in the restoration branch.  The same policy,
    reached on its last day without having been activated, has an empty
    snapshot for the pubs: the applier raises [KeyError] on reading it,
    before it comes to the activity without distributor. *)
Lemma leisure_unknown_activity_KeyError :
  policies unknown_activity_store !! 1%nat = Some pubs_and_unknown
  /\ end_time pubs_and_unknown = day 20
  /\ dict_keys [("pubs", quiet_pubs); ("casinos", busy_pubs)]
     = ["pubs"; "casinos"]
  /\ body pubs_and_unknown
     = ChangeLeisureProbability
         [("pubs", quiet_pubs); ("casinos", busy_pubs)]
         [("pubs", []); ("casinos", [])]
  /\ leisure_distributors (collab unknown_activity_store) !! "casinos" = None
  /\ apply_change_probabilities_leisure (day 20) unknown_activity_store
     = (Raise KeyError, unknown_activity_store)
  /\ (apply_change_probabilities_leisure (day 20) unknown_activity_store).1
     <> Raise PolicyError.
Proof.
  repeat split; try (vm_compute; reflexivity).
  vm_compute. discriminate.
Qed.

(** *** What the leisure applier leaves alone *)

Section LeisureFrame.

(** [J]: a property of the state that the writes to the table keep, and
    that the writes to the policy objects at the positions in [touch]
    keep. *)
Variable J : store Leisure -> Prop.
Variable touch : nat -> Prop.
Hypothesis J_table : forall f, preserves J (update_collab f).
Hypothesis J_touch : forall j b, touch j -> preserves J (set_body j b).

Lemma preserves_get_original_leisure_probability j activity sex :
  preserves J (get_original_leisure_probability j activity sex).
Proof.
  apply preserves_bind; [apply preserves_get_policy|].
  intros q. destruct (body q); try apply preserves_raise.
  apply preserves_bind; intros; apply preserves_lift.
Qed.

Lemma preserves_restore_leisure j : preserves J (restore_leisure j).
Proof.
  apply preserves_bind; [apply preserves_get_policy|].
  intros q. destruct (body q); try apply preserves_raise.
  apply preserves_for_each. intros [activity c].
  apply preserves_bind; [apply preserves_get|]. intros s.
  destruct (_ !! _); [|apply preserves_raise].
  apply preserves_bind;
    [apply preserves_get_original_leisure_probability|]. intros m.
  apply preserves_bind; [apply J_table|]. intros _.
  apply preserves_bind;
    [apply preserves_get_original_leisure_probability|]. intros w.
  apply J_table.
Qed.

Lemma preserves_set_original_leisure_probability j activity sex c :
  touch j -> preserves J (set_original_leisure_probability j activity sex c).
Proof.
  intros Hj. apply preserves_bind; [apply preserves_get_policy|].
  intros q. destruct (body q); try apply preserves_raise.
  apply preserves_bind; [apply preserves_lift|]. intros snapshot.
  by apply J_touch.
Qed.

Lemma preserves_activate_leisure j : touch j -> preserves J (activate_leisure j).
Proof.
  intros Hj. apply preserves_bind; [apply preserves_get_policy|].
  intros q. destruct (body q); try apply preserves_raise.
  apply preserves_for_each. intros [activity c].
  apply preserves_bind; [apply preserves_get|]. intros s.
  destruct (_ !! _); [|apply preserves_raise].
  apply preserves_bind;
    [by apply preserves_set_original_leisure_probability|]. intros _.
  apply preserves_bind;
    [by apply preserves_set_original_leisure_probability|]. intros _.
  apply preserves_bind; [apply J_table|]. intros _.
  apply J_table.
Qed.

Lemma preserves_change_leisure date j :
  touch j -> preserves J (change_leisure date j).
Proof.
  intros Hj. apply preserves_bind; [apply preserves_get_policy|].
  intros q. destruct (_ =? _); [by apply preserves_activate_leisure|].
  destruct (_ =? _); [apply preserves_restore_leisure|].
  apply preserves_ret.
Qed.

End LeisureFrame.

Lemma apply_change_probabilities_leisure_other_day date i p
  (s : store Leisure) :
  policies s !! i = Some p ->
  start_time p <> date ->
  policies (exec (apply_change_probabilities_leisure date) s) !! i = Some p.
Proof.
  intros Hp Hstart.
  set (J := fun s : store Leisure => policies s !! i = Some p).
  assert (Htable : forall f, preserves J (update_collab f)).
  { intros f. apply (preserves_update_collab (fun ps => ps !! i = Some p)). }
  assert (Hother : forall j b, i <> j -> preserves J (set_body j b)).
  { intros j b Hne. by apply preserves_set_body_other. }
  unfold exec. rewrite apply_change_probabilities_leisure_unfold.
  apply (preserves_for_each J); [|exact Hp].
  intros j. destruct (decide (i = j)) as [<-|Hne].
  - intros s' Hs'. unfold change_leisure.
    rewrite (bind_Return _ _ _ _ _ (get_policy_Some _ _ _ Hs')).
    apply Z.eqb_neq in Hstart. rewrite Hstart.
    destruct (end_time p =? date); [|exact Hs'].
    by apply (preserves_restore_leisure J).
  - by apply (preserves_change_leisure J (fun j => i <> j)).
Qed.

(** The restoration loops write to the table only. *)
Lemma restore_betas_keeps_policies i (s : store Interaction) :
  policies (exec (restore_betas i) s) = policies s.
Proof.
  apply (preserves_restore_betas (fun s' => policies s' = policies s));
    [|done].
  intros f. apply (preserves_update_collab (fun ps => ps = policies s)).
Qed.

Lemma restore_leisure_keeps_policies i (s : store Leisure) :
  policies (exec (restore_leisure i) s) = policies s.
Proof.
  apply (preserves_restore_leisure (fun s' => policies s' = policies s));
    [|done].
  intros f. apply (preserves_update_collab (fun ps => ps = policies s)).
Qed.

(** *** The snapshots of a new policy *)

Lemma foldl_dict_set_keys {X W} (g : dict W -> X -> dict W)
  (key : X -> string) (f : X -> W) (l : list X) :
  (forall acc x, g acc x = dict_set (key x) (f x) acc) ->
  forall acc,
    NoDup (key <$> l) ->
    (forall x, x ∈ l -> key x ∉ dict_keys acc) ->
    foldl g acc l = acc ++ ((fun x => (key x, f x)) <$> l).
Proof.
  intros Hg. induction l as [|x l IH]; intros acc Hwf Hfresh; csimpl.
  - by rewrite app_nil_r.
  - csimpl in Hwf. apply NoDup_cons in Hwf as [Hx Hwf].
    rewrite Hg, dict_set_fresh by (apply Hfresh; left).
    rewrite IH; [by rewrite <- app_assoc | done |].
    intros y Hy. unfold dict_keys. rewrite fmap_app. csimpl.
    rewrite not_elem_of_app, list_elem_of_singleton. split.
    + apply Hfresh. by right.
    + intros Heq. apply Hx. rewrite <- Heq. by apply list_elem_of_fmap_2.
Qed.

Lemma new_SocialDistancing_body t0 t1 (bf : dict float) :
  dict_wf bf ->
  body (new_SocialDistancing t0 t1 bf)
  = SocialDistancing bf ((fun kv => (kv.1, None)) <$> bf).
Proof.
  intros Hwf. unfold new_SocialDistancing. simpl. f_equal.
  rewrite (foldl_dict_set_keys _ id (fun _ => None)); try done.
  - unfold dict_keys. by rewrite <- list_fmap_compose.
  - unfold dict_keys in *. by rewrite list_fmap_id.
  - intros x _. apply not_elem_of_nil.
Qed.

Lemma new_ChangeLeisureProbability_body t0 t1 (lap : dict by_sex) :
  dict_wf lap ->
  body (new_ChangeLeisureProbability t0 t1 lap)
  = ChangeLeisureProbability lap ((fun kv => (kv.1, [])) <$> lap).
Proof.
  intros Hwf. unfold new_ChangeLeisureProbability. simpl. f_equal.
  - rewrite (foldl_dict_set_keys _ fst snd); try done.
    + simpl. rewrite <- (list_fmap_id lap) at 2.
      apply list_fmap_ext. by intros _ [k c] _.
    + by intros acc [k c].
    + intros x _. apply not_elem_of_nil.
  - rewrite (foldl_dict_set_keys _ id (fun _ => [])); try done.
    + unfold dict_keys. by rewrite <- list_fmap_compose.
    + unfold dict_keys in *. by rewrite list_fmap_id.
    + intros x _. apply not_elem_of_nil.
Qed.

(** *** Activation fills the snapshot *)

Lemma saved_distributor_of_captured ol activity d snapshot :
  dict_get activity ol = Some (captured d snapshot) ->
  saved_distributor ol activity = Some d.
Proof.
  intros Hget. rewrite <- (saved_distributor_captured ol activity d snapshot).
  unfold saved_distributor. by rewrite Hget, dict_get_set_eq.
Qed.

Lemma activate_leisure_run i p lp ol (s : store Leisure) :
  policies s !! i = Some p ->
  body p = ChangeLeisureProbability lp ol ->
  dict_wf lp ->
  (forall k, k ∈ dict_keys lp ->
     is_Some (leisure_distributors (collab s) !! k)
     /\ is_Some (dict_get k ol)) ->
  exists s1 ol1,
    activate_leisure i s = (Return tt, s1)
    /\ policies s1 !! i = Some (with_body p (ChangeLeisureProbability lp ol1))
    /\ (forall k, k ∈ dict_keys lp ->
          saved_distributor ol1 k = leisure_distributors (collab s) !! k)
    /\ (forall k c, dict_get k lp = Some c ->
          leisure_distributors (collab s1) !! k
          = Some (configured_distributor c)).
Proof.
  intros Hp Hbody Hwf Hkeys.
  assert (Hlen : (i < length (policies s))%nat) by by eapply lookup_lt_Some.
  destruct (activate_leisure_loop_run i p lp lp s ol Hwf)
    as (s1 & ol1 & Hrun & Hpol & Hol & Htable); [|done|].
  { by rewrite (with_body_same _ _ Hbody). }
  exists s1, ol1. split; [|split; [|split]].
  - unfold activate_leisure.
    by rewrite (bind_Return _ _ _ _ _ (get_policy_Some _ _ _ Hp)), Hbody.
  - rewrite Hpol. by apply list_lookup_insert_eq.
  - intros k Hk. destruct (Hkeys k Hk) as [[d Hd] [snapshot Hsnap]].
    rewrite Hd. apply (saved_distributor_of_captured _ _ _ snapshot).
    rewrite Hol, decide_True by done. by rewrite Hd, Hsnap.
  - intros k c Hc. by rewrite Htable, Hc.
Qed.

(** C2, as the code has it.  A new stateful policy has an unset snapshot:
    [None] under every configured key, respectively an empty dictionary
    under every configured activity.  On every day but the first of its
    window, either applier leaves a policy object, snapshot included,
    exactly as it was; so the snapshot stays unset until the first
    activation, and is never cleared afterwards: the restoration loops
    write to the collaborator's table only.  The activation loop
    overwrites the snapshot of every configured key with the value that
    the table holds at that moment. *)
Theorem snapshots_unset_until_activation_then_kept :
  (forall t0 t1 bf,
     dict_wf bf ->
     body (new_SocialDistancing t0 t1 bf)
     = SocialDistancing bf ((fun kv => (kv.1, None)) <$> bf))
  /\ (forall t0 t1 lap,
        dict_wf lap ->
        body (new_ChangeLeisureProbability t0 t1 lap)
        = ChangeLeisureProbability lap ((fun kv => (kv.1, [])) <$> lap))
  /\ (forall date (s : store Interaction) i p,
        policies s !! i = Some p ->
        start_time p <> date ->
        policies (exec (apply_social_distancing_policy date) s) !! i = Some p)
  /\ (forall date (s : store Leisure) i p,
        policies s !! i = Some p ->
        start_time p <> date ->
        policies (exec (apply_change_probabilities_leisure date) s) !! i
        = Some p)
  /\ (forall i (s : store Interaction),
        policies (exec (restore_betas i) s) = policies s)
  /\ (forall i (s : store Leisure),
        policies (exec (restore_leisure i) s) = policies s)
  /\ (forall (s : store Interaction) i p bf ob,
        policies s !! i = Some p ->
        body p = SocialDistancing bf ob ->
        dict_wf bf ->
        (forall k, k ∈ dict_keys bf ->
           exists x, beta (collab s) !! k = Some (Some x)) ->
        exists s1 ob1,
          save_and_scale_betas i s = (Return tt, s1)
          /\ policies s1 !! i = Some (with_body p (SocialDistancing bf ob1))
          /\ (forall k, k ∈ dict_keys bf ->
                dict_get k ob1 = beta (collab s) !! k))
  /\ (forall (s : store Leisure) i p lp ol,
        policies s !! i = Some p ->
        body p = ChangeLeisureProbability lp ol ->
        dict_wf lp ->
        (forall k, k ∈ dict_keys lp ->
           is_Some (leisure_distributors (collab s) !! k)
           /\ is_Some (dict_get k ol)) ->
        exists s1 ol1,
          activate_leisure i s = (Return tt, s1)
          /\ policies s1 !! i
             = Some (with_body p (ChangeLeisureProbability lp ol1))
          /\ (forall k, k ∈ dict_keys lp ->
                saved_distributor ol1 k
                = leisure_distributors (collab s) !! k)).
Proof.
  split; [exact new_SocialDistancing_body|].
  split; [exact new_ChangeLeisureProbability_body|].
  split; [intros; by apply apply_social_distancing_policy_other_day|].
  split; [intros; by apply apply_change_probabilities_leisure_other_day|].
  split; [exact restore_betas_keeps_policies|].
  split; [exact restore_leisure_keeps_policies|].
  split.
  - intros s i p bf ob Hp Hbody Hwf Hkeys.
    destruct (save_and_scale_betas_run i p bf ob s Hp Hbody Hwf Hkeys)
      as (s1 & ob1 & Hrun & Hpol & Hob & _).
    assert (Hlen : (i < length (policies s))%nat) by by eapply lookup_lt_Some.
    exists s1, ob1. repeat split; [done | |].
    + rewrite Hpol. by apply list_lookup_insert_eq.
    + intros k Hk. by rewrite Hob, decide_True.
  - intros s i p lp ol Hp Hbody Hwf Hkeys.
    destruct (activate_leisure_run i p lp ol s Hp Hbody Hwf Hkeys)
      as (s1 & ol1 & Hrun & Hpol & Hsaved & _).
    by exists s1, ol1.
Qed.

(** On day 9, before its window, the policy on the pubs still has the
    snapshot it was built with. *)
Lemma snapshots_unset_until_activation_then_kept_witness :
  body <$> policies (exec (apply_change_probabilities_leisure (day 9))
                       pubs_store) !! 1%nat
  = Some (ChangeLeisureProbability [("pubs", quiet_pubs)] [("pubs", [])]).
Proof.
  destruct snapshots_unset_until_activation_then_kept
    as (_ & _ & _ & Hother & _).
  rewrite (Hother (day 9) pubs_store 1%nat quiet_pubs_policy).
  - reflexivity.
  - reflexivity.
  - discriminate.
Defined.

(** C2 as stated fails: on day 21, after the window and after the
    restoration of day 20 has put the curves of the pubs back into the
    table, the snapshot of the policy still holds them. *)
Lemma snapshot_kept_after_window :
  let s10 := exec (apply_change_probabilities_leisure (day 10)) pubs_store in
  let s20 := exec (apply_change_probabilities_leisure (day 20)) s10 in
  let s21 := exec (apply_change_probabilities_leisure (day 21)) s20 in
  is_active quiet_pubs_policy (day 21) = false
  /\ leisure_distributors (collab s20) !! "pubs" = Some pubs_distributor
  /\ body <$> policies s21 !! 1%nat
     = Some (ChangeLeisureProbability [("pubs", quiet_pubs)]
               [("pubs", [("men", [0.5%float]); ("women", [0.75%float])])])
  /\ body <$> policies s21 !! 1%nat <> Some (body quiet_pubs_policy).
Proof.
  repeat split; try (vm_compute; reflexivity).
  vm_compute. discriminate.
Qed.

(** ** The order of restorations and activations *)

(** No write changes the window of a policy. *)
Lemma preserves_windows_set_body {C} ws j b :
  preserves (fun s : store C => windows s = ws) (set_body j b).
Proof.
  intros s Hs. unfold set_body, bind, get_policy.
  destruct (policies s !! j) as [p|] eqn:Hp; [|done].
  simpl. rewrite <- Hs. unfold windows. simpl.
  rewrite list_fmap_insert. apply list_insert_id.
  by rewrite list_lookup_fmap, Hp.
Qed.

Lemma preserves_windows_change_leisure ws date j :
  preserves (fun s : store Leisure => windows s = ws) (change_leisure date j).
Proof.
  apply (preserves_change_leisure _ (fun _ => True)); [| |done].
  - intros f. apply (preserves_update_collab
                       (fun ps => (fun policy => (start_time policy, end_time policy)) <$> ps = ws)).
  - intros j' b _. apply preserves_windows_set_body.
Qed.

Lemma preserves_windows_restore_leisure ws j :
  preserves (fun s : store Leisure => windows s = ws) (restore_leisure j).
Proof.
  apply preserves_restore_leisure.
  intros f. apply (preserves_update_collab
                     (fun ps => (fun policy => (start_time policy, end_time policy)) <$> ps = ws)).
Qed.

(** With the same windows, the same positions hold policies with the
    same bounds. *)
Lemma windows_lookup {C} (s s' : store C) i p :
  windows s' = windows s ->
  policies s !! i = Some p ->
  exists p',
    policies s' !! i = Some p'
    /\ start_time p' = start_time p /\ end_time p' = end_time p.
Proof.
  intros Hw Hp.
  assert (Hi : windows s' !! i = Some (start_time p, end_time p)).
  { rewrite Hw. unfold windows. by rewrite list_lookup_fmap, Hp. }
  unfold windows in Hi. rewrite list_lookup_fmap in Hi.
  destruct (policies s' !! i) as [p'|]; [|done].
  injection Hi as Hs He. by exists p'.
Qed.

Section OnePassIsTwoPhase.

Variable date : datetime.
Variable s : store Leisure.
Variables expiring starting : list nat.

Hypothesis selected :
  select_from 0
    (fun policy => is_ChangeLeisureProbability policy && is_active policy date)
    (policies s) = expiring ++ starting.
Hypothesis expiring_not_starting :
  forall i p, i ∈ expiring -> policies s !! i = Some p -> start_time p <> date.
Hypothesis starting_not_expiring :
  forall i p, i ∈ starting -> policies s !! i = Some p -> end_time p <> date.

Abbreviation restoring := (restore_if_expiring restore_leisure date).
Abbreviation activating := (activate_if_starting activate_leisure date).
Abbreviation W := (same_windows s).

Lemma selected_lookup i :
  i ∈ expiring ++ starting -> exists p, policies s !! i = Some p.
Proof.
  rewrite <- selected. intros (p & Hp & _)%elem_of_select_from.
  rewrite Nat.sub_0_r in Hp. by exists p.
Qed.

Lemma expiring_step i s' :
  i ∈ expiring -> W s' ->
  change_leisure date i s' = restoring i s'
  /\ activating i s' = (Return tt, s').
Proof.
  intros Hi Hw.
  destruct (selected_lookup i) as [p Hp]; [apply elem_of_app; by left|].
  destruct (windows_lookup s s' i p Hw Hp) as (p' & Hp' & Hs & He).
  pose proof (expiring_not_starting i p Hi Hp) as Hne.
  rewrite <- Hs in Hne. apply Z.eqb_neq in Hne.
  unfold change_leisure, restore_if_expiring, activate_if_starting.
  rewrite !(bind_Return _ _ _ _ _ (get_policy_Some _ _ _ Hp')).
  by rewrite Hne.
Qed.

Lemma starting_step i s' :
  i ∈ starting -> W s' ->
  change_leisure date i s' = activating i s'
  /\ restoring i s' = (Return tt, s').
Proof.
  intros Hi Hw.
  destruct (selected_lookup i) as [p Hp]; [apply elem_of_app; by right|].
  destruct (windows_lookup s s' i p Hw Hp) as (p' & Hp' & Hs & He).
  pose proof (starting_not_expiring i p Hi Hp) as Hne.
  rewrite <- He in Hne. apply Z.eqb_neq in Hne.
  unfold change_leisure, restore_if_expiring, activate_if_starting.
  rewrite !(bind_Return _ _ _ _ _ (get_policy_Some _ _ _ Hp')).
  rewrite Hne. by destruct (start_time p' =? date).
Qed.

Lemma one_pass_is_two_phase :
  apply_change_probabilities_leisure date s
  = two_phase (get_change_leisure_probabilities_policies date)
      restore_leisure activate_leisure date s.
Proof.
  assert (Hchange : forall j, preserves W (change_leisure date j)).
  { intros j. apply preserves_windows_change_leisure. }
  transitivity
    (bind (for_each (expiring ++ starting) restoring)
       (fun _ => for_each (expiring ++ starting) activating) s).
  2:{ unfold two_phase, get_change_leisure_probabilities_policies,
        get_active_policies_for_type.
      rewrite (bind_Return _ _ _ (expiring ++ starting) s); [done|].
      rewrite (bind_Return get _ s s s eq_refl). unfold ret.
      by rewrite selected. }
  rewrite apply_change_probabilities_leisure_unfold, selected.
  assert (H1 : for_each expiring (change_leisure date) s
               = for_each expiring restoring s).
  { apply (for_each_agree W); [done | intros; apply Hchange |].
    intros i s' Hi Hw. by apply expiring_step. }
  assert (Hw1 : W (for_each expiring (change_leisure date) s).2).
  { by apply (preserves_for_each W). }
  rewrite for_each_app.
  destruct (for_each expiring (change_leisure date) s) as [[[]|e] s1] eqn:Hrun;
    simpl in Hw1; symmetry in H1.
  - rewrite (bind_Return _ _ _ _ _ Hrun).
    assert (H2 : for_each (expiring ++ starting) restoring s = (Return tt, s1)).
    { rewrite for_each_app, (bind_Return _ _ _ _ _ H1).
      apply (for_each_skip W); [done|].
      intros i s' Hi Hw. by apply starting_step. }
    rewrite (bind_Return _ _ _ _ _ H2), for_each_app.
    rewrite (bind_Return _ _ _ tt s1).
    2:{ apply (for_each_skip W); [done|].
        intros i s' Hi Hw. by apply expiring_step. }
    apply (for_each_agree W); [done | intros; apply Hchange |].
    intros i s' Hi Hw. by apply starting_step.
  - rewrite (bind_Raise _ _ _ _ _ Hrun).
    assert (H2 : for_each (expiring ++ starting) restoring s = (Raise e, s1)).
    { by rewrite for_each_app, (bind_Raise _ _ _ _ _ H1). }
    by rewrite (bind_Raise _ _ _ _ _ H2).
Qed.

End OnePassIsTwoPhase.

(** The policies of the day keep their windows through the activation
    loop, and none of them ends on the date: the restoration loop finds
    nothing to restore after the activations either. *)
Lemma deactivation_pass_idle_same_windows date (s s' : store Interaction) :
  same_windows s s' ->
  for_each
    (select_from 0
       (fun policy => is_SocialDistancing policy && is_active policy date)
       (policies s))
    (deactivate_expiring date) s'
  = (Return tt, s').
Proof.
  intros Hw. apply (for_each_skip (fun s'' => s'' = s')); [done|].
  intros i s'' Hi ->.
  destruct (elem_of_select_from _ _ _ _ Hi) as (p & Hp & Hkeep & _).
  rewrite Nat.sub_0_r in Hp.
  destruct (windows_lookup s s' i p Hw Hp) as (p' & Hp' & _ & He).
  unfold deactivate_expiring.
  rewrite (bind_Return _ _ _ _ _ (get_policy_Some _ _ _ Hp')).
  apply andb_true_iff in Hkeep as [Hsd Hact].
  unfold is_active, is_SocialDistancing in *.
  destruct (body p); try discriminate.
  apply andb_true_iff in Hact as [_ Hlt%Z.ltb_lt].
  destruct (Z.eqb_spec (end_time p') date); [lia | done].
Qed.

Lemma preserves_windows_activate_starting ws date j :
  preserves (fun s : store Interaction => windows s = ws)
    (activate_starting date j).
Proof.
  apply (preserves_activate_starting_other _ (S j)); [| |lia].
  - intros f. apply (preserves_update_collab
                       (fun ps => (fun policy => (start_time policy, end_time policy)) <$> ps = ws)).
  - intros j' b _. apply preserves_windows_set_body.
Qed.




(** * Further properties *)

(** ** Selection from the registry *)

Lemma select_from_complete n keep ps i p :
  ps !! i = Some p -> keep p = true -> (n + i)%nat ∈ select_from n keep ps.
Proof.
  revert n i. induction ps as [|q ps IH]; intros n i Hp Hkeep; [done|].
  destruct i as [|i]; simpl in *.
  - injection Hp as ->. rewrite Hkeep, Nat.add_0_r. left.
  - replace (n + S i)%nat with (S n + i)%nat by lia.
    destruct (keep q); [right|]; by apply IH.
Qed.

Lemma select_from_lookups keep (before ps : list Policy) :
  omap (fun i => (before ++ ps) !! i) (select_from (length before) keep ps)
  = List.filter keep ps.
Proof.
  revert before. induction ps as [|q ps IH]; intros before; simpl; [done|].
  assert (Hrest :
    omap (fun i => (before ++ q :: ps) !! i)
      (select_from (S (length before)) keep ps) = List.filter keep ps).
  { specialize (IH (before ++ [q])).
    rewrite length_app, Nat.add_1_r in IH. simpl in IH.
    replace (before ++ q :: ps) with ((before ++ [q]) ++ ps); [done|].
    by rewrite <- app_assoc. }
  destruct (keep q); csimpl; [|done].
  rewrite lookup_app_r, Nat.sub_diag by lia. csimpl. by rewrite Hrest.
Qed.

Lemma get_active_policies_for_type_members {C} (type : policy_type)
  (date : datetime) (s : store C) :
  exists selected,
    get_active_policies_for_type type date s = (Return selected, s)
    /\ (forall i, i ∈ selected <->
          exists policy,
            policies s !! i = Some policy
            /\ type policy = true /\ is_active policy date = true).
Proof.
  eexists. split; [reflexivity|].
  intros i. split.
  - intros (p & Hp & Hkeep & _)%elem_of_select_from.
    rewrite Nat.sub_0_r in Hp. apply andb_true_iff in Hkeep. by exists p.
  - intros (p & Hp & Htype & Hactive).
    apply (select_from_complete 0 _ _ _ p Hp). by rewrite Htype, Hactive.
Qed.

(** X1: the policies that [get_active_policies_for_type] selects are, in
    registration order, exactly the registered policies of the type that
    are active on the date; the call reads the registry and changes
    nothing. *)
Theorem get_active_policies_for_type_filter {C} (type : policy_type)
  (date : datetime) (s : store C) :
  exists selected,
    get_active_policies_for_type type date s = (Return selected, s)
    /\ omap (fun i => policies s !! i) selected
       = List.filter (fun policy => type policy && is_active policy date)
           (policies s)
    /\ (forall i, i ∈ selected <->
          exists policy,
            policies s !! i = Some policy
            /\ type policy = true /\ is_active policy date = true).
Proof.
  eexists. split; [reflexivity|]. split.
  - apply (select_from_lookups _ []).
  - intros i. split.
    + intros (p & Hp & Hkeep & _)%elem_of_select_from.
      rewrite Nat.sub_0_r in Hp. apply andb_true_iff in Hkeep. by exists p.
    + intros (p & Hp & Htype & Hactive).
      apply (select_from_complete 0 _ _ _ p Hp). by rewrite Htype, Hactive.
Qed.

Lemma in_force_filter type date ps :
  in_force type date ps
  = List.filter (fun policy => type policy && is_active policy date) ps.
Proof. apply (select_from_lookups _ []). Qed.

(** ** Closed venues *)

Lemma update_closed_venues_run {C} (s : store C) (selected : list nat) :
  (forall i, i ∈ selected ->
     exists p, policies s !! i = Some p /\ is_CloseLeisureVenue p = true) ->
  forall closed_venues,
  exists closed,
    update_closed_venues selected closed_venues s = (Return closed, s)
    /\ (forall venue,
          venue ∈ closed <->
          venue ∈ closed_venues
          \/ exists i p venues_to_close,
               i ∈ selected /\ policies s !! i = Some p
               /\ body p = CloseLeisureVenue venues_to_close
               /\ venue ∈ venues_to_close).
Proof.
  induction selected as [|i selected IH]; intros Hsel closed_venues; simpl.
  - exists closed_venues. split; [done|]. intros venue. split; [by left|].
    intros [?|(i & ? & ? & ?%elem_of_nil & _)]; done.
  - destruct (Hsel i) as (p & Hp & Hclv); [left|].
    unfold is_CloseLeisureVenue in Hclv.
    destruct (body p) as [| venues | | | | | | |] eqn:Hbody; try discriminate.
    destruct (IH (fun j Hj => Hsel j (list_elem_of_further _ _ _ Hj))
                (closed_venues ∪ list_to_set venues))
      as (closed & Hrun & Hclosed).
    exists closed. split.
    { by rewrite (bind_Return _ _ _ _ _ (get_policy_Some _ _ _ Hp)), Hbody. }
    intros venue. rewrite Hclosed, elem_of_union, elem_of_list_to_set.
    split.
    + intros [[?|Hin]|(j & q & vs & Hj & Hq & Hb & Hv)].
      * by left.
      * right. exists i, p, venues. repeat split; [left | done..].
      * right. exists j, q, vs. repeat split; [by right | done..].
    + intros [?|(j & q & vs & Hj & Hq & Hb & Hv)]; [by left; left|].
      apply elem_of_cons in Hj as [->|Hj].
      * left. right. congruence.
      * right. by exists j, q, vs.
Qed.

(** X2: [find_closed_venues] returns the union of [venues_to_close] over
    the [CloseLeisureVenue] policies whose window holds the date: a venue
    is closed exactly when one of them lists it.  The call never raises
    and changes nothing. *)
Theorem find_closed_venues_union {C} (date : datetime) (s : store C) :
  exists closed,
    find_closed_venues date s = (Return closed, s)
    /\ (forall venue,
          venue ∈ closed <->
          exists p venues_to_close,
            p ∈ policies s
            /\ body p = CloseLeisureVenue venues_to_close
            /\ start_time p <= date < end_time p
            /\ venue ∈ venues_to_close).
Proof.
  destruct (get_active_policies_for_type_members is_CloseLeisureVenue date s)
    as (selected & Hsel & Hin).
  destruct (update_closed_venues_run s selected) with (closed_venues := (∅ : gset string))
    as (closed & Hrun & Hclosed).
  { intros i (p & Hp & Htype & _)%Hin. by exists p. }
  exists closed. split.
  { unfold find_closed_venues, close_venues_policies.
    by rewrite (bind_Return _ _ _ _ _ Hsel). }
  intros venue. rewrite Hclosed. split.
  - intros [?%not_elem_of_empty|(i & p & vs & Hi & Hp & Hbody & Hv)]; [done|].
    apply Hin in Hi as (p' & Hp' & _ & Hactive).
    assert (p' = p) as -> by congruence.
    exists p, vs. repeat split; try done.
    + by eapply list_elem_of_lookup_2.
    + unfold is_active in Hactive. rewrite Hbody in Hactive.
      apply andb_true_iff in Hactive as [?%Z.leb_le _]. done.
    + unfold is_active in Hactive. rewrite Hbody in Hactive.
      apply andb_true_iff in Hactive as [_ ?%Z.ltb_lt]. done.
  - intros (p & vs & Hp & Hbody & [Hstart Hend] & Hv). right.
    apply list_elem_of_lookup in Hp as [i Hi].
    exists i, p, vs. repeat split; try done.
    apply Hin. exists p. repeat split; [done | |].
    + unfold is_CloseLeisureVenue. by rewrite Hbody.
    + unfold is_active. rewrite Hbody.
      apply andb_true_iff. split; [by apply Z.leb_le | by apply Z.ltb_lt].
Qed.

(** ** Collections built from the registry *)

Section RegistryCollections.

Context {Env : Type}.
Variable rand : Env -> float * Env.
Variable quarantine : Group -> float -> float -> float -> M Env bool.

(** X3: on every date in the window of the baseline policy, the
    collection that the registry builds has the baseline as its first
    member: a person with the tag [severe] who is not in hospital must
    stay at home, whatever policies were configured and whatever they
    would answer; none of them is asked. *)
Theorem baseline_keeps_severe_at_home
  (baseline : Policy) (configured : list Policy) (date : datetime)
  (person : Person) (info : HealthInformation) (days_from_start : float)
  (env : Env) :
  body baseline = PermanentPolicy ->
  start_time baseline <= date < end_time baseline ->
  hospital person = None ->
  health_information person = Some info ->
  hi_tag info = severe ->
  StayHomeCollection_call rand quarantine
    (stay_home_collection date (Policies_init baseline configured))
    person days_from_start env
  = (Return true, env).
Proof.
  intros Hbody [Hstart Hend] Hhospital Hinfo Htag.
  unfold stay_home_collection, Policies_init. rewrite in_force_filter. simpl.
  unfold is_StayHome at 1, is_active at 1. rewrite Hbody.
  apply Z.leb_le in Hstart. apply Z.ltb_lt in Hend. rewrite Hstart, Hend. simpl.
  unfold StayHomeCollection_call. rewrite Hhospital. simpl.
  unfold must_stay_at_home at 1. rewrite Hbody.
  unfold PermanentPolicy_must_stay_at_home. by rewrite Hinfo, Htag.
Qed.

(** X4: on a date on which no [SkipActivity] policy of the registry is
    active, the collection that the registry builds is empty and returns
    the activities it is given. *)
Theorem no_active_skip_policy_identity
  (registered : list Policy) (date : datetime) (person : Person)
  (activities : list string) (env : Env) :
  (forall p, p ∈ registered -> is_SkipActivity p = true ->
     is_active p date = false) ->
  skip_activity_collection date registered = []
  /\ SkipActivityCollection_call rand
       (skip_activity_collection date registered) person activities env
     = (Return activities, env).
Proof.
  intros Hnone.
  assert (Hempty : skip_activity_collection date registered = []).
  { unfold skip_activity_collection. rewrite in_force_filter.
    induction registered as [|p ps IH]; simpl; [done|].
    destruct (is_SkipActivity p) eqn:Hskip; simpl.
    - rewrite (Hnone p) by (done || left). apply IH.
      intros q Hq. apply Hnone. by right.
    - apply IH. intros q Hq. apply Hnone. by right. }
  by rewrite Hempty.
Qed.

End RegistryCollections.

Lemma baseline_keeps_severe_at_home_witness :
  StayHomeCollection_call draw_zero household_fails
    (stay_home_collection (day 50)
       (Policies_init (baseline_policy (day 0) (day 100)) [a_Quarantine]))
    {| age := 30; symptoms := None;
       health_information :=
         Some {| hi_tag := severe; time_of_symptoms_onset := None |};
       lockdown_status := None; primary_activity := None;
       residence := None; hospital := None |}
    3 tt
  = (Return true, tt).
Proof.
  apply (baseline_keeps_severe_at_home draw_zero household_fails
           (baseline_policy (day 0) (day 100)) [a_Quarantine] (day 50) _
           {| hi_tag := severe; time_of_symptoms_onset := None |});
    try reflexivity.
  split; [discriminate | reflexivity].
Defined.

Lemma no_active_skip_policy_identity_witness :
  SkipActivityCollection_call draw_zero
    (skip_activity_collection (day 200)
       [ {| start_time := day 0; end_time := day 100;
            body := CloseUniversities |} ])
    student ["primary_activity"; "leisure"] tt
  = (Return ["primary_activity"; "leisure"], tt).
Proof.
  apply (no_active_skip_policy_identity draw_zero
           [ {| start_time := day 0; end_time := day 100;
                body := CloseUniversities |} ] (day 200)).
  intros p ->%list_elem_of_singleton _. reflexivity.
Defined.

(** ** Who skips what *)

Lemma second_keyworker_count rs (k : Z) :
  0 <= k <= 1 ->
  second_keyworker rs k = bool_decide (2 <= k + Z.of_nat (key_workers rs)).
Proof.
  revert k. unfold key_workers.
  induction rs as [|r rs IH]; intros k Hk; simpl.
  - symmetry. apply bool_decide_eq_false. lia.
  - destruct (bool_decide (resident_lockdown_status r = Some "key_worker"));
      simpl length.
    + destruct (Z.gtb_spec (k + 1) 1) as [Hgt|Hle].
      * symmetry. apply bool_decide_eq_true. lia.
      * rewrite IH by lia. apply bool_decide_ext. lia.
    + by apply IH.
Qed.

Lemma not_elem_of_remove_activities activities removed activity :
  activity ∈ removed -> activity ∉ remove_activities activities removed.
Proof.
  intros Hin [Hout _]%list_elem_of_filter. by apply Hout.
Qed.

Lemma elem_of_remove_activities activities removed activity :
  activity ∈ remove_activities activities removed
  <-> activity ∈ activities /\ activity ∉ removed.
Proof. unfold remove_activities. rewrite list_elem_of_filter. tauto. Qed.

Section SkipProperties.

Context {Env : Type}.
Variable rand : Env -> float * Env.

Lemma _check_kid_goes_to_school_old (person : Person) (env : Env) :
  14 <= age person ->
  _check_kid_goes_to_school person env = (Return false, env).
Proof.
  intros Hage. apply Z.ltb_ge in Hage.
  unfold _check_kid_goes_to_school. by rewrite Hage.
Qed.

Lemma _check_kid_goes_to_school_young (person : Person) home (env : Env) :
  age person < 14 -> residence person = Some home ->
  _check_kid_goes_to_school person env
  = (Return (bool_decide (2 <= key_workers (residents (group home)))%nat), env).
Proof.
  unfold _check_kid_goes_to_school.
  intros Hage%Z.ltb_lt ->. rewrite Hage. unfold bind, attr, ret.
  rewrite second_keyworker_count by lia. do 2 f_equal.
  apply bool_decide_ext. lia.
Qed.

(** X5: the kid of a household goes to school during a closure exactly
    when the kid is younger than 14 and at least two residents of the
    household are key workers; for an older pupil the household is not
    looked at, and a kid without residence makes the check fail. *)
Theorem _check_kid_goes_to_school_key_workers (person : Person) (env : Env) :
  (14 <= age person ->
   _check_kid_goes_to_school person env = (Return false, env))
  /\ (age person < 14 -> residence person = None ->
      _check_kid_goes_to_school person env = (Raise AttributeError, env))
  /\ (forall home, age person < 14 -> residence person = Some home ->
      _check_kid_goes_to_school person env
      = (Return (bool_decide
                   (2 <= key_workers (residents (group home)))%nat), env)).
Proof.
  repeat split.
  - apply _check_kid_goes_to_school_old.
  - unfold _check_kid_goes_to_school. intros Hage%Z.ltb_lt ->.
    by rewrite Hage.
  - intros home. apply _check_kid_goes_to_school_young.
Qed.

(** A member whose result never holds [activity] keeps it out of the
    result of the collection, wherever the member stands. *)
Lemma member_removes_for_good before policy after person activity
  activities (env : Env) out env' :
  (forall acts e out' e',
     skip_activity rand policy person acts e = (Return out', e') ->
     activity ∉ out') ->
  SkipActivityCollection_call rand (before ++ policy :: after) person
    activities env = (Return out, env') ->
  activity ∉ out.
Proof.
  intros Hremoves Hrun.
  rewrite SkipActivityCollection_call_app in Hrun.
  apply bind_inv_Return in Hrun as (mid & env1 & _ & Hrun). simpl in Hrun.
  apply bind_inv_Return in Hrun as (mid' & env2 & Hp & Hrun).
  intros Hin. apply (Hremoves _ _ _ _ Hp).
  eapply elem_of_sublist; [exact Hin|].
  by eapply SkipActivityCollection_call_sublist.
Qed.

(** X6: [CloseUniversities] takes "primary_activity", and nothing else,
    from a person whose primary activity is a university, and leaves the
    activities of everybody else as they are; it never raises.  In a
    collection that holds such a policy, at any place, no student is left
    with "primary_activity". *)
Theorem CloseUniversities_closes (policy : Policy) (person : Person) :
  body policy = CloseUniversities ->
  (forall activities env,
     skip_activity rand policy person activities env
     = (Return (if primary_activity_is person "university"
                then remove_activities activities ["primary_activity"]
                else activities), env))
  /\ (forall activities activity,
        activity ∈ remove_activities activities ["primary_activity"]
        <-> activity ∈ activities /\ activity <> "primary_activity")
  /\ (forall before after activities env out env',
        primary_activity_is person "university" = true ->
        SkipActivityCollection_call rand (before ++ policy :: after) person
          activities env = (Return out, env') ->
        "primary_activity" ∉ out).
Proof.
  intros Hbody. split; [|split].
  - intros activities env. unfold skip_activity. by rewrite Hbody.
  - intros activities activity.
    by rewrite elem_of_remove_activities, list_elem_of_singleton.
  - intros before after activities env out env' Hstudent.
    apply member_removes_for_good.
    intros acts e out' e'. unfold skip_activity. rewrite Hbody.
    unfold CloseUniversities_skip_activity, ret. rewrite Hstudent.
    intros [= <- _]. apply not_elem_of_remove_activities. left.
Qed.

(** X7: [CloseCompanies] never raises.  From a person whose primary
    activity is a company it takes "primary_activity" and "commute" when
    [full_closure] is set or the person is on furlough, without drawing a
    random number; when the person's status is "random" and a
    probability is configured, it draws one number and takes the two
    activities exactly when the number is above the probability.  From
    everybody else it takes nothing, and draws nothing. *)
Theorem CloseCompanies_closes (policy : Policy) (person : Person)
  (full_closure : option bool) (random_work_probability : option float)
  (activities : list string) (env : Env) :
  body policy = CloseCompanies full_closure random_work_probability ->
  (primary_activity_is person "company" = false ->
   skip_activity rand policy person activities env = (Return activities, env))
  /\ (primary_activity_is person "company" = true ->
      truthy full_closure = true \/ lockdown_status person = Some "furlough" ->
      skip_activity rand policy person activities env
      = (Return (remove_activities activities ["primary_activity"; "commute"]),
         env))
  /\ (forall p,
        primary_activity_is person "company" = true ->
        truthy full_closure = false ->
        lockdown_status person = Some "random" ->
        random_work_probability = Some p ->
        skip_activity rand policy person activities env
        = (Return (if (p <? (rand env).1)%float
                   then remove_activities activities
                          ["primary_activity"; "commute"]
                   else activities), (rand env).2))
  /\ (truthy full_closure = false ->
      lockdown_status person <> Some "furlough" ->
      lockdown_status person <> Some "random"
      \/ random_work_probability = None ->
      skip_activity rand policy person activities env
      = (Return activities, env)).
Proof.
  intros Hbody. unfold skip_activity. rewrite Hbody.
  unfold CloseCompanies_skip_activity. repeat split.
  - by intros ->.
  - intros -> [Hfull | Hfurlough]; [by rewrite Hfull|].
    rewrite Hfurlough. by rewrite orb_true_r.
  - intros p -> -> -> ->. simpl.
    unfold bind, np_random_rand. destruct (rand env) as [x env1]. simpl.
    by destruct (p <? x)%float.
  - intros -> Hfurlough Hrandom.
    destruct (primary_activity_is person "company"); [|done]. simpl.
    rewrite bool_decide_eq_false_2 by done.
    destruct Hrandom as [Hne|Hnone].
    + by rewrite bool_decide_eq_false_2.
    + rewrite Hnone. by destruct (bool_decide _).
Qed.

(** X8: under [CloseSchools], a pupil (primary activity: a school) to whom
    the closure applies ([full_closure] set, or an age among
    [years_to_close]) loses "primary_activity" unless the pupil is younger
    than 14 and lives with at least two key workers, in which case the
    activities stay as they are.  Whoever is not a pupil keeps all
    activities, and for them nothing can fail. *)
Theorem CloseSchools_closes (policy : Policy) (person : Person)
  (years_to_close : option (list Z)) (full_closure : option bool)
  (activities : list string) (env : Env) :
  body policy = CloseSchools years_to_close full_closure ->
  (primary_activity_is person "school" = false ->
   skip_activity rand policy person activities env = (Return activities, env))
  /\ (forall home,
        primary_activity_is person "school" = true ->
        truthy full_closure = true
        \/ (exists years, years_to_close = Some years /\ age person ∈ years) ->
        residence person = Some home ->
        skip_activity rand policy person activities env
        = (Return
             (if bool_decide (age person < 14)
                 && bool_decide (2 <= key_workers (residents (group home)))%nat
              then activities
              else remove_activities activities ["primary_activity"]), env))
  /\ (forall years,
        primary_activity_is person "school" = true ->
        truthy full_closure = false ->
        years_to_close = Some years ->
        age person ∉ years ->
        skip_activity rand policy person activities env
        = (Return activities, env))
  /\ (primary_activity_is person "school" = true ->
      truthy full_closure = false ->
      years_to_close = None ->
      skip_activity rand policy person activities env = (Raise TypeError, env)).
Proof.
  intros Hbody. unfold skip_activity. rewrite Hbody.
  unfold CloseSchools_skip_activity. repeat split.
  - by intros ->.
  - intros home -> Hclosed Hhome.
    assert (Hc : (if truthy full_closure then ret true
                  else match years_to_close with
                       | Some years => ret (bool_decide (age person ∈ years))
                       | None => raise TypeError
                       end) env = (Return true, env)).
    { destruct (truthy full_closure); [done|].
      destruct Hclosed as [|(years & -> & Hin)]; [done|].
      by rewrite bool_decide_eq_true_2. }
    rewrite (bind_Return _ _ _ _ _ Hc).
    destruct (decide (age person < 14)) as [Hage|Hage].
    + rewrite (bind_Return _ _ _ _ _
                 (_check_kid_goes_to_school_young person home env Hage Hhome)).
      rewrite (bool_decide_eq_true_2 (age person < 14)) by done. simpl.
      by destruct (bool_decide (2 <= _)%nat).
    + rewrite (bind_Return _ _ _ _ _
                 (_check_kid_goes_to_school_old person env ltac:(lia))).
      by rewrite (bool_decide_eq_false_2 (age person < 14)).
  - intros years -> -> -> Hout.
    by rewrite bool_decide_eq_false_2.
  - by intros -> -> ->.
Qed.

(** X9: [Shielding] never raises.  Below [min_age] it answers false, and
    with no complacency configured it answers true from [min_age] on, in
    both cases without drawing a random number; with a complacency it
    draws one number on every call and answers true exactly when the
    number is below the complacency. *)
Theorem Shielding_draws_per_call
  (quarantine : Group -> float -> float -> float -> M Env bool)
  (policy : Policy) (min_age : Z) (complacency : option float)
  (person : Person) (days_from_start : float) (env : Env) :
  body policy = Shielding min_age complacency ->
  (age person < min_age ->
   must_stay_at_home rand quarantine policy person days_from_start env
   = (Return false, env))
  /\ (min_age <= age person -> complacency = None ->
      must_stay_at_home rand quarantine policy person days_from_start env
      = (Return true, env))
  /\ (forall c, min_age <= age person -> complacency = Some c ->
      must_stay_at_home rand quarantine policy person days_from_start env
      = (Return ((rand env).1 <? c)%float, (rand env).2)).
Proof.
  intros Hbody. unfold must_stay_at_home. rewrite Hbody.
  unfold Shielding_must_stay_at_home. repeat split.
  - intros Hage. destruct (Z.geb_spec (age person) min_age); [lia | done].
  - intros Hage ->. destruct (Z.geb_spec (age person) min_age); [done | lia].
  - intros c Hage ->. destruct (Z.geb_spec (age person) min_age); [|lia].
    unfold bind, np_random_rand. destruct (rand env) as [x env1]. simpl.
    by destruct (x <? c)%float.
Qed.

End SkipProperties.

Lemma _check_kid_goes_to_school_key_workers_witness :
  _check_kid_goes_to_school pupil tt = (Return true, tt).
Proof.
  destruct (_check_kid_goes_to_school_key_workers pupil tt) as (_ & _ & Hyoung).
  apply (Hyoung key_worker_household); reflexivity.
Defined.

(** The student's activities after a collection of two policies. *)
Lemma CloseUniversities_closes_witness :
  SkipActivityCollection_call draw_zero
    [during (CloseCompanies None None); during CloseUniversities]
    student ["primary_activity"; "leisure"] tt = (Return ["leisure"], tt)
  /\ "primary_activity" ∉ ["leisure"].
Proof.
  destruct (CloseUniversities_closes draw_zero (during CloseUniversities)
              student eq_refl) as (_ & _ & Hcollection).
  split; [reflexivity|].
  apply (Hcollection [during (CloseCompanies None None)] []
           ["primary_activity"; "leisure"] tt ["leisure"] tt); reflexivity.
Defined.

Lemma CloseCompanies_closes_witness :
  skip_activity draw_zero (during (CloseCompanies None (Some 0.5%float)))
    random_worker ["primary_activity"; "commute"; "leisure"] tt
  = (Return ["primary_activity"; "commute"; "leisure"], tt).
Proof.
  destruct (CloseCompanies_closes draw_zero
              (during (CloseCompanies None (Some 0.5%float))) random_worker
              None (Some 0.5%float) ["primary_activity"; "commute"; "leisure"]
              tt eq_refl) as (_ & _ & Hrandom & _).
  apply (Hrandom 0.5%float); reflexivity.
Defined.

Lemma CloseSchools_closes_witness :
  skip_activity draw_zero (during (CloseSchools None (Some true)))
    pupil ["primary_activity"; "leisure"] tt
  = (Return ["primary_activity"; "leisure"], tt).
Proof.
  destruct (CloseSchools_closes draw_zero
              (during (CloseSchools None (Some true))) pupil None (Some true)
              ["primary_activity"; "leisure"] tt eq_refl)
    as (_ & Hclosed & _).
  apply (Hclosed key_worker_household); [reflexivity | by left | reflexivity].
Defined.

Lemma Shielding_draws_per_call_witness :
  must_stay_at_home draw_zero household_fails
    (during (Shielding 70 (Some 0.5%float)))
    {| age := 80; symptoms := None; health_information := None;
       lockdown_status := None; primary_activity := None;
       residence := None; hospital := None |} 3 tt
  = (Return true, tt).
Proof.
  destruct (Shielding_draws_per_call draw_zero household_fails
              (during (Shielding 70 (Some 0.5%float))) 70 (Some 0.5%float)
              {| age := 80; symptoms := None; health_information := None;
                 lockdown_status := None; primary_activity := None;
                 residence := None; hospital := None |} 3 tt eq_refl)
    as (_ & _ & Hdraw).
  apply (Hdraw 0.5%float); [simpl; lia | reflexivity].
Defined.

(** ** More on social distancing *)

Lemma save_and_scale_beta_KeyError i key value (s : store Interaction) :
  beta (collab s) !! key = None ->
  save_and_scale_beta i key value s = (Raise KeyError, s).
Proof.
  intros Hnone. unfold save_and_scale_beta.
  apply bind_Raise. unfold load_beta. by rewrite Hnone.
Qed.

Lemma save_and_scale_beta_TypeError i p bf ob key value
  (s : store Interaction) :
  policies s !! i = Some p ->
  body p = SocialDistancing bf ob ->
  beta (collab s) !! key = Some None ->
  save_and_scale_beta i key value s
  = (Raise TypeError,
     {| policies :=
          <[i := with_body p (SocialDistancing bf (dict_set key None ob))]>
            (policies s);
        collab := collab s |}).
Proof.
  intros Hp Hbody Hkey. unfold save_and_scale_beta.
  rewrite (bind_Return _ _ _ _ _ (load_beta_run _ _ _ Hkey)).
  rewrite (bind_Return _ _ _ _ _
             (set_original_beta_run _ _ _ _ key None _ Hp Hbody)).
  erewrite bind_Return by (apply load_beta_run; exact Hkey).
  reflexivity.
Qed.

(** X10: the activation loop stops at the first key that it cannot
    scale, with [KeyError] when the table has no coefficient under the
    key and with [TypeError] when the coefficient is [None].  Nothing is
    rolled back: the keys before it are scaled, and every other
    coefficient is as it was. *)
Theorem save_and_scale_betas_stops_at_bad_key
  (s : store Interaction) (i : nat) (p : Policy) (bf : dict float)
  (ob : dict (option float)) (done : dict float) (key : string)
  (value : float) (todo : dict float) :
  policies s !! i = Some p ->
  body p = SocialDistancing bf ob ->
  bf = done ++ (key, value) :: todo ->
  dict_wf bf ->
  (forall k, k ∈ dict_keys done ->
     exists x, beta (collab s) !! k = Some (Some x)) ->
  forall e,
    beta (collab s) !! key = None /\ e = KeyError
    \/ beta (collab s) !! key = Some None /\ e = TypeError ->
    exists s',
      save_and_scale_betas i s = (Raise e, s')
      /\ (forall k v x, (k, v) ∈ done ->
            beta (collab s) !! k = Some (Some x) ->
            beta (collab s') !! k = Some (Some (x * v)%float))
      /\ (forall k, k ∉ dict_keys done ->
            beta (collab s') !! k = beta (collab s) !! k).
Proof.
  intros Hp Hbody -> Hwf Hdone e He.
  unfold dict_wf, dict_keys in Hwf. rewrite fmap_app in Hwf.
  apply NoDup_app in Hwf as (Hwfdone & Hdisj & _).
  assert (Hfresh : key ∉ dict_keys done).
  { intros Hin. apply (Hdisj _ Hin). csimpl. left. }
  assert (Hlen : (i < length (policies s))%nat) by by eapply lookup_lt_Some.
  destruct (save_and_scale_loop_run i p (done ++ (key, value) :: todo) done
              s ob Hwfdone) as (s1 & ob1 & Hrun & Hpol & _ & Hbeta & _);
    [by rewrite (with_body_same _ _ Hbody) | done |].
  assert (Hkey1 : beta (collab s1) !! key = beta (collab s) !! key).
  { rewrite Hbeta. apply dict_get_None in Hfresh. by rewrite Hfresh. }
  assert (Hstep : exists s',
    save_and_scale_beta i key value s1 = (Raise e, s')
    /\ collab s' = collab s1).
  { destruct He as [[Hnone ->]|[Hnone ->]].
    - exists s1. split; [|done].
      apply save_and_scale_beta_KeyError. by rewrite Hkey1.
    - eexists. split.
      + apply (save_and_scale_beta_TypeError i
                 (with_body p
                    (SocialDistancing (done ++ (key, value) :: todo) ob1))
                 (done ++ (key, value) :: todo) ob1 key value s1).
        * rewrite Hpol. by apply list_lookup_insert_eq.
        * reflexivity.
        * by rewrite Hkey1.
      + done. }
  destruct Hstep as (s' & Hstep & Hcollab).
  exists s'. split; [|split].
  - unfold save_and_scale_betas.
    rewrite (bind_Return _ _ _ _ _ (get_policy_Some _ _ _ Hp)), Hbody.
    rewrite for_each_app, (bind_Return _ _ _ _ _ Hrun). simpl.
    by apply bind_Raise.
  - intros k v x Hin Hx. rewrite Hcollab, Hbeta.
    by rewrite (dict_get_elem_of _ _ _ Hwfdone Hin), Hx.
  - intros k Hout. rewrite Hcollab, Hbeta.
    apply dict_get_None in Hout. by rewrite Hout.
Qed.

Lemma save_and_scale_betas_stops_at_bad_key_witness :
  exists s',
    save_and_scale_betas 1
      {| policies := policies (distancing_store 0 1);
         collab := {| beta := ∅ |} |}
    = (Raise KeyError, s').
Proof.
  destruct (save_and_scale_betas_stops_at_bad_key
              {| policies := policies (distancing_store 0 1);
                 collab := {| beta := ∅ |} |}
              1 household_distancing
              [("household", 0.5%float)] [("household", None)]
              [] "household" 0.5%float [])
    with (e := KeyError) as (s' & Hrun & _).
  - reflexivity.
  - reflexivity.
  - reflexivity.
  - apply NoDup_singleton.
  - by intros k ?%elem_of_nil.
  - left. split; reflexivity.
  - by exists s'.
Defined.

(** X11: in [apply_social_distancing_policy] every policy of the day has
    [date < end_time], so that the restoration loop finds no policy with
    [end_time == date]: on every date the call does what its activation
    loop does, and on a date that is the [start_time] of no
    [SocialDistancing] policy it returns and changes nothing. *)
Theorem apply_social_distancing_policy_only_activates
  (date : datetime) (s : store Interaction) :
  apply_social_distancing_policy date s
  = for_each
      (select_from 0
         (fun policy => is_SocialDistancing policy && is_active policy date)
         (policies s))
      (activate_starting date) s
  /\ ((forall p, p ∈ policies s -> is_SocialDistancing p = true ->
         start_time p <> date) ->
      apply_social_distancing_policy date s = (Return tt, s)).
Proof.
  assert (Hfirst : apply_social_distancing_policy date s
                   = for_each
                       (select_from 0
                          (fun policy =>
                             is_SocialDistancing policy
                             && is_active policy date)
                          (policies s))
                       (activate_starting date) s).
  { rewrite apply_social_distancing_policy_unfold.
    by rewrite (bind_Return _ _ _ _ _ (deactivation_pass_idle date s)). }
  split; [exact Hfirst|].
  intros Hnone. rewrite Hfirst.
  apply (for_each_skip (fun s' => s' = s)); [done|].
  intros i s' Hi ->.
  destruct (elem_of_select_from _ _ _ _ Hi) as (p & Hp & Hkeep & _).
  rewrite Nat.sub_0_r in Hp.
  apply andb_true_iff in Hkeep as [Hsd _].
  unfold activate_starting.
  rewrite (bind_Return _ _ _ _ _ (get_policy_Some _ _ _ Hp)).
  assert (Hne : start_time p <> date).
  { apply Hnone; [by eapply list_elem_of_lookup_2 | done]. }
  apply Z.eqb_neq in Hne. by rewrite Hne.
Qed.

Lemma apply_social_distancing_policy_only_activates_witness :
  apply_social_distancing_policy (day 20)
    (exec (apply_social_distancing_policy (day 10)) (distancing_store 0 1))
  = (Return tt,
     exec (apply_social_distancing_policy (day 10)) (distancing_store 0 1)).
Proof.
  destruct (apply_social_distancing_policy_only_activates (day 20)
              (exec (apply_social_distancing_policy (day 10))
                 (distancing_store 0 1))) as [_ Hidle].
  apply Hidle.
  intros p Hp Hsd. vm_compute in Hp.
  apply elem_of_cons in Hp as [->|Hp]; [discriminate|].
  apply list_elem_of_singleton in Hp as ->. discriminate.
Defined.

(** X12: policies stack by multiplication.  When the activation loops of
    two distinct policies run one after the other, a key that both
    configure ends with its coefficient multiplied by the first factor
    and then by the second; the snapshot of the first policy holds the
    original coefficient and that of the second the coefficient as the
    first policy left it. *)
Theorem stacked_activations_compound
  (s : store Interaction) (i j : nat) (pi pj : Policy)
  (bfi bfj : dict float) (obi obj : dict (option float)) :
  i <> j ->
  policies s !! i = Some pi ->
  policies s !! j = Some pj ->
  body pi = SocialDistancing bfi obi ->
  body pj = SocialDistancing bfj obj ->
  dict_wf bfi ->
  dict_wf bfj ->
  (forall k, k ∈ dict_keys bfi ++ dict_keys bfj ->
     exists x, beta (collab s) !! k = Some (Some x)) ->
  exists s1 s2 obi' obj',
    save_and_scale_betas i s = (Return tt, s1)
    /\ save_and_scale_betas j s1 = (Return tt, s2)
    /\ policies s2 !! i = Some (with_body pi (SocialDistancing bfi obi'))
    /\ policies s2 !! j = Some (with_body pj (SocialDistancing bfj obj'))
    /\ (forall k vi vj x,
          dict_get k bfi = Some vi ->
          dict_get k bfj = Some vj ->
          beta (collab s) !! k = Some (Some x) ->
          beta (collab s2) !! k = Some (Some (x * vi * vj)%float)
          /\ dict_get k obi' = Some (Some x)
          /\ dict_get k obj' = Some (Some (x * vi)%float)).
Proof.
  intros Hne Hpi Hpj Hbi Hbj Hwfi Hwfj Hkeys.
  assert (Hleni : (i < length (policies s))%nat) by by eapply lookup_lt_Some.
  destruct (save_and_scale_betas_run i pi bfi obi s Hpi Hbi Hwfi)
    as (s1 & obi' & Hrun1 & Hpol1 & Hobi & Hbeta1 & _).
  { intros k Hk. apply Hkeys, elem_of_app. by left. }
  assert (Hpj1 : policies s1 !! j = Some pj).
  { rewrite Hpol1. by rewrite list_lookup_insert_ne. }
  assert (Hlenj : (j < length (policies s1))%nat) by by eapply lookup_lt_Some.
  destruct (save_and_scale_betas_run j pj bfj obj s1 Hpj1 Hbj Hwfj)
    as (s2 & obj' & Hrun2 & Hpol2 & Hobj & Hbeta2 & _).
  { intros k Hk. destruct (Hkeys k) as [x Hx]; [apply elem_of_app; by right|].
    rewrite Hbeta1, Hx. destruct (dict_get k bfi); by eexists. }
  exists s1, s2, obi', obj'. repeat split; try done.
  - rewrite Hpol2, list_lookup_insert_ne, Hpol1 by done.
    by apply list_lookup_insert_eq.
  - rewrite Hpol2. by apply list_lookup_insert_eq.
  - rewrite Hbeta2, H0, Hbeta1, H, H1. done.
  - rewrite Hobi, decide_True; [done|].
    apply dict_get_is_Some. by eexists.
  - rewrite Hobj, decide_True.
    + by rewrite Hbeta1, H, H1.
    + apply dict_get_is_Some. by eexists.
Qed.

Lemma stacked_activations_compound_witness :
  exists s1 s2,
    save_and_scale_betas 1 stacked_distancing_store = (Return tt, s1)
    /\ save_and_scale_betas 2 s1 = (Return tt, s2)
    /\ beta (collab s2) !! "household" = Some (Some (2 * 0.5 * 0.25)%float).
Proof.
  destruct (stacked_activations_compound stacked_distancing_store 1 2
              household_distancing
              (new_SocialDistancing (day 10) (day 30)
                 [("household", 0.25%float)])
              [("household", 0.5%float)] [("household", 0.25%float)]
              [("household", None)] [("household", None)])
    as (s1 & s2 & obi & obj & H1 & H2 & _ & _ & Hkey); try reflexivity.
  - discriminate.
  - apply NoDup_singleton.
  - apply NoDup_singleton.
  - intros k Hk. exists 2%float.
    apply elem_of_cons in Hk as [->|Hk]; [reflexivity|].
    apply list_elem_of_singleton in Hk as ->. reflexivity.
  - exists s1, s2. split; [done|]. split; [done|].
    by apply (Hkey "household" 0.5%float 0.25%float 2%float).
Defined.

(** ** More on leisure probabilities *)

(** The activation loop followed by the restoration loop of the same
    policy. *)
Lemma activate_then_restore_leisure i p lp ol (s : store Leisure) :
  policies s !! i = Some p ->
  body p = ChangeLeisureProbability lp ol ->
  dict_wf lp ->
  (forall k, k ∈ dict_keys lp ->
     is_Some (leisure_distributors (collab s) !! k)
     /\ is_Some (dict_get k ol)) ->
  exists s1 s2 ol1,
    activate_leisure i s = (Return tt, s1)
    /\ policies s1
       = <[i := with_body p (ChangeLeisureProbability lp ol1)]> (policies s)
    /\ (forall k,
          leisure_distributors (collab s1) !! k
          = match dict_get k lp with
            | Some configured => Some (configured_distributor configured)
            | None => leisure_distributors (collab s) !! k
            end)
    /\ restore_leisure i s1 = (Return tt, s2)
    /\ policies s2 = policies s1
    /\ leisure_distributors (collab s2) = leisure_distributors (collab s).
Proof.
  intros Hp Hbody Hwf Hkeys.
  assert (Hlen : (i < length (policies s))%nat) by by eapply lookup_lt_Some.
  destruct (activate_leisure_loop_run i p lp lp s ol Hwf)
    as (s1 & ol1 & Hrun1 & Hpol1 & Hol1 & Htable1); [|done|].
  { by rewrite (with_body_same _ _ Hbody). }
  assert (Hp1 : policies s1 !! i
                = Some (with_body p (ChangeLeisureProbability lp ol1))).
  { rewrite Hpol1. by apply list_lookup_insert_eq. }
  assert (Hsaved : forall k, k ∈ dict_keys lp ->
            saved_distributor ol1 k = leisure_distributors (collab s) !! k).
  { intros k Hk. destruct (Hkeys k Hk) as [[d Hd] [snapshot Hsnap]].
    rewrite Hd. apply (saved_distributor_of_captured _ _ _ snapshot).
    rewrite Hol1, decide_True by done. by rewrite Hd, Hsnap. }
  destruct (restore_leisure_loop_run i _ lp ol1 lp s1 Hp1 eq_refl)
    as (s2 & Hrun2 & Hpol2 & Htable2).
  { intros k Hk. split.
    - rewrite Htable1. apply dict_get_is_Some in Hk as [c ->]. by eexists.
    - rewrite (Hsaved k Hk). by apply Hkeys. }
  exists s1, s2, ol1. repeat split; try done.
  - unfold activate_leisure.
    by rewrite (bind_Return _ _ _ _ _ (get_policy_Some _ _ _ Hp)), Hbody.
  - unfold restore_leisure.
    by rewrite (bind_Return _ _ _ _ _ (get_policy_Some _ _ _ Hp1)).
  - apply map_eq. intros k. rewrite Htable2.
    destruct (decide (k ∈ dict_keys lp)) as [Hin|Hout].
    + by apply Hsaved.
    + rewrite Htable1. apply dict_get_None in Hout. by rewrite Hout.
Qed.

(** X13: for a [ChangeLeisureProbability] policy whose activities all
    have a distributor, the activation loop switches every configured
    activity to the configured curves, and the restoration loop that
    follows puts the whole table of distributors back exactly as it was
    before the activation. *)
Theorem leisure_activation_then_restoration
  (s : store Leisure) (i : nat) (p : Policy) (lp : dict by_sex)
  (ol : dict (dict curve)) :
  policies s !! i = Some p ->
  body p = ChangeLeisureProbability lp ol ->
  dict_wf lp ->
  (forall k, k ∈ dict_keys lp ->
     is_Some (leisure_distributors (collab s) !! k)
     /\ is_Some (dict_get k ol)) ->
  exists s1 s2,
    activate_leisure i s = (Return tt, s1)
    /\ (forall k configured,
          dict_get k lp = Some configured ->
          leisure_distributors (collab s1) !! k
          = Some (configured_distributor configured))
    /\ (forall k, k ∉ dict_keys lp ->
          leisure_distributors (collab s1) !! k
          = leisure_distributors (collab s) !! k)
    /\ restore_leisure i s1 = (Return tt, s2)
    /\ leisure_distributors (collab s2) = leisure_distributors (collab s).
Proof.
  intros Hp Hbody Hwf Hkeys.
  destruct (activate_then_restore_leisure i p lp ol s Hp Hbody Hwf Hkeys)
    as (s1 & s2 & ol1 & Hrun1 & _ & Htable1 & Hrun2 & _ & Hback).
  exists s1, s2. repeat split; try done.
  - intros k c Hc. by rewrite Htable1, Hc.
  - intros k Hout. rewrite Htable1.
    apply dict_get_None in Hout. by rewrite Hout.
Qed.

Lemma leisure_activation_then_restoration_witness :
  exists s1 s2,
    activate_leisure 1 pubs_store = (Return tt, s1)
    /\ restore_leisure 1 s1 = (Return tt, s2)
    /\ leisure_distributors (collab s2) = leisure_distributors leisure_with_pubs.
Proof.
  destruct (leisure_activation_then_restoration pubs_store 1
              quiet_pubs_policy [("pubs", quiet_pubs)] [("pubs", [])])
    as (s1 & s2 & H1 & _ & _ & H2 & Hback).
  - reflexivity.
  - reflexivity.
  - apply NoDup_singleton.
  - intros k ->%list_elem_of_singleton. split; by eexists.
  - by exists s1, s2.
Defined.

(** *** A whole window *)

Lemma select_from_none n keep ps :
  (forall j q, ps !! j = Some q -> keep q = false) ->
  select_from n keep ps = [].
Proof.
  revert n. induction ps as [|q ps IH]; intros n Hnone; simpl; [done|].
  rewrite (Hnone 0%nat q eq_refl). apply IH.
  intros j q' Hq'. by apply (Hnone (S j)).
Qed.

Lemma select_from_only n keep ps i p :
  ps !! i = Some p ->
  keep p = true ->
  (forall j q, ps !! j = Some q -> keep q = true -> j = i) ->
  select_from n keep ps = [(n + i)%nat].
Proof.
  revert n i. induction ps as [|q ps IH]; intros n i Hp Hkeep Honly; [done|].
  destruct i as [|i]; simpl in *.
  - injection Hp as ->. rewrite Hkeep, Nat.add_0_r. f_equal.
    apply select_from_none. intros j q Hq.
    destruct (keep q) eqn:Hkq; [|done].
    by specialize (Honly (S j) q Hq Hkq).
  - destruct (keep q) eqn:Hkq.
    + by specialize (Honly 0%nat q eq_refl Hkq).
    + replace (n + S i)%nat with (S n + i)%nat by lia.
      apply IH; [done..|].
      intros j q' Hq' Hkq'. specialize (Honly (S j) q' Hq' Hkq'). lia.
Qed.

Lemma for_each_singleton_Return {S X} (x : X) (body : X -> M S unit) s s' :
  body x s = (Return tt, s') -> for_each [x] body s = (Return tt, s').
Proof. intros Hx. simpl. by rewrite (bind_Return _ _ _ _ _ Hx). Qed.

(** X14: in a registry with one [ChangeLeisureProbability] policy, whose
    window is not empty and whose activities all have a distributor, the
    call of the applier for the policy's [start_time] switches the
    configured activities to the configured curves, and the call for its
    [end_time] puts the table of distributors back exactly as it was
    before the window. *)
Theorem leisure_window_round_trip
  (s : store Leisure) (i : nat) (p : Policy) (lp : dict by_sex)
  (ol : dict (dict curve)) :
  policies s !! i = Some p ->
  body p = ChangeLeisureProbability lp ol ->
  start_time p < end_time p ->
  (forall j q, policies s !! j = Some q ->
     is_ChangeLeisureProbability q = true -> j = i) ->
  dict_wf lp ->
  (forall k, k ∈ dict_keys lp ->
     is_Some (leisure_distributors (collab s) !! k)
     /\ is_Some (dict_get k ol)) ->
  exists s1 s2,
    apply_change_probabilities_leisure (start_time p) s = (Return tt, s1)
    /\ (forall k configured,
          dict_get k lp = Some configured ->
          leisure_distributors (collab s1) !! k
          = Some (configured_distributor configured))
    /\ apply_change_probabilities_leisure (end_time p) s1 = (Return tt, s2)
    /\ leisure_distributors (collab s2) = leisure_distributors (collab s).
Proof.
  intros Hp Hbody Hwindow Honly Hwf Hkeys.
  assert (Hlen : (i < length (policies s))%nat) by by eapply lookup_lt_Some.
  destruct (activate_then_restore_leisure i p lp ol s Hp Hbody Hwf Hkeys)
    as (s1 & s2 & ol1 & Hrun1 & Hpol1 & Htable1 & Hrun2 & _ & Hback).
  assert (Hp1 : policies s1 !! i
                = Some (with_body p (ChangeLeisureProbability lp ol1))).
  { rewrite Hpol1. by apply list_lookup_insert_eq. }
  exists s1, s2. split; [|split; [|split]].
  - rewrite apply_change_probabilities_leisure_unfold.
    rewrite (select_from_only 0 _ _ i p Hp); [| |].
    + apply for_each_singleton_Return. rewrite Nat.add_0_l.
      unfold change_leisure.
      rewrite (bind_Return _ _ _ _ _ (get_policy_Some _ _ _ Hp)).
      by rewrite Z.eqb_refl.
    + unfold is_ChangeLeisureProbability, is_active. rewrite Hbody. simpl.
      apply andb_true_iff. split; apply Z.leb_le; lia.
    + intros j q Hq [Hclp _]%andb_true_iff. by eapply Honly.
  - intros k c Hc. by rewrite Htable1, Hc.
  - rewrite apply_change_probabilities_leisure_unfold.
    rewrite (select_from_only 0 _ _ i _ Hp1); [| |].
    + apply for_each_singleton_Return. rewrite Nat.add_0_l.
      unfold change_leisure.
      rewrite (bind_Return _ _ _ _ _ (get_policy_Some _ _ _ Hp1)).
      simpl. assert (Hne : start_time p <> end_time p) by lia.
      apply Z.eqb_neq in Hne. by rewrite Hne, Z.eqb_refl.
    + unfold is_ChangeLeisureProbability, is_active. simpl.
      apply andb_true_iff. split; apply Z.leb_le; lia.
    + intros j q Hq [Hclp _]%andb_true_iff.
      destruct (decide (j = i)) as [|Hne]; [done|].
      rewrite Hpol1, list_lookup_insert_ne in Hq by done.
      by eapply Honly.
  - done.
Qed.

Lemma leisure_window_round_trip_witness :
  exists s1 s2,
    apply_change_probabilities_leisure (day 10) pubs_store = (Return tt, s1)
    /\ apply_change_probabilities_leisure (day 20) s1 = (Return tt, s2)
    /\ leisure_distributors (collab s2) = leisure_distributors leisure_with_pubs.
Proof.
  destruct (leisure_window_round_trip pubs_store 1 quiet_pubs_policy
              [("pubs", quiet_pubs)] [("pubs", [])])
    as (s1 & s2 & H1 & _ & H2 & Hback).
  - reflexivity.
  - reflexivity.
  - reflexivity.
  - intros [|[|[|j]]] q Hq Hclp; try done.
    injection Hq as <-. discriminate.
  - apply NoDup_singleton.
  - intros k ->%list_elem_of_singleton. split; by eexists.
  - by exists s1, s2.
Defined.

(** *** Restoration without activation *)

(** X15: a [ChangeLeisureProbability] policy that was never activated has
    nothing to restore.  When the daily loop reaches such a policy on its
    [end_time], and its first configured activity has a distributor, the
    applier raises [KeyError] on reading the empty snapshot, and leaves
    the state as it was when the policy was reached. *)
Theorem restoration_without_activation_KeyError
  (date : datetime) (s s1 : store Leisure) (before after : list nat)
  (i : nat) (t0 : datetime) (lap : dict by_sex) (activity : string)
  (configured : by_sex) (rest : dict by_sex) :
  select_from 0
    (fun policy => is_ChangeLeisureProbability policy && is_active policy date)
    (policies s) = before ++ i :: after ->
  for_each before (change_leisure date) s = (Return tt, s1) ->
  policies s1 !! i = Some (new_ChangeLeisureProbability t0 date lap) ->
  t0 <> date ->
  dict_wf lap ->
  lap = (activity, configured) :: rest ->
  is_Some (leisure_distributors (collab s1) !! activity) ->
  apply_change_probabilities_leisure date s = (Raise KeyError, s1).
Proof.
  intros Hsel Hbefore Hp Hstart Hwf Hlap [d Hd].
  pose proof (new_ChangeLeisureProbability_body t0 date lap Hwf) as Hbody.
  rewrite apply_change_probabilities_leisure_unfold, Hsel.
  rewrite for_each_app, (bind_Return _ _ _ _ _ Hbefore). simpl.
  apply bind_Raise. unfold change_leisure.
  rewrite (bind_Return _ _ _ _ _ (get_policy_Some _ _ _ Hp)).
  change (start_time (new_ChangeLeisureProbability t0 date lap)) with t0.
  change (end_time (new_ChangeLeisureProbability t0 date lap)) with date.
  apply Z.eqb_neq in Hstart. rewrite Hstart, Z.eqb_refl.
  unfold restore_leisure.
  rewrite (bind_Return _ _ _ _ _ (get_policy_Some _ _ _ Hp)), Hbody.
  rewrite Hlap. simpl for_each. apply bind_Raise.
  unfold restore_leisure_activity.
  rewrite (bind_Return get _ s1 s1 s1 eq_refl), Hd.
  apply bind_Raise. unfold get_original_leisure_probability.
  rewrite (bind_Return _ _ _ _ _ (get_policy_Some _ _ _ Hp)).
  rewrite Hbody, Hlap. csimpl.
  unfold dict_item. simpl. rewrite decide_True by done.
  reflexivity.
Qed.

(** The first call for the pubs is the one for day 20. *)
Lemma restoration_without_activation_KeyError_witness :
  apply_change_probabilities_leisure (day 20) pubs_store
  = (Raise KeyError, pubs_store).
Proof.
  apply (restoration_without_activation_KeyError (day 20) pubs_store
           pubs_store [] [] 1 (day 10) [("pubs", quiet_pubs)] "pubs"
           quiet_pubs []); try reflexivity.
  - discriminate.
  - apply NoDup_singleton.
  - by eexists.
Defined.

(** ** What the appliers write *)

Section LeisureWrites.

(** [J]: a property of the state that the two kinds of writes of the
    leisure applier keep. *)
Variable J : store Leisure -> Prop.
Hypothesis J_distributor :
  forall activity f, preserves J (update_distributor activity f).
Hypothesis J_snapshot :
  forall j activity sex c,
    preserves J (set_original_leisure_probability j activity sex c).

Lemma writes_restore_leisure j : preserves J (restore_leisure j).
Proof.
  apply preserves_bind; [apply preserves_get_policy|].
  intros q. destruct (body q); try apply preserves_raise.
  apply preserves_for_each. intros [activity c].
  apply preserves_bind; [apply preserves_get|]. intros s.
  destruct (_ !! _); [|apply preserves_raise].
  apply preserves_bind;
    [apply preserves_get_original_leisure_probability|]. intros m.
  apply preserves_bind; [apply J_distributor|]. intros _.
  apply preserves_bind;
    [apply preserves_get_original_leisure_probability|]. intros w.
  apply J_distributor.
Qed.

Lemma writes_activate_leisure j : preserves J (activate_leisure j).
Proof.
  apply preserves_bind; [apply preserves_get_policy|].
  intros q. destruct (body q); try apply preserves_raise.
  apply preserves_for_each. intros [activity c].
  apply preserves_bind; [apply preserves_get|]. intros s.
  destruct (_ !! _); [|apply preserves_raise].
  apply preserves_bind; [apply J_snapshot|]. intros _.
  apply preserves_bind; [apply J_snapshot|]. intros _.
  apply preserves_bind; [apply J_distributor|]. intros _.
  apply J_distributor.
Qed.

Lemma writes_apply_change_probabilities_leisure date :
  preserves J (apply_change_probabilities_leisure date).
Proof.
  apply preserves_bind.
  { apply preserves_bind; [apply preserves_get | intros; apply preserves_ret]. }
  intros selected. apply preserves_for_each. intros j.
  apply preserves_bind; [apply preserves_get_policy|].
  intros q. destruct (_ =? _); [apply writes_activate_leisure|].
  destruct (_ =? _); [apply writes_restore_leisure | apply preserves_ret].
Qed.

End LeisureWrites.

Lemma set_original_leisure_probability_writes j activity sex c
  (s : store Leisure) :
  collab (exec (set_original_leisure_probability j activity sex c) s)
  = collab s
  /\ without_original_leisure_probabilities
       <$> policies (exec (set_original_leisure_probability j activity sex c) s)
     = without_original_leisure_probabilities <$> policies s.
Proof.
  unfold exec, set_original_leisure_probability, bind, get_policy.
  destruct (policies s !! j) as [p|] eqn:Hp; [|done].
  destruct (body p) as [| | | | | | | |lp ol] eqn:Hbody; try done.
  unfold lift. destruct (dict_item activity ol); [|done].
  unfold set_body, bind, get_policy. rewrite Hp. simpl. split; [done|].
  rewrite list_fmap_insert. apply list_insert_id.
  rewrite list_lookup_fmap, Hp. simpl.
  unfold without_original_leisure_probabilities. simpl. by rewrite Hbody.
Qed.

Lemma set_original_beta_writes j key b (s : store Interaction) :
  collab (exec (set_original_beta j key b) s) = collab s
  /\ without_original_betas <$> policies (exec (set_original_beta j key b) s)
     = without_original_betas <$> policies s.
Proof.
  unfold exec, set_original_beta, bind, get_policy.
  destruct (policies s !! j) as [p|] eqn:Hp; [|done].
  destruct (body p) as [bf ob| | | | | | | |] eqn:Hbody; try done.
  unfold set_body, bind, get_policy. rewrite Hp. simpl. split; [done|].
  rewrite list_fmap_insert. apply list_insert_id.
  rewrite list_lookup_fmap, Hp. simpl.
  unfold without_original_betas. simpl. by rewrite Hbody.
Qed.

(** Scaling a coefficient keeps the keys of the table: the key was read
    before it is written. *)
Lemma save_and_scale_beta_dom D i key value :
  preserves (fun s : store Interaction => dom (beta (collab s)) = D)
    (save_and_scale_beta i key value).
Proof.
  intros s Hs. unfold save_and_scale_beta, bind at 1, load_beta at 1.
  destruct (beta (collab s) !! key) as [b|] eqn:Hkey; [|done].
  unfold bind at 1.
  pose proof (set_original_beta_writes i key b s) as [Hcollab _].
  unfold exec in Hcollab.
  destruct (set_original_beta i key b s) as [[[]|e] s1]; simpl in Hcollab;
    [|simpl; by rewrite Hcollab].
  unfold bind at 1, load_beta. rewrite Hcollab, Hkey.
  destruct b as [x|]; simpl; [|by rewrite Hcollab].
  rewrite Hcollab, dom_insert_L, <- Hs.
  apply elem_of_dom_2 in Hkey.
  apply leibniz_equiv, subseteq_union_1, singleton_subseteq_l, Hkey.
Qed.

(** X16: the appliers write snapshots and values, nothing else.  After a
    call of either applier, whether it returned or raised, the registry
    has the same policies as before but for the snapshots of the
    applier's own family (the same length, classes, windows and
    configured parameters; every policy of another family untouched), and
    the collaborator's table has the same keys as before. *)
Theorem appliers_write_snapshots_and_values_only :
  (forall date (s : store Interaction),
     without_original_betas
       <$> policies (exec (apply_social_distancing_policy date) s)
     = without_original_betas <$> policies s
     /\ dom (beta (collab (exec (apply_social_distancing_policy date) s)))
        = dom (beta (collab s)))
  /\ (forall date (s : store Leisure),
        without_original_leisure_probabilities
          <$> policies (exec (apply_change_probabilities_leisure date) s)
        = without_original_leisure_probabilities <$> policies s
        /\ dom (leisure_distributors
                  (collab (exec (apply_change_probabilities_leisure date) s)))
           = dom (leisure_distributors (collab s))).
Proof.
  split.
  - intros date s.
    assert (Hact : forall (J : store Interaction -> Prop),
      (forall i key value, preserves J (save_and_scale_beta i key value)) ->
      J s -> J (exec (apply_social_distancing_policy date) s)).
    { intros J Hstep Hs. unfold exec.
      rewrite apply_social_distancing_policy_unfold.
      rewrite (bind_Return _ _ _ _ _ (deactivation_pass_idle date s)).
      apply (preserves_for_each J); [|done].
      intros j. apply preserves_bind; [apply preserves_get_policy|].
      intros q. destruct (_ =? _); [|apply preserves_ret].
      apply preserves_bind; [apply preserves_get_policy|].
      intros q'. destruct (body q'); try apply preserves_raise.
      apply preserves_for_each. intros [key value]. apply Hstep. }
    split.
    + apply (Hact (fun s' => without_original_betas <$> policies s'
                             = without_original_betas <$> policies s));
        [|done].
      intros i key value.
      apply preserves_bind; [apply preserves_load_beta|]. intros b.
      apply preserves_bind.
      { intros s' Hs'.
        destruct (set_original_beta_writes i key b s') as [_ Hpol].
        unfold exec in Hpol. by rewrite Hpol. }
      intros _. apply preserves_bind; [apply preserves_load_beta|]. intros b'.
      apply preserves_bind; [apply preserves_lift|]. intros c.
      by intros s' Hs'.
    + apply (Hact (fun s' => dom (beta (collab s')) = dom (beta (collab s))));
        [|done].
      intros i key value. apply save_and_scale_beta_dom.
  - intros date s. split.
    + apply (writes_apply_change_probabilities_leisure
               (fun s' => without_original_leisure_probabilities
                            <$> policies s'
                          = without_original_leisure_probabilities
                              <$> policies s)); [| |done].
      * by intros activity f s' Hs'.
      * intros j activity sex c s' Hs'.
        destruct (set_original_leisure_probability_writes j activity sex c s')
          as [_ Hpol].
        unfold exec in Hpol. by rewrite Hpol.
    + apply (writes_apply_change_probabilities_leisure
               (fun s' => dom (leisure_distributors (collab s'))
                          = dom (leisure_distributors (collab s))));
        [| |done].
      * intros activity f s' Hs'. simpl. by rewrite dom_alter_L.
      * intros j activity sex c s' Hs'.
        destruct (set_original_leisure_probability_writes j activity sex c s')
          as [Hcollab _].
        unfold exec in Hcollab. by rewrite Hcollab.
Qed.

(** ** Class names and configuration keys *)

Lemma upper_lower c : is_upper c = true -> upper (lower c) = c.
Proof.
  destruct c as [[] [] [] [] [] [] [] []]; vm_compute; congruence.
Qed.

Lemma lower_capital_not_underscore c :
  is_upper c = true -> Ascii.eqb (lower c) "_" = false.
Proof.
  destruct c as [[] [] [] [] [] [] [] []]; vm_compute; congruence.
Qed.

Lemma lower_plain c : is_upper c = false -> lower c = c.
Proof. unfold lower. by intros ->. Qed.

Lemma identifier_char_not_underscore c :
  identifier_char c = true -> Ascii.eqb c "_" = false.
Proof.
  destruct c as [[] [] [] [] [] [] [] []]; vm_compute; congruence.
Qed.

Lemma concat_empty_cons x xs :
  String.concat "" (x :: xs) = (x +:+ String.concat "" xs)%string.
Proof.
  destruct xs as [|y ys]; simpl; [|done].
  induction x as [|c x IH]; [done|].
  change (String c x = String c (x +:+ ""))%string. by f_equal.
Qed.

Lemma camel_case_key_cons c x xs :
  String.concat ""
    ((fun x => match capitalize x with
               | EmptyString => "_"
               | y => y
               end) <$> (String c x :: xs))
  = String (upper c)
      (str_lower x +:+
       String.concat ""
         ((fun x => match capitalize x with
                    | EmptyString => "_"
                    | y => y
                    end) <$> xs))%string.
Proof. rewrite fmap_cons, concat_empty_cons. reflexivity. Qed.

(** The words of the key of a name: the first one is what precedes the
    first capital; put together again they are the name. *)
Lemma split_underscore_capitals s :
  identifier_chars s = true ->
  exists h t,
    split_underscore (str_lower (underscore_capitals s)) = h :: t
    /\ (str_lower h +:+
        String.concat ""
          ((fun x => match capitalize x with
                     | EmptyString => "_"
                     | y => y
                     end) <$> t))%string = s.
Proof.
  induction s as [|c s IH]; simpl.
  - intros _. by exists "", [].
  - intros [Hc Hs]%andb_true_iff. destruct (IH Hs) as (h & t & Hsplit & Hcat).
    destruct (is_upper c) eqn:Hup; simpl.
    + rewrite (lower_capital_not_underscore c Hup), Hsplit.
      exists "", (String (lower c) h :: t). split; [done|].
      rewrite camel_case_key_cons, (upper_lower c Hup), Hcat. reflexivity.
    + rewrite (lower_plain c Hup), (identifier_char_not_underscore c Hc), Hsplit.
      exists (String c h), t. split; [done|].
      rewrite <- Hcat. cbn [str_lower]. by rewrite (lower_plain c Hup).
Qed.

(** X17: the key that [from_file] accepts for a class is the class's
    [spec].  For every name made of a capital letter followed by ASCII
    letters and digits, the camel-case conversion of [from_file], applied
    to what [get_spec] makes of the name, gives the name back; so
    [get_spec] maps different such names to different keys.  The names of
    the policy classes are such names: the [spec] of every policy, used
    as a key of the configuration, names the policy's class. *)
Theorem camel_case_key_get_spec :
  (forall name, camel_case name = true ->
     camel_case_key (get_spec name) = name)
  /\ (forall name name', camel_case name = true -> camel_case name' = true ->
        get_spec name = get_spec name' -> name = name')
  /\ (forall policy,
        camel_case_key (get_spec (class_name policy)) = class_name policy).
Proof.
  assert (Hround : forall name, camel_case name = true ->
            camel_case_key (get_spec name) = name).
  { intros [|c s]; [discriminate|]. simpl.
    intros [Hc Hs]%andb_true_iff.
    destruct (split_underscore_capitals s Hs) as (h & t & Hsplit & Hcat).
    unfold camel_case_key. simpl.
    rewrite (lower_capital_not_underscore c Hc), Hsplit.
    rewrite camel_case_key_cons, (upper_lower c Hc), Hcat. reflexivity. }
  split; [exact Hround|]. split.
  - intros name name' H H' Heq.
    rewrite <- (Hround name H), <- (Hround name' H'). by rewrite Heq.
  - intros policy. apply Hround. unfold class_name. by destruct (body policy).
Qed.

Lemma camel_case_key_get_spec_witness :
  camel_case_key (get_spec "CloseSchools") = "CloseSchools"
  /\ get_spec "CloseSchools" = "close_schools".
Proof.
  split; [|reflexivity].
  apply (proj1 camel_case_key_get_spec "CloseSchools"). reflexivity.
Defined.

(** ** Window bounds *)

Lemma date_of_combine_min d : date_of (combine_min d) = d.
Proof. unfold date_of, combine_min, us_per_day. by rewrite Z.div_mul. Qed.

(** X18: [read_date] keeps the day of a date-like value and drops its
    time of day.  A [datetime] is read as the midnight at or before it,
    less than a day earlier, the same value as its date is read as;
    reading the result again changes nothing. *)
Theorem read_date_drops_time_of_day (strptime : string -> option datetime)
  (t : datetime) :
  exists midnight,
    read_date strptime (PyDateTime t) = Return midnight
    /\ midnight <= t < midnight + us_per_day
    /\ read_date strptime (PyDate (date_of t)) = Return midnight
    /\ read_date strptime (PyDateTime midnight) = Return midnight.
Proof.
  exists (combine_min (date_of t)). simpl.
  rewrite date_of_combine_min. repeat split.
  - unfold combine_min, date_of, us_per_day.
    pose proof (Z.mul_div_le t 86400000000). lia.
  - unfold combine_min, date_of, us_per_day.
    pose proof (Z.mul_succ_div_gt t 86400000000). lia.
Qed.
